(** * UDIN document portal: OTP registration, upload de-duplication, pricing

    Shallow embedding of
    - [backend/services/authService.js] (class [AuthService]),
    - the link-based [AuthService] variant that ships next to it,
    - [backend/controllers/uploadController.js] ([uploadFiles], both as
      its text attempts it and as the module is shipped: the text is
      refused when it is loaded),
    - the client payment page ([Payment], pricing, render lists and
      [withRetry]),
    - the verification dialog of the signup page (the cells of the code and
      the countdown),
    followed by the properties the specification states about them and by
    further properties of the same code.

    Conventions.  A MongoDB collection is the list of its documents in
    insertion order; [findOne] returns the first match, [deleteOne] removes
    the first match, [deleteMany] removes all of them and [create] appends.
    A thrown [Error] is the [Throw] result carrying its message; whatever was
    written before the throw stays written (the services use no
    transaction).  The clock, the random source and the database-assigned
    object ids are inputs of every call. *)

From Stdlib Require Import ZArith Lia Bool Ascii String.
From stdpp Require Import gmap strings list.

Set Warnings "-clear-no-such-hyp".

Open Scope Z_scope.

(** ** JavaScript numbers

    Finite binary64 values are written [mant * 2 ^ expo].  Every arithmetic
    operation computes the exact result and rounds it to 53 significant bits,
    ties to even, as IEEE 754 prescribes.  The exponent is unbounded: the
    quantities of this program (prices in rupees, a six digit code) stay far
    from the overflow and underflow thresholds.  NaN and the infinities are
    not represented. *)
Module F64.

Record float := mk { mant : Z; expo : Z }.

(** [m / 2 ^ k] rounded to the nearest integer, ties to even
    ([0 <= m], [0 <= k]). *)
Definition rne (m k : Z) : Z :=
  let q := Z.shiftr m k in
  let r2 := 2 * (m - Z.shiftl q k) in
  let p := 2 ^ k in
  if r2 <? p then q
  else if p <? r2 then q + 1
  else if Z.even q then q else q + 1.

(** Rounding of the exact value [m * 2 ^ e] to 53 significant bits. *)
Definition round53 (m e : Z) : float :=
  let a := Z.abs m in
  let k := Z.max 0 (Z.log2 a - 52) in
  mk (Z.sgn m * rne a k) (e + k).

Definition of_Z (n : Z) : float := round53 n 0.

Definition mul (a b : float) : float :=
  round53 (mant a * mant b) (expo a + expo b).

Definition add (a b : float) : float :=
  let e := Z.min (expo a) (expo b) in
  round53 (mant a * 2 ^ (expo a - e) + mant b * 2 ^ (expo b - e)) e.

(** [Math.floor]. *)
Definition Math_floor (a : float) : Z := Z.shiftl (mant a) (expo a).

(** [Math.round]: the integer nearest to the argument, halves going up;
    computed on the exact value, as the language defines it. *)
Definition Math_round (a : float) : Z :=
  if 0 <=? expo a then Z.shiftl (mant a) (expo a)
  else Z.shiftr (2 * mant a + 2 ^ (- expo a)) (- expo a) / 2.

(** Truthiness of a number: every value but zero. *)
Definition truthy (a : float) : bool := negb (mant a =? 0).

(** The literals [1.5] and [0.18].  The second one is not a binary
    fraction; the constant is the double the literal denotes
    (see [lit_0_18_nearest]). *)
Definition lit_1_5 : float := mk 3 (-1).
Definition lit_0_18 : float := mk 6485183463413514 (-55).

(** A draw of [Math.random()]: a multiple of [2 ^ -53] in [[0, 1)], read off
    an integer of entropy. *)
Definition Math_random (entropy : Z) : float := mk (entropy mod 2 ^ 53) (-53).

End F64.

(** ** Strings of numbers and thrown errors *)
Module JS.

Definition digit (d : Z) : ascii :=
  ascii_of_nat (48 + Z.to_nat d).

Fixpoint digits (fuel : nat) (n : Z) (acc : string) : string :=
  match fuel with
  | O => acc
  | S fuel' =>
      let acc' := String (digit (n mod 10)) acc in
      if n <? 10 then acc' else digits fuel' (n / 10) acc'
  end.

(** [Number.prototype.toString] on a non-negative integer. *)
Definition toString (n : Z) : string :=
  digits (S (Z.to_nat (Z.log2 n))) n "".

(** The double quote character, for messages that quote a file name. *)
Definition dquote : string := String (ascii_of_nat 34) "".

Definition quoted (s : string) : string := dquote ++ s ++ dquote.

(** [s.split(sep).pop()]: what follows the last separator. *)
Fixpoint split_pop (sep : ascii) (s cur : string) : string :=
  match s with
  | EmptyString => cur
  | String c s' =>
      if Ascii.eqb c sep then split_pop sep s' ""
      else split_pop sep s' (cur ++ String c "")
  end.

(** Truthiness of a string: every string but the empty one. *)
Definition truthy (s : string) : bool :=
  match s with EmptyString => false | _ => true end.

(** [a || b] on a possibly undefined string. *)
Definition or_else (a : option string) (b : string) : string :=
  match a with
  | Some s => if truthy s then s else b
  | None => b
  end.

(** [a ?? b] on a possibly undefined string. *)
Definition nullish (a : option string) (b : string) : string :=
  match a with Some s => s | None => b end.

Inductive Result (A : Type) : Type :=
  | Ok (a : A)
  | Throw (message : string).
Arguments Ok {A} a.
Arguments Throw {A} message.

Definition is_Ok {A} (r : Result A) : bool :=
  match r with Ok _ => true | Throw _ => false end.

(** Computations over a store [S] that may throw. *)
Definition M (S A : Type) : Type := S -> Result A * S.

Definition ret {S A} (a : A) : M S A := fun s => (Ok a, s).
Definition throw {S A} (msg : string) : M S A := fun s => (Throw msg, s).
Definition bind {S A B} (c : M S A) (k : A -> M S B) : M S B :=
  fun s => match c s with
           | (Ok a, s') => k a s'
           | (Throw msg, s') => (Throw msg, s')
           end.
Definition try_catch {S A} (c : M S A) (handler : string -> M S A) : M S A :=
  fun s => match c s with
           | (Ok a, s') => (Ok a, s')
           | (Throw msg, s') => handler msg s'
           end.
Definition gets {S A} (f : S -> A) : M S A := fun s => (Ok (f s), s).
Definition modify {S} (f : S -> S) : M S unit := fun s => (Ok tt, f s).

End JS.

#[global] Instance M_ret {S} : MRet (JS.M S) := @JS.ret S.
#[global] Instance M_bind {S} : MBind (JS.M S) := fun A B k c => JS.bind c k.

(** ** MongoDB collections through Mongoose

    The queries the services issue, on a collection kept as the list of its
    documents.  [findOne] also yields the position of the document it
    returns: it is the document's identity for a later [save]. *)
Module Mongo.

Section Collection.
Context {A : Type} (P : A -> Prop) `{!∀ x, Decision (P x)}.

Definition findOne (c : list A) : option (nat * A) := list_find P c.

Definition deleteOne (c : list A) : list A :=
  match list_find P c with
  | Some (i, _) => delete i c
  | None => c
  end.

Definition deleteMany (c : list A) : list A := filter (fun x => ¬ P x) c.
End Collection.

Definition create {A} (x : A) (c : list A) : list A := c ++ [x].

Definition save {A} (i : nat) (x : A) (c : list A) : list A := <[i := x]> c.

End Mongo.

(** ** [backend/services/authService.js]

    Each method is a computation over the two collections; fields that
    several records share ([email], [userId], ...) carry the initials of
    their record. *)
Module AuthService.

Module User.
Record t := mk {
    _id : string;
    userId : string;
    name : string;
    email : string;
    mobile : string;
    password : string;
    address : string;
    isEmailVerified : bool;
    isActive : bool;
    role : string;
    lastLogin : option Z;
    emailVerificationToken : option string;
    emailVerificationExpires : option Z
  }.

Definition set_isEmailVerified (b : bool) (u : t) : t :=
    mk (_id u) (userId u) (name u) (email u) (mobile u) (password u)
       (address u) b (isActive u) (role u) (lastLogin u)
       (emailVerificationToken u) (emailVerificationExpires u).

Definition set_lastLogin (d : Z) (u : t) : t :=
    mk (_id u) (userId u) (name u) (email u) (mobile u) (password u)
       (address u) (isEmailVerified u) (isActive u) (role u) (Some d)
       (emailVerificationToken u) (emailVerificationExpires u).

Definition set_emailVerification (token : string) (expires : Z) (u : t) : t :=
    mk (_id u) (userId u) (name u) (email u) (mobile u) (password u)
       (address u) (isEmailVerified u) (isActive u) (role u) (lastLogin u)
       (Some token) (Some expires).
End User.

Module EmailVerification.
Record t := mk {
    email : string;
    otp : string;
    verificationId : string;
    expiresAt : Z
  }.
End EmailVerification.

(** The two collections the service reads and writes. *)
Record Db := mkDb {
  users : list User.t;
  emailVerifications : list EmailVerification.t
}.

Definition with_users (f : list User.t -> list User.t) (db : Db) : Db :=
  mkDb (f (users db)) (emailVerifications db).

Definition with_emailVerifications
    (f : list EmailVerification.t -> list EmailVerification.t) (db : Db) : Db :=
  mkDb (users db) (f (emailVerifications db)).

(** What a call reads from outside the database: [Date.now()], the bytes
    [crypto.randomBytes] hands out (already in hexadecimal), the entropy
    behind [Math.random()] and the [_id] MongoDB gives a new document. *)
Record Env := mkEnv {
  Date_now : Z;
  randomBytes8 : string;
  randomBytes16 : string;
  randomBytes32 : string;
  random_entropy : Z;
  objectId : string
}.

(** Code the service calls and the repository does not show here:
    [bcryptjs], [jsonwebtoken], the static [User.generateUserId] and the
    defaults of the [User] schema. *)
Record Externals := mkExternals {
  bcrypt_hash : string -> Z -> string;
  bcrypt_compare : string -> string -> bool;
  jwt_sign : string -> string;
  generateUserId : list User.t -> string;
  schema_isActive : bool;
  schema_role : string
}.

Record UserData := mkUserData {
  ud_name : string;
  ud_email : string;
  ud_mobile : string;
  ud_password : string;
  ud_address : string
}.

(** The object [registerUser] returns. *)
Record Registration := mkRegistration {
  reg_userId : string;
  reg_email : string;
  reg_mobile : string;
  reg_isEmailVerified : bool;
  reg_verificationId : option string;
  reg_tempPassword : option string
}.

(** The [user] object of the login and verification answers. *)
Record Profile := mkProfile {
  p_id : string;
  p_userId : string;
  p_name : string;
  p_email : string;
  p_mobile : string;
  p_role : string;
  p_isEmailVerified : bool;
  p_lastLogin : option Z
}.

Definition profile (u : User.t) : Profile :=
  mkProfile (User._id u) (User.userId u) (User.name u) (User.email u)
            (User.mobile u) (User.role u) (User.isEmailVerified u)
            (User.lastLogin u).

Record Session := mkSession {
  s_message : option string;
  s_token : string;
  s_user : Profile
}.

Record Ticket := mkTicket {
  t_verificationId : string;
  t_email : string
}.

(** [Math.floor(100000 + Math.random() * 900000).toString()] *)
Definition otp_number (entropy : Z) : Z :=
  F64.Math_floor
    (F64.add (F64.of_Z 100000)
             (F64.mul (F64.Math_random entropy) (F64.of_Z 900000))).

Definition generateOtp (entropy : Z) : string := JS.toString (otp_number entropy).

(** [15 * 60 * 1000] milliseconds. *)
Definition otp_lifetime : Z := 15 * 60 * 1000.

Section Service.
Variable ext : Externals.

Definition generateToken (id : string) : string := jwt_sign ext id.

(** The statements [registerUser], [sendOtp] and [resendOtp] share word
    for word: draw the identifier and the code, compute the expiry, store
    the record. *)
Definition issueOtp (email : string) (env : Env) : JS.M Db Ticket :=
  let verificationId := randomBytes16 env in
  let otp := generateOtp (random_entropy env) in
  let expiresAt := Date_now env + otp_lifetime in
  _ ← JS.modify (with_emailVerifications
         (Mongo.create (EmailVerification.mk email otp verificationId expiresAt)));
  mret (mkTicket verificationId email).

Definition registerUser (userData : UserData) (env : Env) : JS.M Db Registration :=
  existingUser ← JS.gets (fun db =>
    Mongo.findOne (fun u => User.email u = ud_email userData
                            ∨ User.mobile u = ud_mobile userData) (users db));
  match existingUser with
  | Some _ => JS.throw "User already exists with this email or mobile number"
  | None =>
      userId ← JS.gets (fun db => generateUserId ext (users db));
      let tempPassword := randomBytes8 env in
      let hashedTempPassword := bcrypt_hash ext tempPassword 12 in
      let user :=
        User.mk (objectId env) userId (ud_name userData) (ud_email userData)
                (ud_mobile userData) hashedTempPassword (ud_address userData)
                false (schema_isActive ext) (schema_role ext) None None None in
      _ ← JS.modify (with_users (Mongo.create user));
      ticket ← issueOtp (ud_email userData) env;
      mret (mkRegistration (User.userId user) (User.email user) (User.mobile user)
                           (User.isEmailVerified user)
                           (Some (t_verificationId ticket)) (Some tempPassword))
  end.

Definition loginUser (email password : string) (env : Env) : JS.M Db Session :=
  found ← JS.gets (fun db => Mongo.findOne (fun u => User.email u = email) (users db));
  match found with
  | None => JS.throw "Invalid credentials"
  | Some (i, user) =>
      if negb (User.isActive user) then JS.throw "Account is deactivated"
      else if negb (bcrypt_compare ext password (User.password user))
      then JS.throw "Invalid credentials"
      else
        let user := User.set_lastLogin (Date_now env) user in
        _ ← JS.modify (with_users (Mongo.save i user));
        let token := generateToken (User._id user) in
        mret (mkSession None token (profile user))
  end.

Definition verifyOtp (verificationId otp : string) (env : Env) : JS.M Db Session :=
  verificationRecord ← JS.gets (fun db =>
    Mongo.findOne (fun r => EmailVerification.verificationId r = verificationId
                            ∧ Date_now env < EmailVerification.expiresAt r)
                  (emailVerifications db));
  match verificationRecord with
  | None => JS.throw "Invalid or expired OTP"
  | Some (_, verificationRecord) =>
      if negb (String.eqb (EmailVerification.otp verificationRecord) otp)
      then JS.throw "Invalid OTP"
      else
        found ← JS.gets (fun db =>
          Mongo.findOne (fun u => User.email u = EmailVerification.email verificationRecord)
                        (users db));
        match found with
        | None => JS.throw "User not found"
        | Some (i, user) =>
            let user := User.set_isEmailVerified true user in
            let user := User.set_lastLogin (Date_now env) user in
            _ ← JS.modify (with_users (Mongo.save i user));
            _ ← JS.modify (with_emailVerifications
                   (Mongo.deleteOne
                      (fun r => EmailVerification.verificationId r = verificationId)));
            let token := generateToken (User._id user) in
            mret (mkSession (Some "Email verified successfully") token (profile user))
        end
  end.

Definition sendOtp (email : string) (env : Env) : JS.M Db Ticket :=
  existingUser ← JS.gets (fun db =>
    Mongo.findOne (fun u => User.email u = email) (users db));
  match existingUser with
  | Some _ => JS.throw "User already exists with this email"
  | None => issueOtp email env
  end.

Definition resendOtp (email : string) (env : Env) : JS.M Db Ticket :=
  existingUser ← JS.gets (fun db =>
    Mongo.findOne (fun u => User.email u = email) (users db));
  match existingUser with
  | None => JS.throw "No account found with this email address"
  | Some (_, existingUser) =>
      if User.isEmailVerified existingUser
      then JS.throw "Email is already verified"
      else
        _ ← JS.modify (with_emailVerifications
               (Mongo.deleteMany (fun r => EmailVerification.email r = email)));
        issueOtp email env
  end.

Definition getUserProfile (userId : string) : JS.M Db User.t :=
  found ← JS.gets (fun db => Mongo.findOne (fun u => User._id u = userId) (users db));
  match found with
  | None => JS.throw "User not found"
  | Some (_, user) => mret user
  end.

End Service.

End AuthService.

(** ** The link-based copy of the service

    A second [AuthService] class ships with the repository (it follows the
    signup page in [client/pages/Signup.tsx]).  Its [loginUser], [verifyOtp],
    [sendOtp] and [getUserProfile] are those of [authService.js] and it has
    no [resendOtp]; [registerUser] differs: it issues no one-time code, stores
    a verification-link token on the user instead, and writes another value
    into the verified flag. *)
Module AuthServiceLink.
Import AuthService.

(** [24 * 60 * 60 * 1000] milliseconds. *)
Definition link_lifetime : Z := 24 * 60 * 60 * 1000.

Section Service.
Variable ext : Externals.

Definition registerUser (userData : UserData) (env : Env) : JS.M Db Registration :=
  existingUser ← JS.gets (fun db =>
    Mongo.findOne (fun u => User.email u = ud_email userData
                            ∨ User.mobile u = ud_mobile userData) (users db));
  match existingUser with
  | Some _ => JS.throw "User already exists with this email or mobile number"
  | None =>
      userId ← JS.gets (fun db => generateUserId ext (users db));
      let tempPassword := randomBytes8 env in
      let hashedTempPassword := bcrypt_hash ext tempPassword 12 in
      let user :=
        User.mk (objectId env) userId (ud_name userData) (ud_email userData)
                (ud_mobile userData) hashedTempPassword (ud_address userData)
                true (schema_isActive ext) (schema_role ext) None None None in
      i ← JS.gets (fun db => length (users db));
      _ ← JS.modify (with_users (Mongo.create user));
      let emailToken := randomBytes32 env in
      let user := User.set_emailVerification emailToken
                    (Date_now env + link_lifetime) user in
      _ ← JS.modify (with_users (Mongo.save i user));
      mret (mkRegistration (User.userId user) (User.email user) (User.mobile user)
                           (User.isEmailVerified user) None None)
  end.

Definition loginUser := AuthService.loginUser ext.
Definition verifyOtp := AuthService.verifyOtp ext.
Definition sendOtp := AuthService.sendOtp.
Definition getUserProfile := AuthService.getUserProfile.
End Service.

End AuthServiceLink.

(** ** [uploadFiles] of the upload controller, as its text attempts it

    The body of the outer [try] declares [const errors] twice: first the
    validation result, then the list of per-file messages.  A JavaScript
    engine refuses the second declaration, so the text below never runs as
    it stands (see [Shipped], after this module).  This module is the
    handler with the two told apart, as the text evidently means them: the
    validation result is [validation req], the list is the [errors]
    accumulator of the loop.

    Fields that several records share ([userAgent], [documentTypeId], ...)
    carry the initials of their record. *)
Module UploadController.
Import JS.

(** A file as [multer] leaves it in [req.files]. *)
Record File := mkFile {
  path : string;
  originalname : string;
  filename : string;
  size : Z
}.

Record ReqUser := mkReqUser {
  id : string;
  isEmailVerified : bool
}.

(** The request.  [validation] is what [validationResult(req)] holds (the
    route mounts no validation chain, so it is empty on every request the
    router delivers); [body] are the text fields of the multipart form. *)
Record Request := mkRequest {
  validation : list string;
  files : option (list File);
  user : ReqUser;
  ip : string;
  userAgent : option string;
  body : gmap string string
}.

(** A parsed JSON value.  The controller only stores such values, so
    arrays and objects are kept as their text. *)
Inductive Json : Type :=
  | JNull
  | JBool (b : bool)
  | JNumber (n : Z)
  | JString (s : string)
  | JCompound (text : string).

Record DocumentMetadata := mkDocumentMetadata {
  uploadIP : string;
  md_userAgent : option string;
  checksum : string;
  md_originalId : string;
  customerInfo : option Json;
  pricingSnapshot : option Json;
  uploadMetadata : option Json
}.

Record Document := mkDocument {
  _id : string;
  userId : string;
  udin : string;
  fileName : string;
  originalName : string;
  fileType : string;
  fileSize : Z;
  filePath : string;
  documentHash : string;
  documentTypeId : string;
  tier : string;
  metadata : DocumentMetadata;
  uploadDate : Z;
  status : string
}.

(** The temporary directory (path to bytes) and the [Document]
    collection. *)
Record World := mkWorld {
  disk : gmap string string;
  documents : list Document
}.

(** Code the controller calls and the repository does not show here:
    the SHA-256 digest, [String.prototype.toLowerCase] (which lower-cases
    the letters of every script), [JSON.parse], the static
    [Document.generateUDIN], and what the [Document] schema does on
    [create]: the checks that make it throw ([schema_rejects] gives the
    message), the [_id], the default [status]. *)
Record Externals := mkExternals {
  sha256 : string -> string;
  toLowerCase : string -> string;
  JSON_parse : string -> Result Json;
  generateUDIN : list Document -> Result string;
  schema_rejects : list Document -> Document -> option string;
  objectId : list Document -> string;
  schema_status : string;
  Date_now : Z;
  Date_toISOString : string
}.

(** An entry of [uploadedFiles] in the answer. *)
Record UploadedFile := mkUploadedFile {
  uf_id : string;
  uf_udin : string;
  uf_fileName : string;
  uf_fileSize : Z;
  uf_fileType : string;
  uf_documentTypeId : string;
  uf_tier : string;
  uf_uploadDate : Z;
  uf_status : string;
  uf_originalId : string
}.

Record Data := mkData {
  uploadedFiles : list UploadedFile;
  totalUploaded : nat;
  totalRequested : nat;
  errors : option (list string)
}.

(** The status code and the JSON body of the answer. *)
Record Response := mkResponse {
  statusCode : Z;
  success : bool;
  message : string;
  validationErrors : option (list string);
  data : option Data
}.

Record BatchMetadata := mkBatchMetadata {
  bm_ip : string;
  bm_userAgent : option string;
  bm_uploadTimestamp : string;
  bm_customerInfo : option Json;
  bm_pricingSnapshot : option Json;
  bm_metadata : option Json
}.

Record FileMetadata := mkFileMetadata {
  fm_documentTypeId : string;
  fm_tier : string;
  fm_originalId : string;
  fm_name : string
}.

(** [fs.readFileSync] and [fs.unlinkSync]: both throw on a missing path. *)
Definition readFileSync (p : string) : M World string :=
  fun w => match disk w !! p with
           | Some bytes => (Ok bytes, w)
           | None => (Throw ("ENOENT: no such file or directory, open '" ++ p ++ "'"), w)
           end.

Definition unlinkSync (p : string) : M World unit :=
  fun w => match disk w !! p with
           | Some _ => (Ok tt, mkWorld (delete p (disk w)) (documents w))
           | None => (Throw ("ENOENT: no such file or directory, unlink '" ++ p ++ "'"), w)
           end.

(** [try { fs.unlinkSync(p) } catch (unlinkError) { console.error(..) }] *)
Definition unlink_logged (p : string) : M World unit :=
  try_catch (unlinkSync p) (fun _ => ret tt).

(** [files.forEach(file => { try { unlink } catch { log } })] *)
Fixpoint unlink_each (fs : list File) : M World unit :=
  match fs with
  | [] => ret tt
  | file :: rest => _ ← unlink_logged (path file); unlink_each rest
  end.

(** The key [fileMetadata[i][field]] of the form. *)
Definition fileMetadata_key (i : nat) (field : string) : string :=
  "fileMetadata[" ++ toString (Z.of_nat i) ++ "][" ++ field ++ "]".

Definition already_uploaded (file : File) : string :=
  "File " ++ quoted (originalname file) ++ " has already been uploaded".

Definition failed_to_process (file : File) (msg : string) : string :=
  "Failed to process file " ++ quoted (originalname file) ++ ": " ++ msg.

Definition successfully_uploaded (n : nat) : string :=
  "Successfully uploaded " ++ toString (Z.of_nat n) ++ " file(s)".

Section Controller.
Variable ext : Externals.

(** [field ? JSON.parse(field) : null] *)
Definition parse_field (field : option string) : M World (option Json) :=
  match field with
  | Some text =>
      if truthy text then
        match JSON_parse ext text with
        | Ok v => ret (Some v)
        | Throw msg => throw msg
        end
      else ret None
  | None => ret None
  end.

Definition Document_findOne (hash : string) : M World (option Document) :=
  gets (fun w => snd <$> Mongo.findOne (fun d => documentHash d = hash) (documents w)).

Definition Document_generateUDIN : M World string :=
  fun w => (generateUDIN ext (documents w), w).

Definition Document_create (d : Document) : M World Document :=
  fun w => match schema_rejects ext (documents w) d with
           | Some msg => (Throw msg, w)
           | None => (Ok d, mkWorld (disk w) (Mongo.create d (documents w)))
           end.

(** What one turn of the loop ends with: a document pushed on
    [uploadedDocuments], or a message pushed on [errors]. *)
Inductive Outcome : Type :=
  | Uploaded (f : UploadedFile)
  | Refused (error : string).

(** The body of the [try] inside the loop. *)
Definition tryFile (req : Request) (metadata : BatchMetadata)
    (i : nat) (file : File) : M World Outcome :=
  let fileMetadata :=
    mkFileMetadata
      (or_else (body req !! fileMetadata_key i "documentTypeId") "")
      (or_else (body req !! fileMetadata_key i "tier") "Standard")
      (or_else (body req !! fileMetadata_key i "originalId") "")
      (or_else (body req !! fileMetadata_key i "name") (originalname file)) in
  fileBuffer ← readFileSync (path file);
  let documentHash := sha256 ext fileBuffer in
  existingDoc ← Document_findOne documentHash;
  match existingDoc with
  | Some _ =>
      _ ← unlinkSync (path file);
      ret (Refused (already_uploaded file))
  | None =>
      new_udin ← Document_generateUDIN;
      new_id ← gets (fun w => objectId ext (documents w));
      document ← Document_create
        (mkDocument new_id (id (user req)) new_udin (filename file) (originalname file)
           (toLowerCase ext (split_pop "."%char (originalname file) ""))
           (size file) (path file) documentHash
           (fm_documentTypeId fileMetadata) (fm_tier fileMetadata)
           (mkDocumentMetadata (bm_ip metadata) (bm_userAgent metadata)
              documentHash (fm_originalId fileMetadata)
              (bm_customerInfo metadata) (bm_pricingSnapshot metadata)
              (bm_metadata metadata))
           (Date_now ext) (schema_status ext));
      ret (Uploaded
             (mkUploadedFile (_id document) (udin document) (originalName document)
                (fileSize document) (fileType document) (documentTypeId document)
                (tier document) (uploadDate document) (status document)
                (fm_originalId fileMetadata)))
  end.

(** One turn of the loop: the [try] and its [catch]. *)
Definition processFile (req : Request) (metadata : BatchMetadata)
    (i : nat) (file : File) : M World Outcome :=
  try_catch (tryFile req metadata i file)
    (fun msg =>
       _ ← unlink_logged (path file);
       ret (Refused (failed_to_process file msg))).

(** [for (let i = 0; i < req.files.length; i++)], from index [i] on, with
    the two accumulators. *)
Fixpoint processFiles (req : Request) (metadata : BatchMetadata) (i : nat)
    (fs : list File) (uploadedDocuments : list UploadedFile) (errors : list string)
    : M World (list UploadedFile * list string) :=
  match fs with
  | [] => ret (uploadedDocuments, errors)
  | file :: rest =>
      outcome ← processFile req metadata i file;
      match outcome with
      | Uploaded f =>
          processFiles req metadata (S i) rest (uploadedDocuments ++ [f]) errors
      | Refused e =>
          processFiles req metadata (S i) rest uploadedDocuments (errors ++ [e])
      end
  end.

Definition parseMetadata (req : Request) : M World BatchMetadata :=
  customerInfo ← parse_field (body req !! "customerInfo");
  pricingSnapshot ← parse_field (body req !! "pricingSnapshot");
  metadata ← parse_field (body req !! "metadata");
  ret (mkBatchMetadata (ip req) (userAgent req)
         (or_else (body req !! "uploadTimestamp") (Date_toISOString ext))
         customerInfo pricingSnapshot metadata).

(** The answer built after the loop. *)
Definition report (uploadedDocuments : list UploadedFile) (errors : list string)
    (requested : nat) : Response :=
  let n := length uploadedDocuments in
  mkResponse
    (if (0 <? n)%nat then 201 else 400)
    (0 <? n)%nat
    (if (0 <? n)%nat then successfully_uploaded n
     else "No files were uploaded successfully")
    None
    (Some (mkData uploadedDocuments n requested
             (if (0 <? length errors)%nat then Some errors else None))).

(** The body of the outer [try]. *)
Definition handle (req : Request) : M World Response :=
  if negb (bool_decide (validation req = [])) then
    ret (mkResponse 400 false "Validation failed" (Some (validation req)) None)
  else
    match files req with
    | None => ret (mkResponse 400 false "No files uploaded" None None)
    | Some [] => ret (mkResponse 400 false "No files uploaded" None None)
    | Some fs =>
        if negb (isEmailVerified (user req)) then
          _ ← unlink_each fs;
          ret (mkResponse 400 false
                 "Please verify your email before uploading documents" None None)
        else
          metadata ← parseMetadata req;
          '(uploadedDocuments, errors) ← processFiles req metadata 0 fs [] [];
          ret (report uploadedDocuments errors (length fs))
    end.

(** [uploadFiles(req, res)]: the answer sent and the world left behind. *)
Definition uploadFiles (req : Request) (w : World) : Response * World :=
  match handle req w with
  | (Ok res, w') => (res, w')
  | (Throw msg, w') =>
      let cleanup := match files req with
                     | Some fs => unlink_each fs
                     | None => ret tt
                     end in
      (mkResponse 500 false (if truthy msg then msg else "File upload failed") None None,
       snd (cleanup w'))
  end.

End Controller.
End UploadController.

(** ** The controller module as shipped

    Both [const errors] of [uploadFiles] (lines 34 and 81) stand directly in
    the block of the outer [try].  A name bound twice by the lexical
    declarations of one block is an early error of the language: the text is
    refused when the module is loaded, before any of it runs.  [require] of
    the controller throws a [SyntaxError], the class is never defined, the
    router that requires it is never built, and no request reaches
    [uploadFiles].  What a request gets is [Shipped.uploadFiles];
    [UploadController.uploadFiles] is what it would get with the second
    declaration renamed. *)
Module Shipped.
Import JS UploadController.

(** The [const] declarations that stand directly in the block of the outer
    [try] of [uploadFiles], in source order, each with its line. *)
Definition try_block_declarations : list (string * Z) :=
  [("errors", 34); ("metadata", 67); ("uploadedDocuments", 80); ("errors", 81);
   ("response", 169); ("statusCode", 183)].

(** The static check of a block: the first declaration of a name that an
    earlier declaration of the block has bound. *)
Fixpoint redeclared (seen : list string) (declarations : list (string * Z))
    : option (string * Z) :=
  match declarations with
  | [] => None
  | (x, line) :: rest =>
      if bool_decide (x ∈ seen) then Some (x, line) else redeclared (x :: seen) rest
  end.

(** [require("../controllers/uploadController")]: the early errors of the
    text come before anything it defines. *)
Definition load : Result unit :=
  match redeclared [] try_block_declarations with
  | Some (x, _) =>
      Throw (String.append "Identifier '"
               (String.append x "' has already been declared"))
  | None => Ok tt
  end.

(** What a request for [POST /files] gets: the answer of the handler when
    the module has loaded; no answer otherwise, the world staying as it
    is. *)
Definition uploadFiles (ext : Externals) (req : Request) (w : World)
    : option Response * World :=
  match load with
  | Ok _ => (Some (fst (UploadController.uploadFiles ext req w)),
             snd (UploadController.uploadFiles ext req w))
  | Throw _ => (None, w)
  end.

End Shipped.

(** ** The payment page: prices, totals and render lists *)
Module Payment.

(** An entry of [DOCUMENT_TYPES] (the table itself lives in
    [@shared/pricing] and is an argument here). *)
Record DocumentType := mkDocumentType {
  dt_id : string;
  dt_name : string;
  basePrice : option F64.float;
  udinRequired : bool
}.

(** An entry of [pricingState.currentOrder]. *)
Record OrderItem := mkOrderItem {
  fileId : option string;
  oi_documentTypeId : option string;
  fileName : option string;
  oi_tier : option string
}.

(** A file of the documents context or of IndexedDB. *)
Record SourceFile := mkSourceFile {
  sf_id : option string;
  sf_name : option string;
  sf_size : option Z;
  sf_documentTypeId : option string;
  sf_tier : option string
}.

(** A line of the order summary. *)
Record Item := mkItem {
  id : string;
  name : string;
  subtitle : option string;
  price : F64.float;
  tier : option string;
  item_udinRequired : bool
}.

(** A row of the upload dialog. *)
Record RenderEntry := mkRenderEntry {
  _renderKey : string;
  _identity : string;
  re_name : option string;
  re_size : option Z
}.

(** [pricingState.calculation]: the amounts computed by the server, each
    present when it is a number. *)
Record Calculation := mkCalculation {
  calc_subtotal : option F64.float;
  calc_gstAmount : option F64.float;
  calc_totalAmount : option F64.float
}.

Definition tierMultiplier (tier : option string) : F64.float :=
  match tier with
  | Some t =>
      if String.eqb t "Express" then F64.lit_1_5
      else if String.eqb t "Premium" then F64.of_Z 2
      else F64.of_Z 1
  | None => F64.of_Z 1
  end.

Definition find_type (types : list DocumentType) (documentTypeId : option string)
    : option DocumentType :=
  match documentTypeId with
  | Some i => snd <$> list_find (fun d => dt_id d = i) types
  | None => None
  end.

Definition computeFilePriceINR (types : list DocumentType)
    (documentTypeId tier : option string) (fallbackUnitPrice : F64.float)
    : F64.float :=
  match find_type types documentTypeId with
  | Some doc =>
      match basePrice doc with
      | Some b =>
          if F64.truthy b
          then F64.of_Z (F64.Math_round (F64.mul b (tierMultiplier tier)))
          else fallbackUnitPrice
      | None => fallbackUnitPrice
      end
  | None => fallbackUnitPrice
  end.

(** An element of the [parts] array of [stableItemKey]. *)
Inductive Part : Type :=
  | PString (s : string)
  | PNumber (n : nat)
  | PUndefined.

(** [Boolean(part)] *)
Definition Boolean (p : Part) : bool :=
  match p with
  | PString s => JS.truthy s
  | PNumber n => negb (n =? 0)%nat
  | PUndefined => false
  end.

Definition part_text (p : Part) : string :=
  match p with
  | PString s => s
  | PNumber n => JS.toString (Z.of_nat n)
  | PUndefined => ""
  end.

(** [parts.join(sep)] *)
Fixpoint join (sep : string) (parts : list string) : string :=
  match parts with
  | [] => ""
  | [p] => p
  | p :: rest => p ++ sep ++ join sep rest
  end.

Definition stableItemKey (source : string) (parts : list Part) : string :=
  source ++ ":" ++ join "|" (part_text <$> filter (fun p => Boolean p = true) parts).

Definition unitPrice : F64.float := F64.of_Z 100.
Definition taxRate : F64.float := F64.lit_0_18.

(** The identity of an order line: the file id, or else the composite
    [type|name|tier]. *)
Definition order_identity (i : nat) (it : OrderItem) : string :=
  JS.or_else (fileId it)
    (JS.or_else (oi_documentTypeId it) "doc" ++ "|"
     ++ JS.or_else (fileName it) (JS.toString (Z.of_nat i)) ++ "|"
     ++ JS.or_else (oi_tier it) "Standard").

Definition normalizedOrderItems (types : list DocumentType)
    (itemsFromOrder : list OrderItem) : list Item :=
  imap (fun i it =>
          let doc := find_type types (oi_documentTypeId it) in
          mkItem (stableItemKey "order" [PString (order_identity i it)])
                 (from_option dt_name "Document" doc)
                 (fileName it)
                 (computeFilePriceINR types (oi_documentTypeId it) (oi_tier it) unitPrice)
                 (oi_tier it)
                 (from_option udinRequired false doc))
       itemsFromOrder.

(** [f.id || f.name || i] *)
Definition file_identity (i : nat) (f : SourceFile) : Part :=
  match sf_id f with
  | Some s => if JS.truthy s then PString s
              else match sf_name f with
                   | Some n => if JS.truthy n then PString n else PNumber i
                   | None => PNumber i
                   end
  | None => match sf_name f with
            | Some n => if JS.truthy n then PString n else PNumber i
            | None => PNumber i
            end
  end.

Definition fallbackItemsFromFiles (types : list DocumentType)
    (validFilesFromCtx : list SourceFile) : list Item :=
  imap (fun i f =>
          let doc := find_type types (sf_documentTypeId f) in
          mkItem (stableItemKey "file" [file_identity i f])
                 (match doc with
                  | Some d => dt_name d
                  | None => JS.nullish (sf_name f) "Document"
                  end)
                 (sf_name f)
                 (computeFilePriceINR types (sf_documentTypeId f) (sf_tier f) unitPrice)
                 (sf_tier f)
                 (from_option udinRequired false doc))
       validFilesFromCtx.

Definition items (types : list DocumentType) (itemsFromOrder : list OrderItem)
    (validFilesFromCtx : list SourceFile) : list Item :=
  let normalized := normalizedOrderItems types itemsFromOrder in
  if (0 <? length normalized)%nat then normalized
  else fallbackItemsFromFiles types validFilesFromCtx.

Definition subtotal (calculation : option Calculation) (its : list Item) : F64.float :=
  match calculation ≫= calc_subtotal with
  | Some s => s
  | None => fold_left (fun s it => F64.add s (price it)) its (F64.of_Z 0)
  end.

Definition gstAmount (calculation : option Calculation) (sub : F64.float) : F64.float :=
  match calculation ≫= calc_gstAmount with
  | Some g => g
  | None => F64.of_Z (F64.Math_round (F64.mul sub taxRate))
  end.

Definition totalAmount (calculation : option Calculation) (sub gst : F64.float)
    : F64.float :=
  match calculation ≫= calc_totalAmount with
  | Some t => t
  | None => F64.add sub gst
  end.

(** [`${f.id ?? f.name ?? i}`] *)
Definition render_identity (i : nat) (f : SourceFile) : string :=
  match sf_id f with
  | Some s => s
  | None => JS.nullish (sf_name f) (JS.toString (Z.of_nat i))
  end.

Definition render_entries (source : string) (fs : list SourceFile) : list RenderEntry :=
  imap (fun i f =>
          mkRenderEntry (source ++ ":" ++ render_identity i f) (render_identity i f)
                        (sf_name f) (sf_size f))
       fs.

(** [list.filter(f => { if (seen.has(f._identity)) return false;
    seen.add(f._identity); return true; })] *)
Fixpoint dedupe (seen : gset string) (l : list RenderEntry) : list RenderEntry :=
  match l with
  | [] => []
  | f :: rest =>
      if decide (_identity f ∈ seen) then dedupe seen rest
      else f :: dedupe ({[ _identity f ]} ∪ seen) rest
  end.

Definition uploadRenderList (validFilesFromCtx indexedFiles : list SourceFile)
    : list RenderEntry :=
  let ctx := render_entries "ctx" validFilesFromCtx in
  let idb := render_entries "idb" indexedFiles in
  dedupe ∅ (ctx ++ idb).

End Payment.

(** ** [withRetry] of the payment page

    The function retried is an argument: [fn k] is what its [k]-th call
    (from 0) ends with.  The log counts the calls made and lists the waits,
    in milliseconds. *)
Module Retry.
Import JS.

Record Log := mkLog {
  calls : nat;
  sleeps : list F64.float
}.

Fixpoint attempt {T} (fn : nat -> Result T) (k : nat) (retries : nat)
    (delayMs : F64.float) (log : Log) : Result T * Log :=
  let log := mkLog (S (calls log)) (sleeps log) in
  match fn k with
  | Ok v => (Ok v, log)
  | Throw err =>
      match retries with
      | O => (Throw err, log)
      | S retries' =>
          attempt fn (S k) retries' (F64.mul delayMs F64.lit_1_5)
                  (mkLog (calls log) (sleeps log ++ [delayMs]))
      end
  end.

(** [withRetry(fn, retries = 2, delayMs = 600)]; [retries <= 0] stops the
    recursion, so a negative count behaves as zero. *)
Definition withRetry {T} (fn : nat -> Result T) (retries : option Z)
    (delayMs : option F64.float) : Result T * Log :=
  attempt fn 0 (Z.to_nat (default 2 retries)) (default (F64.of_Z 600) delayMs)
          (mkLog 0 []).

End Retry.

(** ** The verification dialog of the signup page

    [EmailVerificationModal]: the six cells of the code, the button that
    submits them and the countdown that unlocks the resend button.  One
    [second] is one firing of the interval callback followed by the effect
    that watches [timer]. *)
Module SignupModal.

(** [Array(6).fill("")] *)
Definition initial_otp : list string := replicate 6 "".

Definition is_digit (c : ascii) : bool :=
  (48 <=? nat_of_ascii c)%nat && (nat_of_ascii c <=? 57)%nat.

(** [value.replace(/[^0-9]/g, "")] *)
Fixpoint digits_only (s : string) : string :=
  match s with
  | EmptyString => EmptyString
  | String c s' => if is_digit c then String c (digits_only s') else digits_only s'
  end.

(** [handleInputChange(e, index)]: the new cells and the cell that gets
    the focus, if any.  [index] is the position of a rendered cell. *)
Definition handleInputChange (typed : string) (index : nat) (otp : list string)
    : list string * option nat :=
  let value := digits_only typed in
  if (String.length value <=? 1)%nat then
    (<[index := value]> otp,
     if negb (String.eqb value "") && (index <? 5)%nat then Some (S index) else None)
  else (otp, None).

(** [handleKeyDown(e, index)]: the cell that gets the focus, if any. *)
Definition handleKeyDown (key : string) (index : nat) (otp : list string) : option nat :=
  match otp !! index with
  | Some cell =>
      if String.eqb key "Backspace" && String.eqb cell "" && (0 <? index)%nat
      then Some (index - 1)%nat else None
  | None => None
  end.

(** [otp.join("")] *)
Definition otpString (otp : list string) : string :=
  foldr String.append "" otp.

(** [disabled={isVerifying || otp.some((digit) => digit === "")}] *)
Definition verify_disabled (isVerifying : bool) (otp : list string) : bool :=
  isVerifying || existsb (fun digit => String.eqb digit "") otp.

(** What a click on "Verify Email" does: an alert, or the call
    [verifyEmailOtp(verificationId, otpString)]. *)
Inductive Click : Type :=
  | Alert (text : string)
  | CallVerifyEmailOtp (verificationId otp : string).

Definition handleVerifyOtp (verificationId : option string) (otp : list string) : Click :=
  let otpString := otpString otp in
  if negb (String.length otpString =? 6)%nat then
    Alert "Please enter a valid 6-digit OTP"
  else
    match verificationId with
    | Some vid =>
        if JS.truthy vid then CallVerifyEmailOtp vid otpString
        else Alert "Verification ID is missing. Please try again."
    | None => Alert "Verification ID is missing. Please try again."
    end.

(** The countdown. *)
Record Countdown := mkCountdown {
  timer : Z;
  canResend : bool
}.

(** [useState(120)], [useState(false)] *)
Definition initial_countdown : Countdown := mkCountdown 120 false.

(** The effect on [timer]: at zero it unlocks the resend button. *)
Definition effect (c : Countdown) : Countdown :=
  if timer c =? 0 then mkCountdown (timer c) true else c.

(** One second: the interval runs only while [timer] is not zero. *)
Definition second (c : Countdown) : Countdown :=
  effect (if timer c =? 0 then c else mkCountdown (timer c - 1) (canResend c)).

(** A resend that succeeded: [setTimer(120); setCanResend(false)]. *)
Definition resent (c : Countdown) : Countdown := effect (mkCountdown 120 false).

(** [disabled={!canResend || isResending}] *)
Definition resend_disabled (isResending : bool) (c : Countdown) : bool :=
  negb (canResend c) || isResending.

(** [formatTime(seconds)] *)
Definition formatTime (seconds : Z) : string :=
  let minutes := seconds / 60 in
  let remainingSeconds := seconds mod 60 in
  String.append (JS.toString minutes)
    (String.append ":"
       (String.append (if remainingSeconds <? 10 then "0" else "")
                      (JS.toString remainingSeconds))).

End SignupModal.

(** * Vocabulary of the statements *)
Module Vocabulary.
Import AuthService.

(** A decimal digit. *)
Definition is_digit (c : ascii) : bool :=
  (48 <=? nat_of_ascii c)%nat && (nat_of_ascii c <=? 57)%nat.

(** The record carries the verification identifier [vid]. *)
Definition has_id (vid : string) (r : EmailVerification.t) : Prop :=
  EmailVerification.verificationId r = vid.

(** The record carries [vid] and expires strictly after [now]. *)
Definition live (vid : string) (now : Z) (r : EmailVerification.t) : Prop :=
  EmailVerification.verificationId r = vid /\ now < EmailVerification.expiresAt r.

Definition for_email (e : string) (r : EmailVerification.t) : Prop :=
  EmailVerification.email r = e.

Definition has_email (e : string) (u : User.t) : Prop := User.email u = e.

#[global] Instance has_id_dec vid r : Decision (has_id vid r).
Proof. unfold has_id; apply _. Defined.
#[global] Instance live_dec vid now r : Decision (live vid now r).
Proof. unfold live; apply _. Defined.
#[global] Instance for_email_dec e r : Decision (for_email e r).
Proof. unfold for_email; apply _. Defined.
#[global] Instance has_email_dec e u : Decision (has_email e u).
Proof. unfold has_email; apply _. Defined.

(** The verification identifiers in store. *)
Definition stored_ids (db : Db) : list string :=
  EmailVerification.verificationId <$> emailVerifications db.

(** The user a verification marks: verified, and logged in at [now]. *)
Definition verified_at (now : Z) (u : User.t) : User.t :=
  User.set_lastLogin now (User.set_isEmailVerified true u).

(** The calls the service answers, and their effect on the database. *)
Inductive Call : Type :=
  | CallRegister (userData : UserData)
  | CallLogin (email password : string)
  | CallVerifyOtp (verificationId otp : string)
  | CallSendOtp (email : string)
  | CallResendOtp (email : string)
  | CallGetUserProfile (userId : string).

Definition outcome {A} (r : JS.Result A * Db) : bool * Db :=
  (JS.is_Ok (fst r), snd r).

Definition run_call (ext : Externals) (c : Call) (env : Env) (db : Db) : bool * Db :=
  match c with
  | CallRegister userData => outcome (registerUser ext userData env db)
  | CallLogin email password => outcome (loginUser ext email password env db)
  | CallVerifyOtp vid otp => outcome (verifyOtp ext vid otp env db)
  | CallSendOtp email => outcome (sendOtp email env db)
  | CallResendOtp email => outcome (resendOtp email env db)
  | CallGetUserProfile userId => outcome (getUserProfile userId db)
  end.

End Vocabulary.

(** * Vocabulary of the upload statements *)
Module UploadVocabulary.
Import UploadController.

(** The files of the request ([req.files], none when it is undefined). *)
Definition received (req : Request) : list File := default [] (files req).

(** The number of entries of the [errors] array of an answer. *)
Definition error_count (d : Data) : nat :=
  match errors d with Some es => length es | None => 0%nat end.

(** The number of per-file entries an answer reports, of either kind. *)
Definition reported (res : Response) : nat :=
  match data res with
  | Some d => (length (uploadedFiles d) + error_count d)%nat
  | None => 0%nat
  end.

Fixpoint uploads (os : list Outcome) : list UploadedFile :=
  match os with
  | [] => []
  | Uploaded f :: rest => f :: uploads rest
  | Refused _ :: rest => uploads rest
  end.

Fixpoint refusals (os : list Outcome) : list string :=
  match os with
  | [] => []
  | Uploaded _ :: rest => refusals rest
  | Refused e :: rest => e :: refusals rest
  end.

(** The temporary directory once the files [fs] have been unlinked. *)
Definition remove_all (fs : list File) (d : gmap string string) : gmap string string :=
  foldl (fun d f => delete (path f) d) d fs.

(** The file is on disk and a stored document bears the hash of its
    bytes. *)
Definition duplicate (ext : Externals) (w : World) (f : File) : Prop :=
  ∃ bytes d, disk w !! path f = Some bytes
             /\ d ∈ documents w /\ documentHash d = sha256 ext bytes.

(** A text field of the form that [field ? JSON.parse(field) : null]
    accepts: absent, empty, or JSON. *)
Definition parses (ext : Externals) (field : option string) : Prop :=
  match field with
  | Some text => JS.truthy text = true -> ∃ v, JSON_parse ext text = JS.Ok v
  | None => True
  end.

(** The three fields of batch metadata are absent or JSON. *)
Definition metadata_parses (ext : Externals) (req : Request) : Prop :=
  parses ext (body req !! "customerInfo")
  /\ parses ext (body req !! "pricingSnapshot")
  /\ parses ext (body req !! "metadata").

End UploadVocabulary.

(** * Vocabulary of the pricing statements *)
Module PaymentVocabulary.
Import Payment.

(** The base price the table gives a document type, if any. *)
Definition base_of (types : list DocumentType) (documentTypeId : option string)
    : option F64.float :=
  find_type types documentTypeId ≫= basePrice.

(** The identities a list of rows carries. *)
Definition identities (l : list RenderEntry) : list string := _identity <$> l.

End PaymentVocabulary.

(** * Sample data

    Stand-ins for the external code and one registration, used to run the
    statements below on concrete inputs. *)
Module Sample.
Import AuthService.

Definition ext : Externals :=
  mkExternals
    (fun password _ => String.append "bcrypt:" password)
    (fun password hash => String.eqb (String.append "bcrypt:" password) hash)
    (fun id => String.append "jwt:" id)
    (fun us => String.append "USR" (JS.toString (Z.of_nat (length us) + 1)))
    true "user".

Definition asha : UserData :=
  mkUserData "Asha Rao" "asha@example.com" "9876543210" "" "12 MG Road, Pune".

Definition t0 : Z := 1700000000000.

Definition env_register : Env :=
  mkEnv t0 "5b1c0e9a7d2f4468" "9f86d081884c7d659a2feaa0c55ad015"
        "2c26b46b68ffc68ff99b453c1d30413413422d706483bfa0f98a5e886266e7ae"
        (2 ^ 52) "65a1f0c2e4b0a1b2c3d4e5f6".

(** One minute later. *)
Definition env_verify : Env :=
  mkEnv (t0 + 60000) "" "" "" 0 "".

(** Five minutes later, with a new draw. *)
Definition env_resend : Env :=
  mkEnv (t0 + 300000) "" "0cc175b9c0f1b6a831c399e269772661" ""
        (2 ^ 51) "".

(** Six minutes later. *)
Definition env_late : Env :=
  mkEnv (t0 + 360000) "" "" "" 0 "".

Definition db_empty : Db := mkDb [] [].

(** The database once Asha has registered. *)
Definition db_registered : Db :=
  Eval vm_compute in snd (registerUser ext asha env_register db_empty).

(** The same once she has asked for a new code. *)
Definition db_resent : Db :=
  Eval vm_compute in snd (resendOtp "asha@example.com" env_resend db_registered).

(** The same once she has verified her address. *)
Definition db_verified : Db :=
  Eval vm_compute in
    snd (verifyOtp ext "9f86d081884c7d659a2feaa0c55ad015" "550000" env_verify
                   db_registered).

(** Ravi asks for a code before registering, then registers. *)
Definition ravi : UserData :=
  mkUserData "Ravi Iyer" "ravi@example.com" "9123456780" "" "4 Park Street, Kolkata".

Definition env_register_ravi : Env :=
  mkEnv (t0 + 330000) "77de68daecd823ba" "e4da3b7fbbce2345d7772b0674a318d5" ""
        (2 ^ 50) "65a1f0c2e4b0a1b2c3d4e5f7".

Definition db_sent : Db :=
  Eval vm_compute in snd (sendOtp "ravi@example.com" env_resend db_registered).

Definition db_ravi : Db :=
  Eval vm_compute in snd (registerUser ext ravi env_register_ravi db_sent).

End Sample.

Module PaymentSample.
Import Payment.

Definition types : list DocumentType :=
  [mkDocumentType "itr" "Income Tax Return" (Some (F64.of_Z 1000)) true;
   mkDocumentType "noc" "No Objection Certificate" (Some (F64.of_Z 250)) false].

Definition order : list OrderItem :=
  [mkOrderItem None (Some "itr") (Some "return-2023.pdf") (Some "Standard");
   mkOrderItem (Some "f-17") (Some "itr") None (Some "Premium")].

Definition ctx_files : list SourceFile :=
  [mkSourceFile (Some "f-16") (Some "return-2023.pdf") (Some 1024) (Some "itr")
                (Some "Standard");
   mkSourceFile None (Some "audit.pdf") (Some 2048) (Some "itr") (Some "Premium")].

End PaymentSample.

Module UploadSample.
Import UploadController.

(** Lower case on the letters A to Z, for names written in them. *)
Definition lower (c : ascii) : ascii :=
  let n := nat_of_ascii c in
  if (65 <=? n)%nat && (n <=? 90)%nat then ascii_of_nat (n + 32) else c.

Fixpoint lower_case (s : string) : string :=
  match s with
  | EmptyString => EmptyString
  | String c s' => String (lower c) (lower_case s')
  end.

Definition ext : Externals :=
  mkExternals
    (fun bytes => String.append "sha256:" bytes)
    lower_case
    (fun text =>
       if String.eqb text "null" then JS.Ok JNull
       else if String.eqb text "{}" then JS.Ok (JCompound "{}")
       else JS.Throw "Unexpected end of JSON input")
    (fun docs => JS.Ok (String.append "UDIN-" (JS.toString (Z.of_nat (length docs) + 1))))
    (fun _ _ => None)
    (fun docs => String.append "doc" (JS.toString (Z.of_nat (length docs) + 1)))
    "pending" 1700000000000 "2023-11-14T22:13:20.000Z".

Definition a_pdf : File := mkFile "/tmp/uploads/1" "a.pdf" "1" 3.
Definition b_pdf : File := mkFile "/tmp/uploads/2" "b.PDF" "2" 3.

Definition stored : Document :=
  mkDocument "doc1" "u7" "UDIN-1" "0" "old.pdf" "pdf" 3 "/srv/files/0"
    "sha256:AAA" "itr" "Standard"
    (mkDocumentMetadata "10.0.0.7" None "sha256:AAA" "" None None None)
    1690000000000 "pending".

Definition world : World :=
  mkWorld (<["/tmp/uploads/1" := "AAA"]> (<["/tmp/uploads/2" := "BBB"]> ∅)) [stored].

Definition form : gmap string string :=
  <["fileMetadata[1][documentTypeId]" := "itr"]>
    (<["fileMetadata[1][tier]" := "Express"]> (<["customerInfo" := "{}"]> ∅)).

Definition verified_request : Request :=
  mkRequest [] (Some [a_pdf; b_pdf]) (mkReqUser "u1" true) "10.0.0.9"
            (Some "Mozilla/5.0") form.

Definition unverified_request : Request :=
  mkRequest [] (Some [a_pdf; b_pdf]) (mkReqUser "u2" false) "10.0.0.9"
            (Some "Mozilla/5.0") form.

(** The same batch with a [customerInfo] field, respectively a
    [pricingSnapshot] field, that is not JSON. *)
Definition broken_customerInfo : Request :=
  mkRequest [] (Some [a_pdf; b_pdf]) (mkReqUser "u1" true) "10.0.0.9"
            (Some "Mozilla/5.0") (<["customerInfo" := "{"]> form).

Definition broken_pricingSnapshot : Request :=
  mkRequest [] (Some [b_pdf]) (mkReqUser "u1" true) "10.0.0.9"
            (Some "Mozilla/5.0") (<["pricingSnapshot" := "{"]> form).

(** What [parseMetadata] makes of [verified_request]. *)
Definition parsed : BatchMetadata :=
  mkBatchMetadata "10.0.0.9" (Some "Mozilla/5.0") "2023-11-14T22:13:20.000Z"
                  (Some (JCompound "{}")) None None.

End UploadSample.

(** * Vocabulary and samples of the further statements *)
(** ** The verification dialog *)
Module ModalVocabulary.
Import SignupModal.

(** A cell of the code: empty, or one decimal digit. *)
Definition cell_ok (cell : string) : Prop :=
  cell = "" \/ ∃ d, is_digit d = true /\ cell = String d "".

(** What the user does to the cells: the text an input event carries and
    the cell it happens in. *)
Definition typing (otp : list string) (events : list (string * nat)) : list string :=
  foldl (fun otp e => fst (handleInputChange (fst e) (snd e) otp)) otp events.

(** The countdown [n] seconds after [c]. *)
Definition after (n : nat) (c : Countdown) : Countdown := Nat.iter n second c.

End ModalVocabulary.

(** ** Amounts *)
Module AmountVocabulary.

(** The sum of a list of integer amounts. *)
Definition sum (ps : list Z) : Z := foldr Z.add 0 ps.

End AmountVocabulary.

(** * Facts about the number model *)
Module F64Facts.
Import F64.

Lemma rne_cases m k :
  0 <= m -> 0 <= k ->
  (rne m k = m / 2 ^ k /\ 2 * (m mod 2 ^ k) <= 2 ^ k)
  \/ (rne m k = m / 2 ^ k + 1 /\ 2 ^ k <= 2 * (m mod 2 ^ k)).
Proof.
  intros Hm Hk. unfold rne.
  rewrite Z.shiftr_div_pow2, Z.shiftl_mul_pow2 by assumption.
  assert (Hp : 0 < 2 ^ k) by (apply Z.pow_pos_nonneg; lia).
  pose proof (Z.div_mod m (2 ^ k) ltac:(lia)) as Hdm.
  replace (m - m / 2 ^ k * 2 ^ k) with (m mod 2 ^ k) by lia.
  destruct (Z.ltb_spec (2 * (m mod 2 ^ k)) (2 ^ k)); [left; lia|].
  destruct (Z.ltb_spec (2 ^ k) (2 * (m mod 2 ^ k))); [right; lia|].
  destruct (Z.even (m / 2 ^ k)); [left|right]; lia.
Qed.

Lemma rne_le m k Y :
  0 <= m -> 0 <= k -> 2 * m < (2 * Y + 1) * 2 ^ k -> rne m k <= Y.
Proof.
  intros Hm Hk H.
  assert (Hp : 0 < 2 ^ k) by (apply Z.pow_pos_nonneg; lia).
  pose proof (Z.div_mod m (2 ^ k) ltac:(lia)) as Hdm.
  pose proof (Z.mod_pos_bound m (2 ^ k) Hp) as Hr.
  destruct (rne_cases m k Hm Hk) as [[-> _]|[-> Hhalf]]; nia.
Qed.

Lemma rne_ge m k N :
  0 <= m -> 0 <= k -> N * 2 ^ k <= m -> N <= rne m k.
Proof.
  intros Hm Hk H.
  assert (Hp : 0 < 2 ^ k) by (apply Z.pow_pos_nonneg; lia).
  pose proof (Z.div_mod m (2 ^ k) ltac:(lia)) as Hdm.
  pose proof (Z.mod_pos_bound m (2 ^ k) Hp) as Hr.
  destruct (rne_cases m k Hm Hk) as [[-> _]|[-> _]]; nia.
Qed.

Lemma rne_0 m : 0 <= m -> rne m 0 = m.
Proof.
  intros Hm. unfold rne. rewrite Z.shiftr_0_r, Z.shiftl_0_r.
  replace (2 * (m - m)) with 0 by lia. reflexivity.
Qed.

(** [lit_0_18] is a 53-bit number within half a unit in the last place of
    [18 / 100]. *)
Lemma lit_0_18_nearest :
  2 ^ 52 <= mant lit_0_18 < 2 ^ 53
  /\ Z.abs (100 * mant lit_0_18 - 18 * 2 ^ (- expo lit_0_18)) <= 50.
Proof. vm_compute. repeat split; discriminate. Qed.

(** The number of bits dropped when [m] is rounded to 53 bits. *)
Lemma dropped_bits m :
  0 < m ->
  let k := Z.max 0 (Z.log2 m - 52) in
  0 <= k /\ m < 2 ^ (k + 53) /\ (0 < k -> 2 ^ (k + 52) <= m).
Proof.
  intros Hm k. destruct (Z.log2_spec m Hm) as [Hlo Hhi].
  assert (Hl : 0 <= Z.log2 m) by apply Z.log2_nonneg.
  subst k. destruct (Z.max_spec 0 (Z.log2 m - 52)) as [[Hc ->]|[Hc ->]].
  - replace (Z.log2 m - 52 + 53) with (Z.succ (Z.log2 m)) by lia.
    replace (Z.log2 m - 52 + 52) with (Z.log2 m) by lia. lia.
  - split; [lia|]. split; [|lia].
    eapply Z.lt_le_trans; [exact Hhi|]. apply Z.pow_le_mono_r; lia.
Qed.


(** Rounding the product [k * 2^-53 * 900000], [0 <= k < 2^53]: the result
    is [P * 2 ^ (kk - 53)] with [P * 2 ^ (kk - 53) <= 900000 - 2 ^ -33]. *)
Lemma product_rounded k :
  0 <= k < 2 ^ 53 ->
  exists kk P,
    round53 (k * 900000) (-53) = mk P (-53 + kk)
    /\ 0 <= kk <= 20 /\ 0 <= P
    /\ P <= 900000 * 2 ^ (53 - kk) - 2 ^ (20 - kk).
Proof.
  intros Hk. unfold round53.
  set (M := k * 900000). assert (HM : 0 <= M <= 900000 * 2 ^ 53 - 900000) by (subst M; lia).
  rewrite (Z.abs_eq M) by lia.
  set (kk := Z.max 0 (Z.log2 M - 52)).
  exists kk, (Z.sgn M * rne M kk). split; [reflexivity|].
  destruct (Z.eq_dec M 0) as [E0|Hne].
  - subst kk. rewrite E0. vm_compute. repeat split; discriminate.
  - assert (Hpos : 0 < M) by lia.
    destruct (dropped_bits M Hpos) as (Hk0 & Hhi & Hlo). fold kk in Hk0, Hhi, Hlo.
    assert (Hkk : kk <= 20).
    { destruct (Z.le_gt_cases kk 20) as [|Hgt]; [assumption|exfalso].
      assert (2 ^ 73 <= 2 ^ (kk + 52)) by (apply Z.pow_le_mono_r; lia).
      specialize (Hlo ltac:(lia)). lia. }
    rewrite Z.sgn_pos by assumption. rewrite Z.mul_1_l.
    assert (Ha : 2 ^ (53 - kk) * 2 ^ kk = 2 ^ 53)
      by (rewrite <- Z.pow_add_r by lia; f_equal; lia).
    assert (Hb : 2 ^ (20 - kk) * 2 ^ kk = 2 ^ 20)
      by (rewrite <- Z.pow_add_r by lia; f_equal; lia).
    assert (Hc : 2 ^ (kk + 53) = 2 ^ kk * 2 ^ 53)
      by (rewrite Z.pow_add_r by lia; reflexivity).
    assert (Hpk : 0 < 2 ^ kk) by (apply Z.pow_pos_nonneg; lia).
    assert (Hpb : 0 < 2 ^ (20 - kk)) by (apply Z.pow_pos_nonneg; lia).
    assert (Hpa : 0 < 2 ^ (53 - kk)) by (apply Z.pow_pos_nonneg; lia).
    split; [lia|]. split.
    + apply (rne_ge M kk 0); lia.
    + apply rne_le; [lia|lia|].
      replace ((2 * (900000 * 2 ^ (53 - kk) - 2 ^ (20 - kk)) + 1) * 2 ^ kk)
        with (2 * 900000 * (2 ^ (53 - kk) * 2 ^ kk) - 2 * (2 ^ (20 - kk) * 2 ^ kk) + 2 ^ kk)
        by ring.
      rewrite Ha, Hb.
      destruct (Z.le_gt_cases 19 kk) as [Hbig|Hsmall].
      * assert (2 ^ 19 <= 2 ^ kk) by (apply Z.pow_le_mono_r; lia). lia.
      * assert (2 ^ kk <= 2 ^ 18) by (apply Z.pow_le_mono_r; lia). lia.
Qed.


(** The number behind a one-time code has six digits, whatever the draw. *)
Lemma otp_number_range entropy :
  100000 <= AuthService.otp_number entropy <= 999999.
Proof.
  unfold AuthService.otp_number.
  assert (Hk : 0 <= entropy mod 2 ^ 53 < 2 ^ 53) by (apply Z.mod_pos_bound; lia).
  change (of_Z 900000) with (mk 900000 0). change (of_Z 100000) with (mk 100000 0).
  unfold Math_random, mul. cbn [mant expo].
  replace (-53 + 0) with (-53) by lia.
  destruct (product_rounded _ Hk) as (kk & P & -> & Hkk & HP0 & HP).
  unfold add. cbn [mant expo].
  rewrite Z.min_r by lia.
  replace (-53 + kk - (-53 + kk)) with 0 by lia. rewrite Z.pow_0_r, Z.mul_1_r.
  replace (0 - (-53 + kk)) with (53 - kk) by lia.
  assert (HB : 2 ^ (53 - kk) = 2 ^ (20 - kk) * 2 ^ 33)
    by (rewrite <- Z.pow_add_r by lia; f_equal; lia).
  assert (Hb : 0 < 2 ^ (20 - kk)) by (apply Z.pow_pos_nonneg; lia).
  set (b := 2 ^ (20 - kk)) in *.
  set (S := 100000 * 2 ^ (53 - kk) + P).
  assert (HS : 100000 * 2 ^ 33 * b <= S <= 1000000 * 2 ^ 33 * b - b) by (subst S; lia).
  assert (HSpos : 0 < S) by lia.
  unfold round53, Math_floor; cbn [mant expo].
  rewrite (Z.abs_eq S), (Z.sgn_pos S), Z.mul_1_l by lia.
  destruct (dropped_bits S HSpos) as (Hk0 & Hhi & Hlo).
  set (k2 := Z.max 0 (Z.log2 S - 52)) in *.
  assert (Hk2 : k2 <= 20 - kk).
  { destruct (Z.le_gt_cases k2 (20 - kk)) as [|Hgt]; [assumption|exfalso].
    specialize (Hlo ltac:(lia)).
    assert (2 ^ (73 - kk) <= 2 ^ (k2 + 52)) by (apply Z.pow_le_mono_r; lia).
    assert (2 ^ (73 - kk) = 2 ^ 53 * b)
      by (subst b; rewrite <- Z.pow_add_r by lia; f_equal; lia).
    lia. }
  assert (Hcd : 2 ^ (20 - kk - k2) * 2 ^ k2 = b)
    by (subst b; rewrite <- Z.pow_add_r by lia; f_equal; lia).
  assert (Hc : 0 < 2 ^ k2) by (apply Z.pow_pos_nonneg; lia).
  assert (Hd : 0 < 2 ^ (20 - kk - k2)) by (apply Z.pow_pos_nonneg; lia).
  set (c := 2 ^ k2) in *. set (d := 2 ^ (20 - kk - k2)) in *.
  replace (-53 + kk + k2) with (- (53 - kk - k2)) by lia.
  rewrite Z.shiftl_opp_r, Z.shiftr_div_pow2 by lia.
  assert (Hn : 2 ^ (53 - kk - k2) = d * 2 ^ 33)
    by (subst d; rewrite <- Z.pow_add_r by lia; f_equal; lia).
  rewrite Hn.
  assert (Hlow : 100000 * (d * 2 ^ 33) <= rne S k2).
  { apply rne_ge; [lia|lia|]. fold c. nia. }
  assert (Hupp : rne S k2 <= 1000000 * (d * 2 ^ 33) - 1).
  { apply rne_le; [lia|lia|]. fold c. nia. }
  split.
  - apply Z.div_le_lower_bound; lia.
  - assert (rne S k2 / (d * 2 ^ 33) < 1000000); [|lia].
    apply Z.div_lt_upper_bound; lia.
Qed.

End F64Facts.

(** * Facts about number printing *)
Module JSFacts.
Import JS Vocabulary.

Lemma digit_is_digit d : 0 <= d < 10 -> is_digit (digit d) = true.
Proof.
  intros H.
  assert (d = 0 \/ d = 1 \/ d = 2 \/ d = 3 \/ d = 4
          \/ d = 5 \/ d = 6 \/ d = 7 \/ d = 8 \/ d = 9) as Hc by lia.
  repeat (destruct Hc as [-> | Hc]; [reflexivity|]). subst d. reflexivity.
Qed.

Lemma digits_step fuel n acc :
  digits (S fuel) n acc =
  if n <? 10 then String (digit (n mod 10)) acc
  else digits fuel (n / 10) (String (digit (n mod 10)) acc).
Proof. reflexivity. Qed.

(** A number of six digits prints as six decimal digits. *)
Lemma toString_six_digits n :
  100000 <= n <= 999999 ->
  String.length (toString n) = 6%nat
  /\ Forall (fun c => is_digit c = true) (list_ascii_of_string (toString n)).
Proof.
  intros Hn. unfold toString.
  assert (Hlog : 16 <= Z.log2 n).
  { change 16 with (Z.log2 100000). apply Z.log2_le_mono. lia. }
  destruct (Z.to_nat (Z.log2 n)) as [|[|[|[|[|fuel]]]]] eqn:E; try lia.
  assert (H1 : 10000 <= n / 10 < 100000)
    by (split; [apply Z.div_le_lower_bound|apply Z.div_lt_upper_bound]; lia).
  assert (H2 : 1000 <= n / 10 / 10 < 10000)
    by (split; [apply Z.div_le_lower_bound|apply Z.div_lt_upper_bound]; lia).
  assert (H3 : 100 <= n / 10 / 10 / 10 < 1000)
    by (split; [apply Z.div_le_lower_bound|apply Z.div_lt_upper_bound]; lia).
  assert (H4 : 10 <= n / 10 / 10 / 10 / 10 < 100)
    by (split; [apply Z.div_le_lower_bound|apply Z.div_lt_upper_bound]; lia).
  assert (H5 : 1 <= n / 10 / 10 / 10 / 10 / 10 < 10)
    by (split; [apply Z.div_le_lower_bound|apply Z.div_lt_upper_bound]; lia).
  rewrite digits_step, (proj2 (Z.ltb_ge n 10)) by lia.
  rewrite digits_step, (proj2 (Z.ltb_ge (n / 10) 10)) by lia.
  rewrite digits_step, (proj2 (Z.ltb_ge (n / 10 / 10) 10)) by lia.
  rewrite digits_step, (proj2 (Z.ltb_ge (n / 10 / 10 / 10) 10)) by lia.
  rewrite digits_step, (proj2 (Z.ltb_ge (n / 10 / 10 / 10 / 10) 10)) by lia.
  rewrite digits_step, (proj2 (Z.ltb_lt (n / 10 / 10 / 10 / 10 / 10) 10)) by lia.
  split; [reflexivity|].
  cbn [list_ascii_of_string].
  repeat (apply Forall_cons; split;
          [apply digit_is_digit, Z.mod_pos_bound; lia|]).
  apply Forall_nil_2.
Qed.

End JSFacts.

(** * Facts about the collections *)
Module MongoFacts.

Section Collection.
Context {A : Type} (P : A -> Prop) `{!∀ x, Decision (P x)}.

Lemma findOne_None (c : list A) :
  Mongo.findOne P c = None <-> ∀ x, x ∈ c -> ¬ P x.
Proof. unfold Mongo.findOne. rewrite list_find_None, Forall_forall. reflexivity. Qed.

Lemma findOne_Some (c : list A) i x :
  Mongo.findOne P c = Some (i, x) -> c !! i = Some x /\ P x /\ x ∈ c.
Proof.
  unfold Mongo.findOne. intros Hf%list_find_Some. destruct Hf as (Hl & HP & _).
  repeat split; [assumption|assumption|]. eapply list_elem_of_lookup_2; eassumption.
Qed.

Lemma findOne_is_Some (c : list A) x :
  x ∈ c -> P x -> exists i y, Mongo.findOne P c = Some (i, y).
Proof.
  intros Hin HP. destruct (list_find_elem_of P c x Hin HP) as [[i y] E].
  exists i, y. exact E.
Qed.

Lemma deleteOne_cons x (c : list A) :
  Mongo.deleteOne P (x :: c) = if decide (P x) then c else x :: Mongo.deleteOne P c.
Proof.
  unfold Mongo.deleteOne. cbn. destruct (decide (P x)); [reflexivity|].
  destruct (list_find P c) as [[i y]|]; reflexivity.
Qed.

(** [deleteOne] takes the first match out of the matches. *)
Lemma filter_deleteOne (c : list A) :
  filter P (Mongo.deleteOne P c) = tail (filter P c).
Proof.
  induction c as [|x c IH]; [reflexivity|].
  rewrite deleteOne_cons. destruct (decide (P x)) as [HP|HP].
  - rewrite filter_cons_True by assumption. reflexivity.
  - rewrite !filter_cons_False by assumption. exact IH.
Qed.

Lemma deleteOne_found (c : list A) i x :
  Mongo.findOne P c = Some (i, x) -> Mongo.deleteOne P c = delete i c.
Proof. unfold Mongo.findOne, Mongo.deleteOne. intros ->. reflexivity. Qed.

Lemma filter_deleteMany (c : list A) : filter P (Mongo.deleteMany P c) = [].
Proof.
  unfold Mongo.deleteMany. induction c as [|x c IH]; [reflexivity|].
  destruct (decide (P x)) as [HP|HP].
  - rewrite filter_cons_False by tauto. exact IH.
  - rewrite filter_cons_True by assumption.
  rewrite filter_cons_False by assumption. exact IH.
Qed.

Lemma filter_none (c : list A) : (∀ x, x ∈ c -> ¬ P x) -> filter P c = [].
Proof.
  induction c as [|x c IH]; intros Hc; [reflexivity|].
  rewrite filter_cons_False by (apply Hc; left).
  apply IH. intros y Hy. apply Hc. right. exact Hy.
Qed.

Lemma elem_of_deleteMany (c : list A) x :
  x ∈ Mongo.deleteMany P c <-> x ∈ c /\ ¬ P x.
Proof. unfold Mongo.deleteMany. rewrite list_elem_of_filter. tauto. Qed.

End Collection.
End MongoFacts.

(** * The one-time-code service *)
Module AuthFacts.
Import JS AuthService Vocabulary MongoFacts.

Ltac run_service :=
  unfold mbind, M_bind, mret, M_ret, bind, gets, modify, ret, throw;
  cbn -[Mongo.findOne Mongo.deleteOne Mongo.deleteMany Mongo.save Mongo.create
        String.eqb generateOtp otp_lifetime].

(** The record a call to [issueOtp] stores. *)
Lemma issueOtp_run email env db :
  issueOtp email env db =
  (Ok (mkTicket (randomBytes16 env) email),
   mkDb (users db)
        (emailVerifications db
         ++ [EmailVerification.mk email (generateOtp (random_entropy env))
               (randomBytes16 env) (Date_now env + otp_lifetime)])).
Proof. reflexivity. Qed.

Lemma sendOtp_run email env db :
  sendOtp email env db =
  match Mongo.findOne (has_email email) (users db) with
  | Some _ => (Throw "User already exists with this email", db)
  | None => issueOtp email env db
  end.
Proof.
  unfold sendOtp, has_email, has_email_dec. run_service.
  destruct (Mongo.findOne _ (users db)) as [[i u]|]; reflexivity.
Qed.

Lemma resendOtp_run email env db :
  resendOtp email env db =
  match Mongo.findOne (has_email email) (users db) with
  | None => (Throw "No account found with this email address", db)
  | Some (_, u) =>
      if User.isEmailVerified u then (Throw "Email is already verified", db)
      else issueOtp email env
             (mkDb (users db)
                   (Mongo.deleteMany (for_email email) (emailVerifications db)))
  end.
Proof.
  unfold resendOtp, has_email, has_email_dec, for_email, for_email_dec. run_service.
  destruct (Mongo.findOne _ (users db)) as [[i u]|]; [|reflexivity].
  destruct (User.isEmailVerified u); reflexivity.
Qed.

Section Facts.
Variable ext : Externals.

Lemma verifyOtp_run vid otp env db :
  verifyOtp ext vid otp env db =
  match Mongo.findOne (live vid (Date_now env)) (emailVerifications db) with
  | None => (Throw "Invalid or expired OTP", db)
  | Some (_, r) =>
      if String.eqb (EmailVerification.otp r) otp then
        match Mongo.findOne (has_email (EmailVerification.email r)) (users db) with
        | None => (Throw "User not found", db)
        | Some (i, u) =>
            (Ok (mkSession (Some "Email verified successfully")
                           (jwt_sign ext (User._id u))
                           (profile (verified_at (Date_now env) u))),
             mkDb (Mongo.save i (verified_at (Date_now env) u) (users db))
                  (Mongo.deleteOne (has_id vid) (emailVerifications db)))
        end
      else (Throw "Invalid OTP", db)
  end.
Proof.
  unfold verifyOtp, live, has_email, has_id, live_dec, has_email_dec, has_id_dec.
  run_service.
  destruct (Mongo.findOne _ (emailVerifications db)) as [[j r]|]; [|reflexivity].
  destruct (String.eqb _ otp); run_service; [|reflexivity].
  destruct (Mongo.findOne _ (users db)) as [[i u]|]; reflexivity.
Qed.

(** A record found live at [now] is still the one found at any later
    instant before it expires. *)
Lemma findOne_live_later vid now now' evs i r :
  Mongo.findOne (live vid now) evs = Some (i, r) ->
  now <= now' -> now' < EmailVerification.expiresAt r ->
  Mongo.findOne (live vid now') evs = Some (i, r).
Proof.
  unfold Mongo.findOne. intros Hf Hle Hlt.
  apply list_find_Some in Hf. destruct Hf as (Hl & [Hid _] & Hfirst).
  apply list_find_Some. split; [assumption|]. split; [split; assumption|].
  intros j y Hj Hji [Hy1 Hy2]. apply (Hfirst j y Hj Hji). split; [assumption|lia].
Qed.

(** What a successful verification found and did. *)
Lemma verifyOtp_success vid otp env db s db' :
  verifyOtp ext vid otp env db = (Ok s, db') ->
  ∃ i u r0 j r,
    r0 ∈ emailVerifications db
    /\ live vid (Date_now env) r0
    /\ EmailVerification.otp r0 = otp
    /\ users db !! i = Some u
    /\ User.email u = EmailVerification.email r0
    /\ emailVerifications db !! j = Some r
    /\ has_id vid r
    /\ s = mkSession (Some "Email verified successfully") (jwt_sign ext (User._id u))
                     (profile (verified_at (Date_now env) u))
    /\ db' = mkDb (<[i := verified_at (Date_now env) u]> (users db))
                  (delete j (emailVerifications db))
    /\ filter (has_id vid) (emailVerifications db')
       = tail (filter (has_id vid) (emailVerifications db)).
Proof.
  rewrite verifyOtp_run. intros Hrun.
  destruct (Mongo.findOne (live _ _) _) as [[i0 r0]|] eqn:E; [|discriminate].
  destruct (String.eqb _ otp) eqn:Eotp; [|discriminate].
  destruct (Mongo.findOne (has_email _) _) as [[i u]|] eqn:Eu; [|discriminate].
  injection Hrun as <- <-.
  destruct (findOne_Some _ _ _ _ E) as (Hi0 & Hlive & Hin0).
  destruct (findOne_Some _ _ _ _ Eu) as (Hi & Hmail & _).
  destruct (findOne_is_Some (has_id vid) _ r0 Hin0 (proj1 Hlive)) as (j & r & Ej).
  destruct (findOne_Some _ _ _ _ Ej) as (Hj & Hjid & Hjin).
  exists i, u, r0, j, r. cbn [users emailVerifications].
  split; [assumption|]. split; [assumption|].
  split; [apply String.eqb_eq; assumption|].
  split; [assumption|]. split; [exact Hmail|].
  split; [assumption|]. split; [assumption|]. split; [reflexivity|].
  split; [rewrite (deleteOne_found _ _ _ _ Ej); reflexivity|].
  apply filter_deleteOne.
Qed.

(** C3. [verifyOtp] fails with "Invalid or expired OTP" when no record
    carries the identifier with an expiry strictly in the future, and then
    leaves the database (the user included) as it was; it fails with
    "Invalid OTP" when such records exist and their code differs from the
    one submitted; when it succeeds, a live record [r0] carried the
    submitted code, the user of its e-mail has the verified flag set, one
    record carrying the identifier is deleted (it is [r0] itself when no
    other record carries the identifier) and the answer holds the session
    token signed for that user.  It does succeed when the live record
    carries the submitted code and a user exists for its e-mail. *)
Theorem verifyOtp_outcomes vid otp env db :
  ((∀ r, r ∈ emailVerifications db -> ¬ live vid (Date_now env) r) ->
     verifyOtp ext vid otp env db = (Throw "Invalid or expired OTP", db))
  /\ ((∃ r, r ∈ emailVerifications db /\ live vid (Date_now env) r) ->
      (∀ r, r ∈ emailVerifications db -> live vid (Date_now env) r ->
            EmailVerification.otp r ≠ otp) ->
      verifyOtp ext vid otp env db = (Throw "Invalid OTP", db))
  /\ (∀ s db', verifyOtp ext vid otp env db = (Ok s, db') ->
      ∃ i u r0 j r,
        r0 ∈ emailVerifications db
        /\ live vid (Date_now env) r0
        /\ EmailVerification.otp r0 = otp
        /\ users db !! i = Some u
        /\ User.email u = EmailVerification.email r0
        /\ users db' = <[i := verified_at (Date_now env) u]> (users db)
        /\ users db' !! i = Some (verified_at (Date_now env) u)
        /\ User.isEmailVerified (verified_at (Date_now env) u) = true
        /\ emailVerifications db !! j = Some r
        /\ has_id vid r
        /\ emailVerifications db' = delete j (emailVerifications db)
        /\ (filter (has_id vid) (emailVerifications db) = [r0] ->
            r = r0 /\ filter (has_id vid) (emailVerifications db') = [])
        /\ s_token s = jwt_sign ext (User._id u)
        /\ p_isEmailVerified (s_user s) = true)
  /\ (∀ i r u,
      Mongo.findOne (live vid (Date_now env)) (emailVerifications db) = Some (i, r) ->
      EmailVerification.otp r = otp ->
      u ∈ users db -> User.email u = EmailVerification.email r ->
      ∃ s db', verifyOtp ext vid otp env db = (Ok s, db')).
Proof.
  rewrite verifyOtp_run. split; [|split; [|split]].
  - intros Hnone. apply (findOne_None (live vid (Date_now env))) in Hnone.
    rewrite Hnone. reflexivity.
  - intros (r0 & Hin & Hlive) Hdiff.
    destruct (findOne_is_Some _ _ _ Hin Hlive) as (i & r & E). rewrite E.
    destruct (findOne_Some _ _ _ _ E) as (_ & Hl & Hr).
    specialize (Hdiff r Hr Hl). apply String.eqb_neq in Hdiff. rewrite Hdiff.
    reflexivity.
  - intros s db' Hrun. rewrite <- verifyOtp_run in Hrun.
    destruct (verifyOtp_success _ _ _ _ _ _ Hrun)
      as (i & u & r0 & j & r & Hin0 & Hlive & Hcode & Hi & Hmail & Hj & Hjid
          & -> & -> & Hfilter).
    exists i, u, r0, j, r. cbn [users emailVerifications s_token s_user] in *.
    split; [assumption|]. split; [assumption|]. split; [assumption|].
    split; [assumption|]. split; [exact Hmail|]. split; [reflexivity|].
    split; [apply list_lookup_insert_eq; eapply lookup_lt_Some; eassumption|].
    split; [reflexivity|]. split; [assumption|]. split; [assumption|].
    split; [reflexivity|].
    split; [|split; reflexivity].
    intros Huniq. split.
    + assert (Hr : r ∈ filter (has_id vid) (emailVerifications db)).
      { apply list_elem_of_filter. split; [assumption|].
        eapply list_elem_of_lookup_2; eassumption. }
      rewrite Huniq in Hr. apply list_elem_of_singleton in Hr. exact Hr.
    + rewrite Hfilter, Huniq. reflexivity.
  - intros i r u E Hotp Hin Hmail. rewrite E.
    apply String.eqb_eq in Hotp. rewrite Hotp.
    destruct (findOne_is_Some (has_email (EmailVerification.email r)) _ u Hin Hmail)
      as (j & u' & Eu).
    rewrite Eu. eauto.
Qed.

(** C10. A wrong code against a live record changes nothing: the call
    fails with "Invalid OTP", the database after it is the database before
    it (record and user included), and a later call with the same
    identifier and the record's code, made before the record expires for a
    user that exists, succeeds. *)
Theorem verifyOtp_wrong_code_keeps_record vid otp env db i r :
  Mongo.findOne (live vid (Date_now env)) (emailVerifications db) = Some (i, r) ->
  EmailVerification.otp r ≠ otp ->
  ∃ db1,
    verifyOtp ext vid otp env db = (Throw "Invalid OTP", db1)
    /\ db1 = db
    /\ r ∈ emailVerifications db1
    /\ ∀ env' u,
        Date_now env <= Date_now env' ->
        Date_now env' < EmailVerification.expiresAt r ->
        u ∈ users db1 -> User.email u = EmailVerification.email r ->
        ∃ s db2,
          verifyOtp ext vid (EmailVerification.otp r) env' db1 = (Ok s, db2)
          /\ p_isEmailVerified (s_user s) = true
          /\ p_email (s_user s) = EmailVerification.email r.
Proof.
  intros Hfound Hdiff. exists db.
  destruct (findOne_Some _ _ _ _ Hfound) as (_ & _ & Hin).
  split; [|split; [reflexivity|split; [assumption|]]].
  - rewrite verifyOtp_run, Hfound.
    apply String.eqb_neq in Hdiff. rewrite Hdiff. reflexivity.
  - intros env' u Hle Hlt Hu Hmail.
    rewrite verifyOtp_run.
    rewrite (findOne_live_later _ _ _ _ _ _ Hfound Hle Hlt).
    rewrite String.eqb_refl.
    destruct (findOne_is_Some (has_email (EmailVerification.email r)) _ u Hu Hmail)
      as (j & u' & Eu).
    rewrite Eu. destruct (findOne_Some _ _ _ _ Eu) as (_ & Hu' & _).
    eexists _, _. split; [reflexivity|]. split; [reflexivity|exact Hu'].
Qed.

Lemma not_stored_id vid db r :
  vid ∉ stored_ids db -> r ∈ emailVerifications db -> ¬ has_id vid r.
Proof.
  intros Hfresh Hr Hid. apply Hfresh. unfold stored_ids.
  apply list_elem_of_fmap. exists r. split; [symmetry; exact Hid|exact Hr].
Qed.

Lemma distinct_ids_same_record db r1 r2 :
  NoDup (stored_ids db) ->
  r1 ∈ emailVerifications db -> r2 ∈ emailVerifications db ->
  EmailVerification.verificationId r1 = EmailVerification.verificationId r2 ->
  r1 = r2.
Proof.
  intros Hnd H1 H2 Hid.
  apply list_elem_of_lookup in H1. destruct H1 as [i Hi].
  apply list_elem_of_lookup in H2. destruct H2 as [j Hj].
  assert (Hi' : stored_ids db !! i = Some (EmailVerification.verificationId r1))
    by (unfold stored_ids; rewrite list_lookup_fmap, Hi; reflexivity).
  assert (Hj' : stored_ids db !! j = Some (EmailVerification.verificationId r1))
    by (unfold stored_ids; rewrite list_lookup_fmap, Hj, Hid; reflexivity).
  pose proof (NoDup_lookup _ _ _ _ Hnd Hi' Hj') as ->. congruence.
Qed.

(** C4. [sendOtp] fails when a user holds the e-mail.  Otherwise it stores
    exactly one more record: it bears the e-mail, the identifier just drawn
    from [crypto.randomBytes], a code of six decimal digits that prints a
    number between 100000 and 999999, and the expiry [now + 15 min]; when the
    draw does not repeat a stored identifier it is the only record bearing
    it; and a later successful [verifyOtp] on that identifier deletes it. *)
Theorem sendOtp_outcomes email env db :
  let vid := randomBytes16 env in
  let code := generateOtp (random_entropy env) in
  let rec := EmailVerification.mk email code vid (Date_now env + 15 * 60 * 1000) in
  ((∃ u, u ∈ users db /\ User.email u = email) ->
     sendOtp email env db = (Throw "User already exists with this email", db))
  /\ ((∀ u, u ∈ users db -> User.email u ≠ email) ->
      sendOtp email env db
        = (Ok (mkTicket vid email), mkDb (users db) (emailVerifications db ++ [rec]))
      /\ code = JS.toString (otp_number (random_entropy env))
      /\ 100000 <= otp_number (random_entropy env) <= 999999
      /\ String.length code = 6%nat
      /\ Forall (fun c => is_digit c = true) (list_ascii_of_string code)
      /\ (vid ∉ stored_ids db ->
          filter (has_id vid) (emailVerifications db ++ [rec]) = [rec])
      /\ (∀ db2 otp2 env2 s db3,
            filter (has_id vid) (emailVerifications db2) = [rec] ->
            verifyOtp ext vid otp2 env2 db2 = (Ok s, db3) ->
            filter (has_id vid) (emailVerifications db3) = []
            /\ rec ∉ emailVerifications db3)).
Proof.
  intros vid code rec. rewrite sendOtp_run. split.
  - intros (u & Hin & Hmail).
    destruct (findOne_is_Some (has_email email) _ u Hin Hmail) as (i & u' & E).
    rewrite E. reflexivity.
  - intros Hnone. apply (findOne_None (has_email email)) in Hnone. rewrite Hnone.
    pose proof (F64Facts.otp_number_range (random_entropy env)) as Hrange.
    destruct (JSFacts.toString_six_digits _ Hrange) as [Hlen Hdig].
    split; [reflexivity|]. split; [reflexivity|]. split; [exact Hrange|].
    split; [exact Hlen|]. split; [exact Hdig|]. split.
    + intros Hfresh. rewrite filter_app.
      replace (filter (has_id vid) (emailVerifications db)) with (@nil EmailVerification.t).
      * rewrite filter_cons_True by reflexivity. reflexivity.
      * symmetry. apply filter_none. intros r. apply not_stored_id. exact Hfresh.
    + intros db2 otp2 env2 s db3 Huniq Hrun.
      destruct (verifyOtp_success _ _ _ _ _ _ Hrun)
        as (i & u & r0 & j & r & _ & _ & _ & _ & _ & _ & _ & _ & _ & Hfilter).
      assert (Hgone : filter (has_id vid) (emailVerifications db3) = [])
        by (rewrite Hfilter, Huniq; reflexivity).
      split; [exact Hgone|].
      intros Hin. assert (Hf : rec ∈ filter (has_id vid) (emailVerifications db3))
        by (apply list_elem_of_filter; split; [reflexivity|assumption]).
      rewrite Hgone in Hf. apply elem_of_nil in Hf. exact Hf.
Qed.

(** C5. [resendOtp] fails when no account holds the e-mail and when the
    account is already verified.  Otherwise it leaves the users alone,
    deletes every record of that e-mail and stores one new code/identifier
    pair, so that afterwards: a verification that succeeds for this e-mail
    used the new pair; the new pair does verify until it expires; and the
    identifier of any record the e-mail had before is answered
    "Invalid or expired OTP", whatever the code.  The last two hold for a
    draw of [crypto.randomBytes] that repeats no identifier in store, the
    last for stored identifiers that are pairwise distinct (an invariant of
    such draws, [distinct_ids_preserved]). *)
Theorem resendOtp_outcomes email env db :
  let vid := randomBytes16 env in
  let code := generateOtp (random_entropy env) in
  let rec := EmailVerification.mk email code vid (Date_now env + 15 * 60 * 1000) in
  let db' := mkDb (users db)
                  (filter (fun r => ¬ for_email email r) (emailVerifications db) ++ [rec]) in
  ((∀ u, u ∈ users db -> User.email u ≠ email) ->
     resendOtp email env db = (Throw "No account found with this email address", db))
  /\ (∀ i u, Mongo.findOne (has_email email) (users db) = Some (i, u) ->
      User.isEmailVerified u = true ->
      resendOtp email env db = (Throw "Email is already verified", db))
  /\ (∀ i u, Mongo.findOne (has_email email) (users db) = Some (i, u) ->
      User.isEmailVerified u = false ->
      resendOtp email env db = (Ok (mkTicket vid email), db')
      /\ filter (for_email email) (emailVerifications db') = [rec]
      /\ (∀ vid' code' env2 s db2,
            verifyOtp ext vid' code' env2 db' = (Ok s, db2) ->
            p_email (s_user s) = email ->
            vid' = vid /\ code' = code)
      /\ (∀ env2,
            Date_now env2 < Date_now env + 15 * 60 * 1000 ->
            vid ∉ stored_ids db ->
            ∃ s db2,
              verifyOtp ext vid code env2 db' = (Ok s, db2)
              /\ p_email (s_user s) = email
              /\ p_isEmailVerified (s_user s) = true)
      /\ (∀ old code' env2,
            old ∈ emailVerifications db -> for_email email old ->
            NoDup (stored_ids db) -> vid ∉ stored_ids db ->
            verifyOtp ext (EmailVerification.verificationId old) code' env2 db'
              = (Throw "Invalid or expired OTP", db'))).
Proof.
  intros vid code rec db'. rewrite resendOtp_run. split; [|split].
  - intros Hnone. apply (findOne_None (has_email email)) in Hnone.
    rewrite Hnone. reflexivity.
  - intros i u -> ->. reflexivity.
  - intros i u Hu Hflag. rewrite Hu, Hflag.
    assert (Hdb' : db' = mkDb (users db)
                    (Mongo.deleteMany (for_email email) (emailVerifications db) ++ [rec]))
      by reflexivity.
    assert (Hmine : filter (for_email email) (emailVerifications db') = [rec]).
    { rewrite Hdb'. cbn [emailVerifications]. rewrite filter_app.
      rewrite (filter_deleteMany (for_email email)).
      rewrite filter_cons_True by reflexivity. reflexivity. }
    assert (Hin' : ∀ r, r ∈ emailVerifications db' ->
                        r = rec \/ (r ∈ emailVerifications db /\ ¬ for_email email r)).
    { intros r Hr. rewrite Hdb' in Hr. cbn [emailVerifications] in Hr.
      apply elem_of_app in Hr. destruct Hr as [Hr|Hr].
      - right. apply elem_of_deleteMany in Hr. exact Hr.
      - left. apply list_elem_of_singleton in Hr. exact Hr. }
    assert (Hrec : rec ∈ emailVerifications db').
    { rewrite Hdb'. cbn [emailVerifications]. apply elem_of_app. right. left. }
    split; [reflexivity|]. split; [exact Hmine|]. split; [|split].
    + intros vid' code' env2 s db2 Hrun Hmail.
      destruct (verifyOtp_success _ _ _ _ _ _ Hrun)
        as (j & u' & r0 & _ & _ & Hin0 & [Hid0 _] & Hcode & _ & Hu' & _ & _ & -> & _).
      cbn in Hmail.
      assert (Hr0 : r0 ∈ filter (for_email email) (emailVerifications db')).
      { apply list_elem_of_filter. split; [|assumption].
        unfold for_email. congruence. }
      rewrite Hmine in Hr0. apply list_elem_of_singleton in Hr0. subst r0.
      split; [symmetry; exact Hid0|symmetry; exact Hcode].
    + intros env2 Hlt Hfresh.
      assert (Hlive : live vid (Date_now env2) rec) by (split; [reflexivity|exact Hlt]).
      destruct (findOne_is_Some (live vid (Date_now env2)) _ rec Hrec Hlive)
        as (j & r & Er).
      destruct (findOne_Some _ _ _ _ Er) as (_ & [Hrid _] & Hrin).
      assert (r = rec) as ->.
      { destruct (Hin' r Hrin) as [->|[Hold Hother]]; [reflexivity|].
        exfalso. exact (not_stored_id _ _ _ Hfresh Hold Hrid). }
      destruct (findOne_Some _ _ _ _ Hu) as (_ & Hmail & _).
      rewrite verifyOtp_run, Er. cbn [EmailVerification.otp EmailVerification.email rec].
      rewrite String.eqb_refl.
      change (users db') with (users db). rewrite Hu.
      eexists _, _. split; [reflexivity|]. split; [exact Hmail|reflexivity].
    + intros old code' env2 Hold Hmail Hnd Hfresh.
      rewrite verifyOtp_run.
      replace (Mongo.findOne (live (EmailVerification.verificationId old) (Date_now env2))
                 (emailVerifications db')) with (@None (nat * EmailVerification.t));
        [reflexivity|].
      symmetry. apply findOne_None. intros r Hr [Hid _].
      destruct (Hin' r Hr) as [->|[Hr' Hother]].
      * exact (not_stored_id _ _ _ Hfresh Hold (eq_sym Hid)).
      * apply Hother. rewrite (distinct_ids_same_record db r old Hnd Hr' Hold Hid).
        exact Hmail.
Qed.

Lemma registerUser_run userData env db :
  registerUser ext userData env db =
  match Mongo.findOne (fun u => User.email u = ud_email userData
                                ∨ User.mobile u = ud_mobile userData) (users db) with
  | Some _ => (Throw "User already exists with this email or mobile number", db)
  | None =>
      let user :=
        User.mk (objectId env) (generateUserId ext (users db)) (ud_name userData)
                (ud_email userData) (ud_mobile userData)
                (bcrypt_hash ext (randomBytes8 env) 12) (ud_address userData)
                false (schema_isActive ext) (schema_role ext) None None None in
      (Ok (mkRegistration (User.userId user) (ud_email userData) (ud_mobile userData)
                          false (Some (randomBytes16 env)) (Some (randomBytes8 env))),
       mkDb (users db ++ [user])
            (emailVerifications db
             ++ [EmailVerification.mk (ud_email userData)
                   (generateOtp (random_entropy env)) (randomBytes16 env)
                   (Date_now env + otp_lifetime)]))
  end.
Proof.
  unfold registerUser. run_service.
  destruct (Mongo.findOne _ (users db)) as [[i u]|]; reflexivity.
Qed.

(** In [authService.js] a registration stores the user unverified. *)
Lemma registerUser_creates_unverified userData env db reg db' :
  registerUser ext userData env db = (Ok reg, db') ->
  reg_isEmailVerified reg = false
  /\ ∃ u, users db' = users db ++ [u]
          /\ User.email u = ud_email userData
          /\ User.isEmailVerified u = false.
Proof.
  rewrite registerUser_run.
  destruct (Mongo.findOne _ (users db)) as [[i u]|]; [discriminate|].
  intros Hrun. injection Hrun as <- <-. split; [reflexivity|].
  eexists. split; [reflexivity|]. split; reflexivity.
Qed.

Lemma loginUser_users email password env db :
  users (snd (loginUser ext email password env db)) = users db
  \/ ∃ i u, users db !! i = Some u
            /\ users (snd (loginUser ext email password env db))
               = <[i := User.set_lastLogin (Date_now env) u]> (users db).
Proof.
  unfold loginUser. run_service.
  destruct (Mongo.findOne _ (users db)) as [[i u]|] eqn:E; [|left; reflexivity].
  destruct (User.isActive u); [|left; reflexivity].
  destruct (bcrypt_compare ext password (User.password u)); [|left; reflexivity].
  right. exists i, u. split; [|reflexivity].
  apply (findOne_Some _ _ _ _ E).
Qed.

(** In [authService.js] no call but a successful [verifyOtp] turns the
    verified flag of a stored user from false to true. *)
Lemma only_verifyOtp_verifies c env db i u u' :
  users db !! i = Some u ->
  users (snd (run_call ext c env db)) !! i = Some u' ->
  User.isEmailVerified u = false ->
  User.isEmailVerified u' = true ->
  ∃ vid otp, c = CallVerifyOtp vid otp /\ fst (run_call ext c env db) = true.
Proof.
  intros Hu Hu' Hf Ht. destruct c as [userData|email password|vid otp|email|email|userId];
    cbn [run_call outcome fst snd] in *.
  - exfalso. rewrite registerUser_run in Hu'.
    destruct (Mongo.findOne _ (users db)) as [[? ?]|]; cbn [snd users] in Hu'.
    + congruence.
    + rewrite lookup_app_l in Hu' by (eapply lookup_lt_Some; eassumption). congruence.
  - exfalso.
    destruct (loginUser_users email password env db) as [E|(j & w & Hw & E)];
      rewrite E in Hu'; [congruence|].
    destruct (decide (j = i)) as [->|Hne].
    + rewrite list_lookup_insert_eq in Hu' by (eapply lookup_lt_Some; eassumption).
      injection Hu' as <-. rewrite Hu in Hw. injection Hw as <-.
      cbn in Ht. congruence.
    + rewrite list_lookup_insert_ne in Hu' by assumption. congruence.
  - exists vid, otp. split; [reflexivity|].
    destruct (verifyOtp ext vid otp env db) as [[s|msg] db'] eqn:E; [reflexivity|].
    exfalso. rewrite verifyOtp_run in E.
    destruct (Mongo.findOne (live _ _) _) as [[? r]|].
    + destruct (String.eqb _ _).
      * destruct (Mongo.findOne (has_email _) _) as [[? ?]|]; [discriminate|].
        injection E as _ <-. cbn [snd] in Hu'. congruence.
      * injection E as _ <-. cbn [snd] in Hu'. congruence.
    + injection E as _ <-. cbn [snd] in Hu'. congruence.
  - exfalso. rewrite sendOtp_run in Hu'.
    destruct (Mongo.findOne _ (users db)) as [[? ?]|];
      rewrite ?issueOtp_run in Hu'; cbn [snd users] in Hu'; congruence.
  - exfalso. rewrite resendOtp_run in Hu'.
    destruct (Mongo.findOne _ (users db)) as [[? w]|]; [|cbn in Hu'; congruence].
    destruct (User.isEmailVerified w);
      rewrite ?issueOtp_run in Hu'; cbn [snd users] in Hu'; congruence.
  - exfalso. unfold getUserProfile in Hu'. revert Hu'. run_service.
    destruct (Mongo.findOne _ (users db)) as [[? ?]|]; cbn; congruence.
Qed.

Lemma deleteOne_sublist {A} (P : A -> Prop) `{!∀ x, Decision (P x)} (c : list A) :
  Mongo.deleteOne P c `sublist_of` c.
Proof.
  unfold Mongo.deleteOne. destruct (list_find P c) as [[i x]|]; [|reflexivity].
  apply sublist_delete.
Qed.

(** Verification identifiers stay pairwise distinct as long as
    [crypto.randomBytes] does not repeat one that is in store. *)
Lemma distinct_ids_preserved c env db :
  NoDup (stored_ids db) ->
  randomBytes16 env ∉ stored_ids db ->
  NoDup (stored_ids (snd (run_call ext c env db))).
Proof.
  intros Hnd Hfresh.
  assert (Hadd : ∀ l r, l `sublist_of` emailVerifications db ->
            EmailVerification.verificationId r = randomBytes16 env ->
            NoDup (EmailVerification.verificationId <$> (l ++ [r]))).
  { intros l r Hsub Hr. rewrite fmap_app. apply NoDup_app.
    assert (Hsub' : (EmailVerification.verificationId <$> l)
                      `sublist_of` stored_ids db) by (apply fmap_sublist; exact Hsub).
    split; [eapply sublist_NoDup; eassumption|]. split.
    - intros x Hx Hin. cbn in Hin. apply list_elem_of_singleton in Hin. subst x.
      apply Hfresh. rewrite <- Hr. eapply elem_of_sublist; eassumption.
    - apply NoDup_singleton. }
  destruct c as [userData|email password|vid otp|email|email|userId];
    cbn [run_call outcome fst snd]; unfold stored_ids.
  - rewrite registerUser_run.
    destruct (Mongo.findOne _ (users db)) as [[? ?]|]; [exact Hnd|].
    cbn [snd emailVerifications]. apply Hadd; reflexivity.
  - unfold loginUser. run_service.
    destruct (Mongo.findOne _ (users db)) as [[i u]|]; [|exact Hnd].
    destruct (User.isActive u); [|exact Hnd].
    destruct (bcrypt_compare ext password (User.password u)); exact Hnd.
  - rewrite verifyOtp_run.
    destruct (Mongo.findOne (live _ _) _) as [[? r]|]; [|exact Hnd].
    destruct (String.eqb _ _); [|exact Hnd].
    destruct (Mongo.findOne (has_email _) _) as [[? ?]|]; [|exact Hnd].
    cbn [snd emailVerifications]. eapply sublist_NoDup; [exact Hnd|].
    apply fmap_sublist, deleteOne_sublist.
  - rewrite sendOtp_run.
    destruct (Mongo.findOne _ (users db)) as [[? ?]|]; [exact Hnd|].
    rewrite issueOtp_run. cbn [snd emailVerifications]. apply Hadd; reflexivity.
  - rewrite resendOtp_run.
    destruct (Mongo.findOne _ (users db)) as [[? w]|]; [|exact Hnd].
    destruct (User.isEmailVerified w); [exact Hnd|].
    rewrite issueOtp_run. cbn [snd emailVerifications]. apply Hadd; [|reflexivity].
    apply sublist_filter.
  - unfold getUserProfile. run_service.
    destruct (Mongo.findOne _ (users db)) as [[? ?]|]; exact Hnd.
Qed.

(** The link-based copy stores every new user already verified. *)
Lemma link_registerUser_creates_verified userData env db reg db' :
  AuthServiceLink.registerUser ext userData env db = (Ok reg, db') ->
  reg_isEmailVerified reg = true
  /\ ∃ u, users db' = users db ++ [u]
          /\ User.email u = ud_email userData
          /\ User.isEmailVerified u = true.
Proof.
  unfold AuthServiceLink.registerUser. run_service.
  destruct (Mongo.findOne _ (users db)) as [[i u]|]; [discriminate|].
  intros Hrun. injection Hrun as <- <-. split; [reflexivity|].
  eexists. split.
  - cbn [users with_users]. unfold Mongo.save, Mongo.create.
    rewrite insert_app_r_alt by reflexivity. rewrite Nat.sub_diag. reflexivity.
  - split; reflexivity.
Qed.

End Facts.

(** ** The statements on the sample registration *)

Lemma verifyOtp_outcomes_witness :
  verifyOtp Sample.ext "00000000000000000000000000000000" "550000"
            Sample.env_verify Sample.db_registered
    = (Throw "Invalid or expired OTP", Sample.db_registered)
  /\ verifyOtp Sample.ext "9f86d081884c7d659a2feaa0c55ad015" "123456"
               Sample.env_verify Sample.db_registered
      = (Throw "Invalid OTP", Sample.db_registered)
  /\ ∃ s db',
      verifyOtp Sample.ext "9f86d081884c7d659a2feaa0c55ad015" "550000"
                Sample.env_verify Sample.db_registered = (Ok s, db')
      /\ (User.isEmailVerified <$> users db') = [true]
      /\ emailVerifications db' = []
      /\ s_token s = "jwt:65a1f0c2e4b0a1b2c3d4e5f6".
Proof.
  split; [|split].
  - apply (verifyOtp_outcomes Sample.ext).
    intros r Hr [Hid _]. apply list_elem_of_singleton in Hr. subst r.
    discriminate Hid.
  - apply (verifyOtp_outcomes Sample.ext).
    + eexists. split; [left|]. split; [reflexivity|]. vm_compute. reflexivity.
    + intros r Hr _. apply list_elem_of_singleton in Hr. subst r. discriminate.
  - destruct (verifyOtp_outcomes Sample.ext "9f86d081884c7d659a2feaa0c55ad015"
                "550000" Sample.env_verify Sample.db_registered)
      as (_ & _ & Hok & Hdoes).
    destruct (Hdoes 0%nat
                (EmailVerification.mk "asha@example.com" "550000"
                   "9f86d081884c7d659a2feaa0c55ad015" 1700000900000)
                (User.mk "65a1f0c2e4b0a1b2c3d4e5f6" "USR1" "Asha Rao"
                   "asha@example.com" "9876543210" "bcrypt:5b1c0e9a7d2f4468"
                   "12 MG Road, Pune" false true "user" None None None))
      as (s & db' & Hrun); [reflexivity|reflexivity|left|reflexivity|].
    exists s, db'. split; [exact Hrun|].
    destruct (Hok s db' Hrun) as (i & u & r0 & j & r & H).
    destruct H as (_ & _ & _ & Hi & _ & Husers & _ & _ & Hj & _ & Hevs & _ & Htok & _).
    destruct i as [|[|i]]; [|discriminate Hi|discriminate Hi].
    destruct j as [|[|j]]; [|discriminate Hj|discriminate Hj].
    injection Hi as <-. rewrite Husers, Hevs, Htok. repeat split; reflexivity.
Defined.

Lemma verifyOtp_wrong_code_keeps_record_witness :
  ∃ db1,
    verifyOtp Sample.ext "9f86d081884c7d659a2feaa0c55ad015" "123456"
              Sample.env_verify Sample.db_registered = (Throw "Invalid OTP", db1)
    /\ db1 = Sample.db_registered
    /\ ∃ s db2,
        verifyOtp Sample.ext "9f86d081884c7d659a2feaa0c55ad015" "550000"
                  Sample.env_late db1 = (Ok s, db2)
        /\ p_isEmailVerified (s_user s) = true.
Proof.
  destruct (verifyOtp_wrong_code_keeps_record Sample.ext
              "9f86d081884c7d659a2feaa0c55ad015" "123456"
              Sample.env_verify Sample.db_registered 0%nat
              (EmailVerification.mk "asha@example.com" "550000"
                 "9f86d081884c7d659a2feaa0c55ad015" 1700000900000))
    as (db1 & H1 & H2 & _ & H4); [reflexivity|discriminate|].
  exists db1. split; [exact H1|]. split; [exact H2|].
  destruct (H4 Sample.env_late
              (User.mk "65a1f0c2e4b0a1b2c3d4e5f6" "USR1" "Asha Rao"
                 "asha@example.com" "9876543210" "bcrypt:5b1c0e9a7d2f4468"
                 "12 MG Road, Pune" false true "user" None None None))
    as (s & db2 & Hrun & Hflag & _);
    [vm_compute; discriminate|reflexivity|rewrite H2; left|reflexivity|].
  exists s, db2. split; [exact Hrun|exact Hflag].
Defined.

Lemma sendOtp_outcomes_witness :
  sendOtp "asha@example.com" Sample.env_resend Sample.db_registered
    = (Throw "User already exists with this email", Sample.db_registered)
  /\ sendOtp "ravi@example.com" Sample.env_resend Sample.db_registered
      = (Ok (mkTicket "0cc175b9c0f1b6a831c399e269772661" "ravi@example.com"),
         Sample.db_sent)
  /\ filter (has_id "0cc175b9c0f1b6a831c399e269772661")
            (emailVerifications Sample.db_sent)
      = [EmailVerification.mk "ravi@example.com" "325000"
           "0cc175b9c0f1b6a831c399e269772661" 1700001200000]
  /\ ∃ s db3,
      verifyOtp Sample.ext "0cc175b9c0f1b6a831c399e269772661" "325000"
                Sample.env_late Sample.db_ravi = (Ok s, db3)
      /\ filter (has_id "0cc175b9c0f1b6a831c399e269772661") (emailVerifications db3) = [].
Proof.
  destruct (sendOtp_outcomes Sample.ext "asha@example.com" Sample.env_resend
              Sample.db_registered) as [Hexists _].
  destruct (sendOtp_outcomes Sample.ext "ravi@example.com" Sample.env_resend
              Sample.db_registered) as [_ Hnew].
  split.
  { apply Hexists. eexists. split; [left|reflexivity]. }
  destruct Hnew as (Hrun & _ & _ & _ & _ & Hone & Hlater).
  { intros u Hu. apply list_elem_of_singleton in Hu. subst u. discriminate. }
  split; [exact Hrun|]. split.
  { apply Hone. intros Hin. apply list_elem_of_singleton in Hin. discriminate Hin. }
  destruct (verifyOtp Sample.ext "0cc175b9c0f1b6a831c399e269772661" "325000"
              Sample.env_late Sample.db_ravi) as [[s|msg] db3] eqn:E;
    [|vm_compute in E; discriminate E].
  exists s, db3. split; [reflexivity|].
  eapply Hlater; [|exact E]. reflexivity.
Defined.

Lemma resendOtp_outcomes_witness :
  resendOtp "nobody@example.com" Sample.env_resend Sample.db_registered
    = (Throw "No account found with this email address", Sample.db_registered)
  /\ resendOtp "asha@example.com" Sample.env_resend Sample.db_verified
      = (Throw "Email is already verified", Sample.db_verified)
  /\ resendOtp "asha@example.com" Sample.env_resend Sample.db_registered
      = (Ok (mkTicket "0cc175b9c0f1b6a831c399e269772661" "asha@example.com"),
         Sample.db_resent)
  /\ verifyOtp Sample.ext "9f86d081884c7d659a2feaa0c55ad015" "550000"
               Sample.env_late Sample.db_resent
      = (Throw "Invalid or expired OTP", Sample.db_resent)
  /\ ∃ s db2,
      verifyOtp Sample.ext "0cc175b9c0f1b6a831c399e269772661" "325000"
                Sample.env_late Sample.db_resent = (Ok s, db2)
      /\ p_isEmailVerified (s_user s) = true.
Proof.
  destruct (resendOtp_outcomes Sample.ext "nobody@example.com" Sample.env_resend
              Sample.db_registered) as (Hnone & _).
  destruct (resendOtp_outcomes Sample.ext "asha@example.com" Sample.env_resend
              Sample.db_verified) as (_ & Hdone & _).
  destruct (resendOtp_outcomes Sample.ext "asha@example.com" Sample.env_resend
              Sample.db_registered) as (_ & _ & Hnew).
  split.
  { apply Hnone. intros u Hu. apply list_elem_of_singleton in Hu. subst u. discriminate. }
  split.
  { eapply Hdone; reflexivity. }
  destruct (Hnew 0%nat
              (User.mk "65a1f0c2e4b0a1b2c3d4e5f6" "USR1" "Asha Rao"
                 "asha@example.com" "9876543210" "bcrypt:5b1c0e9a7d2f4468"
                 "12 MG Road, Pune" false true "user" None None None))
    as (Hrun & _ & _ & Hnewest & Hold); [reflexivity|reflexivity|].
  split; [exact Hrun|]. split.
  { apply (Hold (EmailVerification.mk "asha@example.com" "550000"
                   "9f86d081884c7d659a2feaa0c55ad015" 1700000900000)).
    - left.
    - reflexivity.
    - apply NoDup_singleton.
    - intros Hin. apply list_elem_of_singleton in Hin. discriminate Hin. }
  destruct (Hnewest Sample.env_late) as (s & db2 & Hok & _ & Hflag).
  { reflexivity. }
  { intros Hin. apply list_elem_of_singleton in Hin. discriminate Hin. }
  exists s, db2. split; [exact Hok|exact Hflag].
Defined.

(** C7. Registering Asha through [authService.js] stores her unverified;
    the very same registration through the link-based copy of the service
    stores her with the verified flag already true, although no
    verification has taken place. *)
Theorem link_registerUser_stores_verified_user :
  (User.isEmailVerified <$>
     users (snd (registerUser Sample.ext Sample.asha Sample.env_register Sample.db_empty)))
    = [false]
  /\ AuthServiceLink.registerUser Sample.ext Sample.asha Sample.env_register
       Sample.db_empty
     = (Ok (mkRegistration "USR1" "asha@example.com" "9876543210" true None None),
        mkDb [User.mk "65a1f0c2e4b0a1b2c3d4e5f6" "USR1" "Asha Rao"
                "asha@example.com" "9876543210" "bcrypt:5b1c0e9a7d2f4468"
                "12 MG Road, Pune" true true "user" None
                (Some "2c26b46b68ffc68ff99b453c1d30413413422d706483bfa0f98a5e886266e7ae")
                (Some 1700086400000)]
             []).
Proof. split; vm_compute; reflexivity. Qed.

End AuthFacts.

(** * The upload controller *)
Module UploadFacts.
Import JS UploadController UploadVocabulary MongoFacts.

Ltac run_handler :=
  unfold mbind, M_bind, mret, M_ret, bind, try_catch, gets, modify, ret, throw.

Lemma world_eta w : mkWorld (disk w) (documents w) = w.
Proof. destruct w; reflexivity. Qed.

Lemma unlink_logged_run p w :
  unlink_logged p w = (Ok tt, mkWorld (delete p (disk w)) (documents w)).
Proof.
  unfold unlink_logged, unlinkSync. run_handler.
  destruct (disk w !! p) eqn:E; [reflexivity|].
  rewrite delete_id by assumption. rewrite world_eta. reflexivity.
Qed.

Lemma unlink_each_run fs w :
  unlink_each fs w = (Ok tt, mkWorld (remove_all fs (disk w)) (documents w)).
Proof.
  revert w. induction fs as [|f fs IH]; intros w.
  - cbn. rewrite world_eta. reflexivity.
  - cbn [unlink_each]. unfold mbind, M_bind, bind.
    rewrite unlink_logged_run, IH. reflexivity.
Qed.

Lemma remove_all_gone fs d p : d !! p = None -> remove_all fs d !! p = None.
Proof.
  revert d. induction fs as [|f fs IH]; intros d Hd; [exact Hd|].
  cbn. apply IH. destruct (decide (path f = p)) as [->|Hne].
  - apply lookup_delete_eq.
  - rewrite lookup_delete_ne by assumption. exact Hd.
Qed.

Lemma remove_all_removes fs d f : f ∈ fs -> remove_all fs d !! path f = None.
Proof.
  revert d. induction fs as [|g fs IH]; intros d Hin.
  - apply elem_of_nil in Hin. destruct Hin.
  - apply elem_of_cons in Hin. destruct Hin as [->|Hin].
    + cbn. apply remove_all_gone, lookup_delete_eq.
    + cbn. apply IH. exact Hin.
Qed.

Section Facts.
Variable ext : Externals.

(** Parsing the batch metadata never touches the world. *)
Lemma parse_field_world field w : snd (parse_field ext field w) = w.
Proof.
  unfold parse_field. destruct field as [text|]; [|reflexivity].
  destruct (truthy text); [|reflexivity].
  destruct (JSON_parse ext text); reflexivity.
Qed.

Lemma parseMetadata_world req w : snd (parseMetadata ext req w) = w.
Proof.
  unfold parseMetadata. run_handler.
  pose proof (parse_field_world (body req !! "customerInfo") w) as H1.
  destruct (parse_field ext (body req !! "customerInfo") w) as [[c|m] w1];
    cbn [snd] in H1; subst w1; [|reflexivity].
  pose proof (parse_field_world (body req !! "pricingSnapshot") w) as H2.
  destruct (parse_field ext (body req !! "pricingSnapshot") w) as [[p|m] w2];
    cbn [snd] in H2; subst w2; [|reflexivity].
  pose proof (parse_field_world (body req !! "metadata") w) as H3.
  destruct (parse_field ext (body req !! "metadata") w) as [[x|m] w3];
    cbn [snd] in H3; subst w3; reflexivity.
Qed.

Lemma parse_field_ok field w :
  parses ext field -> ∃ v, parse_field ext field w = (Ok v, w).
Proof.
  unfold parses, parse_field. destruct field as [text|]; [|eexists; reflexivity].
  destruct (truthy text); [|eexists; reflexivity].
  intros H. destruct (H eq_refl) as [v ->]. eexists; reflexivity.
Qed.

Lemma parse_field_throw field w :
  ¬ parses ext field -> ∃ msg, parse_field ext field w = (Throw msg, w).
Proof.
  unfold parses, parse_field. destruct field as [text|]; [|tauto].
  destruct (truthy text); [|intros H; exfalso; apply H; discriminate].
  destruct (JSON_parse ext text) as [v|msg]; [|eexists; reflexivity].
  intros H. exfalso. apply H. eauto.
Qed.

Lemma parses_dec field : parses ext field \/ ¬ parses ext field.
Proof.
  unfold parses. destruct field as [text|]; [|tauto].
  destruct (truthy text); [|left; discriminate].
  destruct (JSON_parse ext text) as [v|msg]; [left; eauto|].
  right. intros H. destruct (H eq_refl) as [v Hv]. discriminate Hv.
Qed.

Lemma parseMetadata_ok req w :
  metadata_parses ext req -> ∃ md, parseMetadata ext req w = (Ok md, w).
Proof.
  intros (H1 & H2 & H3). unfold parseMetadata. run_handler.
  destruct (parse_field_ok _ w H1) as [c ->].
  destruct (parse_field_ok _ w H2) as [p ->].
  destruct (parse_field_ok _ w H3) as [m ->].
  eexists; reflexivity.
Qed.

Lemma parseMetadata_throw req w :
  ¬ metadata_parses ext req -> ∃ msg, parseMetadata ext req w = (Throw msg, w).
Proof.
  intros Hbad. unfold parseMetadata. run_handler.
  destruct (parses_dec (body req !! "customerInfo")) as [H1|H1];
    [|destruct (parse_field_throw _ w H1) as [msg ->]; eexists; reflexivity].
  destruct (parse_field_ok _ w H1) as [c ->].
  destruct (parses_dec (body req !! "pricingSnapshot")) as [H2|H2];
    [|destruct (parse_field_throw _ w H2) as [msg ->]; eexists; reflexivity].
  destruct (parse_field_ok _ w H2) as [p ->].
  destruct (parses_dec (body req !! "metadata")) as [H3|H3];
    [|destruct (parse_field_throw _ w H3) as [msg ->]; eexists; reflexivity].
  exfalso. apply Hbad. repeat split; assumption.
Qed.

(** One turn of the loop always ends with one outcome; it never puts a
    file back on disk; it stores one document when the outcome is an upload
    and none otherwise. *)
Lemma processFile_turn req md i f w :
  ∃ o w',
    processFile ext req md i f w = (Ok o, w')
    /\ (∀ p, disk w !! p = None -> disk w' !! p = None)
    /\ match o with
       | Uploaded _ => ∃ d, documents w' = documents w ++ [d]
       | Refused _ => documents w' = documents w /\ disk w' !! path f = None
       end.
Proof.
  unfold processFile, tryFile, readFileSync, Document_findOne, Document_generateUDIN,
    Document_create, unlinkSync.
  run_handler.
  destruct (disk w !! path f) as [bytes|] eqn:Edisk.
  - cbn [fst snd documents disk].
    destruct (Mongo.findOne _ (documents w)) as [[j d]|] eqn:Edup; cbn [fmap option_fmap option_map snd].
    + rewrite Edisk. eexists _, _. split; [reflexivity|]. cbn [disk documents].
      split; [|split; [reflexivity|apply lookup_delete_eq]].
      intros p Hp. destruct (decide (path f = p)) as [->|Hne];
        [apply lookup_delete_eq|rewrite lookup_delete_ne by assumption; exact Hp].
    + destruct (generateUDIN ext (documents w)) as [u|m].
      * cbn [documents]. destruct (schema_rejects ext (documents w) _) as [m|].
        -- rewrite unlink_logged_run. eexists _, _. split; [reflexivity|].
           cbn [disk documents]. split; [|split; [reflexivity|apply lookup_delete_eq]].
           intros p Hp. destruct (decide (path f = p)) as [->|Hne];
             [apply lookup_delete_eq|rewrite lookup_delete_ne by assumption; exact Hp].
        -- eexists _, _. split; [reflexivity|]. cbn [disk documents].
           split; [tauto|]. eexists. reflexivity.
      * rewrite unlink_logged_run. eexists _, _. split; [reflexivity|].
        cbn [disk documents]. split; [|split; [reflexivity|apply lookup_delete_eq]].
        intros p Hp. destruct (decide (path f = p)) as [->|Hne];
          [apply lookup_delete_eq|rewrite lookup_delete_ne by assumption; exact Hp].
  - rewrite unlink_logged_run. eexists _, _. split; [reflexivity|].
    cbn [disk documents]. split; [|split; [reflexivity|apply lookup_delete_eq]].
    intros p Hp. destruct (decide (path f = p)) as [->|Hne];
      [apply lookup_delete_eq|rewrite lookup_delete_ne by assumption; exact Hp].
Qed.

(** The turn of a duplicate: the file is unlinked, the message is the
    "already been uploaded" one, no document is stored. *)
Lemma processFile_duplicate req md i f w :
  duplicate ext w f ->
  processFile ext req md i f w
  = (Ok (Refused (already_uploaded f)),
     mkWorld (delete (path f) (disk w)) (documents w)).
Proof.
  intros (bytes & d & Hdisk & Hd & Hhash).
  unfold processFile, tryFile, readFileSync, Document_findOne, unlinkSync.
  run_handler. rewrite Hdisk. cbn [fst snd documents disk].
  destruct (findOne_is_Some (fun x => documentHash x = sha256 ext bytes) _ d Hd Hhash)
    as (j & d' & E).
  rewrite E. cbn. rewrite Hdisk. reflexivity.
Qed.

Lemma outcomes_length os : (length (uploads os) + length (refusals os))%nat = length os.
Proof.
  induction os as [|[f|e] os IH]; cbn; [reflexivity| |]; lia.
Qed.

(** The loop gives every file one outcome, in order: the uploads go to
    [uploadedDocuments], the refusals to [errors]. *)
Lemma processFiles_outcomes req md fs : ∀ i ups errs w,
  ∃ os w',
    processFiles ext req md i fs ups errs w
      = (Ok (ups ++ uploads os, errs ++ refusals os), w')
    /\ length os = length fs
    /\ (∀ p, disk w !! p = None -> disk w' !! p = None)
    /\ ∃ new, documents w' = documents w ++ new /\ length new = length (uploads os).
Proof.
  induction fs as [|f fs IH]; intros i ups errs w.
  - exists [], w. cbn. rewrite !app_nil_r. split; [reflexivity|].
    split; [reflexivity|]. split; [tauto|]. exists []. rewrite app_nil_r. tauto.
  - cbn [processFiles]. unfold mbind, M_bind, bind.
    destruct (processFile_turn req md i f w) as (o & w1 & -> & Hdisk & Hdocs).
    destruct o as [u|e].
    + destruct (IH (S i) (ups ++ [u]) errs w1) as (os & w' & -> & Hlen & Hd & new & Hnew & Hn).
      exists (Uploaded u :: os), w'. cbn [uploads refusals length].
      rewrite <- app_assoc. split; [reflexivity|]. split; [lia|].
      split; [intros q Hq; apply Hd, Hdisk, Hq|].
      destruct Hdocs as [d Hd1]. exists (d :: new). rewrite Hnew, Hd1, <- app_assoc.
      split; [reflexivity|cbn; lia].
    + destruct (IH (S i) ups (errs ++ [e]) w1) as (os & w' & -> & Hlen & Hd & new & Hnew & Hn).
      exists (Refused e :: os), w'. cbn [uploads refusals length].
      rewrite <- app_assoc. split; [reflexivity|]. split; [lia|].
      split; [intros q Hq; apply Hd, Hdisk, Hq|].
      destruct Hdocs as [Hd1 _]. exists new. rewrite Hnew, Hd1. tauto.
Qed.

(** The loop over [pre ++ post] is the loop over [pre] followed by the loop
    over [post]. *)
Lemma processFiles_app req md pre post : ∀ i ups errs w ups1 errs1 w1,
  processFiles ext req md i pre ups errs w = (Ok (ups1, errs1), w1) ->
  processFiles ext req md i (pre ++ post) ups errs w
  = processFiles ext req md (i + length pre) post ups1 errs1 w1.
Proof.
  induction pre as [|f pre IH]; intros i ups errs w ups1 errs1 w1 Hpre.
  - cbn in Hpre. injection Hpre as <- <- <-. cbn. rewrite Nat.add_0_r. reflexivity.
  - cbn [processFiles app] in *. unfold mbind, M_bind, bind in *.
    destruct (processFile ext req md i f w) as [[[u|e]|m] w0]; [| |discriminate].
    + rewrite (IH _ _ _ _ _ _ _ Hpre). f_equal. cbn. lia.
    + rewrite (IH _ _ _ _ _ _ _ Hpre). f_equal. cbn. lia.
Qed.

(** The handler on a batch that reaches the loop. *)
Lemma uploadFiles_run req w md ups errs w' :
  isEmailVerified (user req) = true ->
  validation req = [] ->
  parseMetadata ext req w = (Ok md, w) ->
  processFiles ext req md 0 (received req) [] [] w = (Ok (ups, errs), w') ->
  uploadFiles ext req w =
  (if decide (received req = [])
   then mkResponse 400 false "No files uploaded" None None
   else report ups errs (length (received req)),
   w').
Proof.
  intros Hv Hval Hmd Hloop. unfold uploadFiles, handle, received in *.
  rewrite Hval, Hv. cbn [bool_decide negb decide_rel].
  rewrite bool_decide_eq_true_2 by reflexivity. cbn [negb].
  destruct (files req) as [[|f fs]|].
  - cbn in Hloop. injection Hloop as <- <- <-. reflexivity.
  - change (default [] (Some (f :: fs))) with (f :: fs) in *.
    unfold mbind, M_bind, bind. rewrite Hmd, Hloop. reflexivity.
  - cbn in Hloop. injection Hloop as <- <- <-. reflexivity.
Qed.

(** The handler on a batch whose metadata does not parse. *)
Lemma uploadFiles_throw req w msg :
  isEmailVerified (user req) = true ->
  validation req = [] ->
  received req ≠ [] ->
  parseMetadata ext req w = (Throw msg, w) ->
  uploadFiles ext req w =
  (mkResponse 500 false (if truthy msg then msg else "File upload failed") None None,
   mkWorld (remove_all (received req) (disk w)) (documents w)).
Proof.
  intros Hv Hval Hne Hmd. unfold uploadFiles, handle, received in *.
  rewrite Hval, Hv. rewrite bool_decide_eq_true_2 by reflexivity. cbn [negb].
  destruct (files req) as [[|f fs]|]; [contradiction| |contradiction].
  change (default [] (Some (f :: fs))) with (f :: fs) in *.
  unfold mbind, M_bind, bind. rewrite Hmd. rewrite unlink_each_run. reflexivity.
Qed.

(** The handler with the two [errors] told apart, on a batch sent by a
    user whose e-mail is not verified (on the route, which runs no
    validation chain): every file received is removed from the temporary
    directory, the answer is 400 with [success] false and no report, and the
    [Document] collection is left as it was. *)
Lemma unverified_batch_rejected req w :
  isEmailVerified (user req) = false ->
  validation req = [] ->
  let res := fst (uploadFiles ext req w) in
  let w' := snd (uploadFiles ext req w) in
  statusCode res = 400
  /\ success res = false
  /\ data res = None
  /\ documents w' = documents w
  /\ (∀ f, f ∈ received req -> disk w' !! path f = None)
  /\ (∀ p, disk w !! p = None -> disk w' !! p = None).
Proof.
  intros Hv Hval. unfold uploadFiles, handle, received.
  rewrite Hval, Hv. rewrite bool_decide_eq_true_2 by reflexivity. cbn [negb].
  destruct (files req) as [[|f fs]|]; cbn [default].
  - cbn. repeat split; try reflexivity; [|tauto].
    intros g Hg. apply elem_of_nil in Hg. destruct Hg.
  - unfold mbind, M_bind, bind. rewrite unlink_each_run. cbn.
    repeat split; try reflexivity.
    + intros g Hg. apply (remove_all_removes (f :: fs)). exact Hg.
    + intros q Hq. apply (remove_all_gone (f :: fs)). exact Hq.
  - cbn. repeat split; try reflexivity; [|tauto].
    intros g Hg. apply elem_of_nil in Hg. destruct Hg.
Qed.

(** The handler with the two [errors] told apart, on a batch of a verified
    user.  When the batch metadata ([customerInfo], [pricingSnapshot],
    [metadata]) is absent or JSON: the answer is 201 with [success] true exactly when at least one
    file was accepted, and 400 with [success] false otherwise; and a file
    that is, at its turn, on disk with the hash of a stored document is
    unlinked, stores no document, leaves the message "already been
    uploaded" in the [errors] of the answer, and the loop goes on with the
    files after it.  When a metadata field is not JSON the answer is 500,
    every file received is unlinked and nothing is stored. *)
Lemma duplicate_refused_batch_goes_on req w :
  isEmailVerified (user req) = true ->
  validation req = [] ->
  (metadata_parses ext req ->
   ∃ md ups errs w',
    parseMetadata ext req w = (Ok md, w)
    /\ processFiles ext req md 0 (received req) [] [] w = (Ok (ups, errs), w')
    /\ snd (uploadFiles ext req w) = w'
    /\ (statusCode (fst (uploadFiles ext req w)) = 201 <-> ups ≠ [])
    /\ (success (fst (uploadFiles ext req w)) = true <-> ups ≠ [])
    /\ (ups = [] -> statusCode (fst (uploadFiles ext req w)) = 400
                    /\ success (fst (uploadFiles ext req w)) = false)
    /\ (received req ≠ [] ->
        data (fst (uploadFiles ext req w))
        = Some (mkData ups (length ups) (length (received req))
                       (if (0 <? length errs)%nat then Some errs else None)))
    /\ (∃ new, documents w' = documents w ++ new /\ length new = length ups)
    /\ ∀ pre f post ups1 errs1 w1,
        received req = pre ++ f :: post ->
        processFiles ext req md 0 pre [] [] w = (Ok (ups1, errs1), w1) ->
        duplicate ext w1 f ->
        processFiles ext req md (S (length pre)) post ups1
                     (errs1 ++ [already_uploaded f])
                     (mkWorld (delete (path f) (disk w1)) (documents w1))
          = (Ok (ups, errs), w')
        /\ already_uploaded f ∈ errs
        /\ disk w' !! path f = None)
  /\ (¬ metadata_parses ext req ->
      received req ≠ [] ->
      statusCode (fst (uploadFiles ext req w)) = 500
      /\ success (fst (uploadFiles ext req w)) = false
      /\ data (fst (uploadFiles ext req w)) = None
      /\ documents (snd (uploadFiles ext req w)) = documents w
      /\ ∀ f, f ∈ received req -> disk (snd (uploadFiles ext req w)) !! path f = None).
Proof.
  intros Hv Hval. split.
  - intros Hparse. destruct (parseMetadata_ok req w Hparse) as [md Hmd].
  destruct (processFiles_outcomes req md (received req) 0%nat [] [] w)
    as (os & w' & Hloop & Hlen & Hdisk & new & Hnew & Hn).
  cbn [app] in Hloop. exists md, (uploads os), (refusals os), w'.
  rewrite (uploadFiles_run req w md _ _ _ Hv Hval Hmd Hloop). cbn [fst snd].
  split; [exact Hmd|]. split; [exact Hloop|]. split; [reflexivity|].
  assert (Hempty : received req = [] -> uploads os = []).
  { intros E. rewrite E in Hlen. destruct os; [reflexivity|discriminate]. }
  split; [|split; [|split; [|split; [|split]]]].
  + destruct (decide (received req = [])) as [E|E]; cbn.
    * rewrite (Hempty E). split; [discriminate|congruence].
    * destruct (uploads os); cbn; split; congruence.
  + destruct (decide (received req = [])) as [E|E]; cbn.
    * rewrite (Hempty E). split; [discriminate|congruence].
    * destruct (uploads os); cbn; split; congruence.
  + intros ->. destruct (decide (received req = [])); cbn; split; reflexivity.
  + intros Hne. destruct (decide (received req = [])); [contradiction|reflexivity].
  + exists new. split; assumption.
  + intros pre f post ups1 errs1 w1 Hsplit Hpre Hdup.
    assert (Hrest : processFiles ext req md 0 (received req) [] [] w
                    = processFiles ext req md (S (length pre)) post ups1
                        (errs1 ++ [already_uploaded f])
                        (mkWorld (delete (path f) (disk w1)) (documents w1))).
    { rewrite Hsplit, (processFiles_app req md pre (f :: post) _ _ _ _ _ _ _ Hpre).
      cbn [processFiles Nat.add]. unfold mbind, M_bind, bind.
      rewrite (processFile_duplicate req md _ f w1 Hdup). reflexivity. }
    rewrite Hloop in Hrest. split; [symmetry; exact Hrest|].
    destruct (processFiles_outcomes req md post (S (length pre)) ups1
                (errs1 ++ [already_uploaded f])
                (mkWorld (delete (path f) (disk w1)) (documents w1)))
      as (os2 & w2 & Hpost & _ & Hdisk2 & _).
    rewrite Hpost in Hrest. injection Hrest as _ Herrs Hw. split.
    * rewrite Herrs. apply elem_of_app. left. apply elem_of_app. right. left.
    * rewrite Hw. apply Hdisk2. cbn [disk]. apply lookup_delete_eq.
  - intros Hbad Hne. destruct (parseMetadata_throw req w Hbad) as [msg Hmd].
    rewrite (uploadFiles_throw req w msg Hv Hval Hne Hmd). cbn.
    repeat split. intros f Hf. apply remove_all_removes. exact Hf.
Qed.

(** The handler with the two [errors] told apart, on a batch of a verified
    user with at least one file, whose batch metadata parses: every file received has exactly
    one outcome, an entry of [uploadedFiles] or an entry of [errors], so
    that in the answer [totalUploaded] plus the number of errors is
    [totalRequested]. *)
Lemma every_file_has_one_outcome req w :
  isEmailVerified (user req) = true ->
  validation req = [] ->
  received req ≠ [] ->
  metadata_parses ext req ->
  ∃ os d,
    length os = length (received req)
    /\ data (fst (uploadFiles ext req w)) = Some d
    /\ uploadedFiles d = uploads os
    /\ errors d = (if (0 <? length (refusals os))%nat then Some (refusals os) else None)
    /\ error_count d = length (refusals os)
    /\ totalUploaded d = length (uploads os)
    /\ totalRequested d = length (received req)
    /\ (totalUploaded d + error_count d)%nat = totalRequested d.
Proof.
  intros Hv Hval Hne Hparse. destruct (parseMetadata_ok req w Hparse) as [md Hmd].
  destruct (processFiles_outcomes req md (received req) 0%nat [] [] w)
    as (os & w' & Hloop & Hlen & _).
  cbn [app] in Hloop.
  rewrite (uploadFiles_run req w md _ _ _ Hv Hval Hmd Hloop). cbn [fst].
  destruct (decide (received req = [])); [contradiction|].
  exists os. eexists. split; [exact Hlen|]. split; [reflexivity|].
  cbn [uploadedFiles errors totalUploaded totalRequested].
  assert (Hcount : error_count
            (mkData (uploads os) (length (uploads os)) (length (received req))
               (if (0 <? length (refusals os))%nat then Some (refusals os) else None))
          = length (refusals os)).
  { unfold error_count. cbn [errors]. destruct (refusals os); reflexivity. }
  split; [reflexivity|]. split; [reflexivity|]. split; [exact Hcount|].
  split; [reflexivity|]. split; [reflexivity|].
  rewrite Hcount, outcomes_length. exact Hlen.
Qed.

End Facts.

(** ** The handler with the two [errors] told apart, on the sample batch *)

Lemma sample_metadata_parses :
  metadata_parses UploadSample.ext UploadSample.verified_request.
Proof.
  split; [|split]; vm_compute.
  - intros _. exists (JCompound "{}"). reflexivity.
  - exact I.
  - exact I.
Defined.

Lemma sample_duplicate :
  duplicate UploadSample.ext UploadSample.world UploadSample.a_pdf.
Proof.
  exists "AAA", UploadSample.stored. split; [reflexivity|]. split; [left|reflexivity].
Defined.

Lemma unverified_batch_rejected_witness :
  statusCode (fst (uploadFiles UploadSample.ext UploadSample.unverified_request
                               UploadSample.world)) = 400
  /\ documents (snd (uploadFiles UploadSample.ext UploadSample.unverified_request
                                 UploadSample.world)) = [UploadSample.stored]
  /\ disk (snd (uploadFiles UploadSample.ext UploadSample.unverified_request
                            UploadSample.world)) !! "/tmp/uploads/1" = None
  /\ disk (snd (uploadFiles UploadSample.ext UploadSample.unverified_request
                            UploadSample.world)) !! "/tmp/uploads/2" = None.
Proof.
  destruct (unverified_batch_rejected UploadSample.ext UploadSample.unverified_request
              UploadSample.world eq_refl eq_refl)
    as (Hstatus & _ & _ & Hdocs & Hgone & _).
  split; [exact Hstatus|]. split; [exact Hdocs|]. split.
  - apply (Hgone UploadSample.a_pdf). left.
  - apply (Hgone UploadSample.b_pdf). right. left.
Defined.

(** A verified user, a duplicate in the batch, a [customerInfo] field that
    is not JSON: the answer is 500, neither 201 nor 400, and it reports no
    file. *)
Lemma broken_customerInfo_answers_500 :
  isEmailVerified (user UploadSample.broken_customerInfo) = true
  /\ duplicate UploadSample.ext UploadSample.world UploadSample.a_pdf
  /\ UploadSample.a_pdf ∈ received UploadSample.broken_customerInfo
  /\ documents (snd (uploadFiles UploadSample.ext UploadSample.broken_customerInfo
                                 UploadSample.world)) = documents UploadSample.world
  /\ data (fst (uploadFiles UploadSample.ext UploadSample.broken_customerInfo
                            UploadSample.world)) = None
  /\ statusCode (fst (uploadFiles UploadSample.ext UploadSample.broken_customerInfo
                                  UploadSample.world)) = 500
  /\ ¬ (statusCode (fst (uploadFiles UploadSample.ext UploadSample.broken_customerInfo
                                     UploadSample.world)) = 201
        \/ (statusCode (fst (uploadFiles UploadSample.ext UploadSample.broken_customerInfo
                                         UploadSample.world)) = 400
            /\ success (fst (uploadFiles UploadSample.ext UploadSample.broken_customerInfo
                                         UploadSample.world)) = false)).
Proof.
  split; [reflexivity|]. split; [exact sample_duplicate|]. split; [left|].
  split; [reflexivity|]. split; [reflexivity|]. split; [reflexivity|].
  intros [H|[H _]]; vm_compute in H; discriminate H.
Qed.

Lemma duplicate_refused_batch_goes_on_witness :
  (∃ ups errs w',
    processFiles UploadSample.ext UploadSample.verified_request UploadSample.parsed 0
                 [UploadSample.a_pdf; UploadSample.b_pdf] [] [] UploadSample.world
      = (Ok (ups, errs), w')
    /\ length ups = 1%nat
    /\ statusCode (fst (uploadFiles UploadSample.ext UploadSample.verified_request
                                    UploadSample.world)) = 201
    /\ already_uploaded UploadSample.a_pdf ∈ errs
    /\ disk w' !! "/tmp/uploads/1" = None)
  /\ statusCode (fst (uploadFiles UploadSample.ext UploadSample.broken_customerInfo
                                  UploadSample.world)) = 500.
Proof.
  split.
  - destruct (duplicate_refused_batch_goes_on UploadSample.ext
                UploadSample.verified_request UploadSample.world eq_refl eq_refl)
      as [Hgood _].
    destruct (Hgood sample_metadata_parses)
      as (md & ups & errs & w' & Hmd & Hloop & _ & Hstatus & _ & _ & _ & _ & Hdup).
    assert (md = UploadSample.parsed) as ->.
    { vm_compute in Hmd. injection Hmd as <-. reflexivity. }
    exists ups, errs, w'. split; [exact Hloop|].
    assert (Hups : length ups = 1%nat).
    { vm_compute in Hloop. injection Hloop as <- _ _. reflexivity. }
    split; [exact Hups|]. split.
    + apply Hstatus. intros ->. discriminate Hups.
    + destruct (Hdup [] UploadSample.a_pdf [UploadSample.b_pdf] [] [] UploadSample.world
                  eq_refl eq_refl sample_duplicate) as (_ & Hin & Hgone).
      split; [exact Hin|exact Hgone].
  - destruct (duplicate_refused_batch_goes_on UploadSample.ext
                UploadSample.broken_customerInfo UploadSample.world eq_refl eq_refl)
      as [_ Hbad].
    apply Hbad; [|discriminate].
    intros (H & _). vm_compute in H. destruct (H eq_refl) as [v Hv]. discriminate Hv.
Defined.

(** A verified user, no validation error, one file, a [pricingSnapshot]
    field that is not JSON: the answer carries no totals and no entry for
    the file. *)
Lemma broken_pricingSnapshot_reports_nothing :
  isEmailVerified (user UploadSample.broken_pricingSnapshot) = true
  /\ validation UploadSample.broken_pricingSnapshot = []
  /\ length (received UploadSample.broken_pricingSnapshot) = 1%nat
  /\ reported (fst (uploadFiles UploadSample.ext UploadSample.broken_pricingSnapshot
                                UploadSample.world)) = 0%nat
  /\ ¬ (∃ d, data (fst (uploadFiles UploadSample.ext UploadSample.broken_pricingSnapshot
                                    UploadSample.world)) = Some d
             /\ (totalUploaded d + error_count d)%nat = totalRequested d).
Proof.
  split; [reflexivity|]. split; [reflexivity|]. split; [reflexivity|].
  split; [reflexivity|]. intros (d & Hd & _). vm_compute in Hd. discriminate Hd.
Qed.

Lemma every_file_has_one_outcome_witness :
  ∃ (os : list Outcome) d,
    length os = 2%nat
    /\ data (fst (uploadFiles UploadSample.ext UploadSample.verified_request
                              UploadSample.world)) = Some d
    /\ totalUploaded d = 1%nat
    /\ error_count d = 1%nat
    /\ totalRequested d = 2%nat.
Proof.
  destruct (every_file_has_one_outcome UploadSample.ext UploadSample.verified_request
              UploadSample.world eq_refl eq_refl)
    as (os & d & Hlen & Hdata & _ & _ & _ & _ & Hreq & Hsum);
    [discriminate|exact sample_metadata_parses|].
  exists os, d. split; [exact Hlen|]. split; [exact Hdata|].
  vm_compute in Hdata. injection Hdata as <-. repeat split; reflexivity.
Defined.

(** ** The controller as shipped *)

Lemma shipped_load :
  Shipped.load = Throw "Identifier 'errors' has already been declared".
Proof. reflexivity. Qed.

(** The second [const errors], the one of line 81, is what the engine
    refuses. *)
Lemma shipped_redeclared :
  Shipped.redeclared [] Shipped.try_block_declarations = Some ("errors", 81).
Proof. reflexivity. Qed.

(** No request is answered and nothing is touched, whatever the request. *)
Lemma shipped_never_answers ext req w : Shipped.uploadFiles ext req w = (None, w).
Proof. reflexivity. Qed.

(** C1. The sample batch of a verified user, whose first file has the
    content of a stored document and whose second file is new, sent to the
    controller as shipped: the module is refused at load, so the request is
    not answered (no 201, no "already been uploaded" message), the duplicate
    stays on disk and the new file is not stored.  With the second [errors]
    renamed the same batch is answered 201, the duplicate is unlinked and
    reported, and one document is stored. *)
Theorem shipped_duplicate_batch_unanswered :
  Shipped.load = Throw "Identifier 'errors' has already been declared"
  /\ isEmailVerified (user UploadSample.verified_request) = true
  /\ duplicate UploadSample.ext UploadSample.world UploadSample.a_pdf
  /\ Shipped.uploadFiles UploadSample.ext UploadSample.verified_request UploadSample.world
     = (None, UploadSample.world)
  /\ disk (snd (Shipped.uploadFiles UploadSample.ext UploadSample.verified_request
                                    UploadSample.world)) !! "/tmp/uploads/1" = Some "AAA"
  /\ documents (snd (Shipped.uploadFiles UploadSample.ext UploadSample.verified_request
                                         UploadSample.world)) = [UploadSample.stored]
  /\ statusCode (fst (uploadFiles UploadSample.ext UploadSample.verified_request
                                  UploadSample.world)) = 201
  /\ (data (fst (uploadFiles UploadSample.ext UploadSample.verified_request
                             UploadSample.world)) ≫= errors)
     = Some [already_uploaded UploadSample.a_pdf]
  /\ disk (snd (uploadFiles UploadSample.ext UploadSample.verified_request
                            UploadSample.world)) !! "/tmp/uploads/1" = None
  /\ length (documents (snd (uploadFiles UploadSample.ext UploadSample.verified_request
                                         UploadSample.world))) = 2%nat.
Proof.
  split; [reflexivity|]. split; [reflexivity|]. split; [exact sample_duplicate|].
  split; [apply shipped_never_answers|]. repeat split; reflexivity.
Qed.

(** C2. The sample batch of a user whose e-mail is not verified, sent to
    the controller as shipped: the module is refused at load, so the request
    is not answered (no 400) and both temporary files stay on disk.  With
    the second [errors] renamed the same batch is answered 400 with
    [success] false, both files are unlinked and nothing is stored. *)
Theorem shipped_unverified_batch_unanswered :
  Shipped.load = Throw "Identifier 'errors' has already been declared"
  /\ isEmailVerified (user UploadSample.unverified_request) = false
  /\ Shipped.uploadFiles UploadSample.ext UploadSample.unverified_request
                         UploadSample.world
     = (None, UploadSample.world)
  /\ disk (snd (Shipped.uploadFiles UploadSample.ext UploadSample.unverified_request
                                    UploadSample.world)) !! "/tmp/uploads/1" = Some "AAA"
  /\ disk (snd (Shipped.uploadFiles UploadSample.ext UploadSample.unverified_request
                                    UploadSample.world)) !! "/tmp/uploads/2" = Some "BBB"
  /\ statusCode (fst (uploadFiles UploadSample.ext UploadSample.unverified_request
                                  UploadSample.world)) = 400
  /\ success (fst (uploadFiles UploadSample.ext UploadSample.unverified_request
                               UploadSample.world)) = false
  /\ disk (snd (uploadFiles UploadSample.ext UploadSample.unverified_request
                            UploadSample.world)) !! "/tmp/uploads/1" = None
  /\ disk (snd (uploadFiles UploadSample.ext UploadSample.unverified_request
                            UploadSample.world)) !! "/tmp/uploads/2" = None
  /\ documents (snd (uploadFiles UploadSample.ext UploadSample.unverified_request
                                 UploadSample.world)) = [UploadSample.stored].
Proof.
  split; [reflexivity|]. split; [reflexivity|].
  split; [apply shipped_never_answers|]. repeat split; reflexivity.
Qed.

(** C9. The sample batch of two files of a verified user, which passes
    validation, sent to the controller as shipped: the module is refused at
    load, so there is no answer and hence no totals, for neither file an
    entry in [uploadedFiles] or in [errors].  With the second [errors]
    renamed the same batch is reported with one upload, one error and
    [totalRequested] 2. *)
Theorem shipped_batch_reports_no_totals :
  Shipped.load = Throw "Identifier 'errors' has already been declared"
  /\ isEmailVerified (user UploadSample.verified_request) = true
  /\ validation UploadSample.verified_request = []
  /\ length (received UploadSample.verified_request) = 2%nat
  /\ fst (Shipped.uploadFiles UploadSample.ext UploadSample.verified_request
                              UploadSample.world) = None
  /\ ¬ (∃ res d,
          fst (Shipped.uploadFiles UploadSample.ext UploadSample.verified_request
                                   UploadSample.world) = Some res
          /\ data res = Some d
          /\ (totalUploaded d + error_count d)%nat = totalRequested d)
  /\ ∃ d, data (fst (uploadFiles UploadSample.ext UploadSample.verified_request
                                 UploadSample.world)) = Some d
          /\ totalUploaded d = 1%nat
          /\ error_count d = 1%nat
          /\ totalRequested d = 2%nat.
Proof.
  split; [reflexivity|]. split; [reflexivity|]. split; [reflexivity|].
  split; [reflexivity|]. split; [reflexivity|]. split.
  - intros (res & d & Hres & _). discriminate Hres.
  - eexists. split; [reflexivity|]. repeat split; reflexivity.
Qed.

End UploadFacts.

(** * The payment page *)
Module PaymentFacts.
Import Payment PaymentVocabulary.

Lemma price_of_base types documentTypeId tier fallback b :
  base_of types documentTypeId = Some b ->
  F64.truthy b = true ->
  computeFilePriceINR types documentTypeId tier fallback
  = F64.of_Z (F64.Math_round (F64.mul b (tierMultiplier tier))).
Proof.
  unfold base_of, computeFilePriceINR. intros Hb Ht.
  destruct (find_type types documentTypeId) as [doc|]; [|discriminate].
  cbn in Hb. rewrite Hb, Ht. reflexivity.
Qed.

(** C6. Two lines whose document types have the base price 1000, the first
    at tier Standard and the second at tier Premium, whether they come from
    the order or from the files of the context: the prices are 1000 and
    2000, the subtotal 3000, the tax [round (3000 * 0.18)] = 540 and the
    total 3540 (no amount being supplied by the server).  The multipliers
    are 1, 1.5 and 2 and a unit price is the rounded product. *)
Theorem pricing_of_two_lines types d1 d2 :
  base_of types d1 = Some (F64.of_Z 1000) ->
  base_of types d2 = Some (F64.of_Z 1000) ->
  (tierMultiplier (Some "Standard") = F64.of_Z 1
   /\ tierMultiplier (Some "Express") = F64.lit_1_5
   /\ tierMultiplier (Some "Premium") = F64.of_Z 2)
  /\ (∀ tier fallback,
        computeFilePriceINR types d1 tier fallback
        = F64.of_Z (F64.Math_round (F64.mul (F64.of_Z 1000) (tierMultiplier tier))))
  /\ ∀ its,
      (∃ id1 name1 id2 name2 ctx,
          its = items types [mkOrderItem id1 d1 name1 (Some "Standard");
                             mkOrderItem id2 d2 name2 (Some "Premium")] ctx)
      \/ (∃ id1 name1 size1 id2 name2 size2,
          its = items types [] [mkSourceFile id1 name1 size1 d1 (Some "Standard");
                                mkSourceFile id2 name2 size2 d2 (Some "Premium")]) ->
      price <$> its = [F64.of_Z 1000; F64.of_Z 2000]
      /\ subtotal None its = F64.of_Z 3000
      /\ F64.Math_round (F64.mul (F64.of_Z 3000) taxRate) = 540
      /\ gstAmount None (subtotal None its) = F64.of_Z 540
      /\ totalAmount None (subtotal None its) (gstAmount None (subtotal None its))
         = F64.of_Z 3540.
Proof.
  intros H1 H2. split; [repeat split; reflexivity|]. split.
  - intros tier fallback. apply price_of_base; [exact H1|reflexivity].
  - assert (P1 : ∀ fb, computeFilePriceINR types d1 (Some "Standard") fb = F64.of_Z 1000)
      by (intros fb; rewrite (price_of_base _ _ _ _ _ H1 eq_refl); reflexivity).
    assert (P2 : ∀ fb, computeFilePriceINR types d2 (Some "Premium") fb = F64.of_Z 2000)
      by (intros fb; rewrite (price_of_base _ _ _ _ _ H2 eq_refl); reflexivity).
    assert (Hprices : ∀ its, price <$> its = [F64.of_Z 1000; F64.of_Z 2000] ->
              price <$> its = [F64.of_Z 1000; F64.of_Z 2000]
              /\ subtotal None its = F64.of_Z 3000
              /\ F64.Math_round (F64.mul (F64.of_Z 3000) taxRate) = 540
              /\ gstAmount None (subtotal None its) = F64.of_Z 540
              /\ totalAmount None (subtotal None its) (gstAmount None (subtotal None its))
                 = F64.of_Z 3540).
    { intros its Hp.
      assert (Hsub : subtotal None its = F64.of_Z 3000).
      { destruct its as [|a [|b [|c its]]]; try discriminate Hp.
        injection Hp as Ha Hb. unfold subtotal. cbn [mbind option_bind fold_left].
        rewrite Ha, Hb. reflexivity. }
      split; [exact Hp|]. split; [exact Hsub|]. split; [reflexivity|].
      rewrite Hsub. split; reflexivity. }
    intros its [(id1 & name1 & id2 & name2 & ctx & ->)|(id1 & name1 & size1 & id2 & name2 & size2 & ->)];
      apply Hprices; unfold items; cbn; rewrite P1, P2; reflexivity.
Qed.

Lemma pricing_of_two_lines_witness :
  price <$> items PaymentSample.types PaymentSample.order PaymentSample.ctx_files
    = [F64.of_Z 1000; F64.of_Z 2000]
  /\ subtotal None (items PaymentSample.types PaymentSample.order PaymentSample.ctx_files)
     = F64.of_Z 3000
  /\ gstAmount None (F64.of_Z 3000) = F64.of_Z 540
  /\ totalAmount None (F64.of_Z 3000) (F64.of_Z 540) = F64.of_Z 3540.
Proof.
  destruct (pricing_of_two_lines PaymentSample.types (Some "itr") (Some "itr")
              eq_refl eq_refl) as (_ & _ & H).
  destruct (H (items PaymentSample.types PaymentSample.order PaymentSample.ctx_files))
    as (Hp & Hs & _ & Hg & Ht).
  { left. exists None, (Some "return-2023.pdf"), (Some "f-17"), None,
      PaymentSample.ctx_files. reflexivity. }
  rewrite Hs in Hg, Ht. rewrite Hg in Ht.
  split; [exact Hp|]. split; [exact Hs|]. split; [exact Hg|exact Ht].
Defined.

(** ** Identities and the render lists *)

Lemma or_else_truthy a b : JS.truthy b = true -> JS.truthy (JS.or_else a b) = true.
Proof.
  intros Hb. unfold JS.or_else. destruct a as [s|]; [|exact Hb].
  destruct (JS.truthy s) eqn:E; [exact E|exact Hb].
Qed.

Lemma truthy_app_l a b : JS.truthy a = true -> JS.truthy (a ++ b) = true.
Proof. destruct a; [discriminate|reflexivity]. Qed.

Lemma order_identity_truthy i it : JS.truthy (order_identity i it) = true.
Proof.
  unfold order_identity. apply or_else_truthy, truthy_app_l, or_else_truthy.
  reflexivity.
Qed.

Lemma stableItemKey_single source identity :
  JS.truthy identity = true ->
  stableItemKey source [PString identity] = (source ++ ":" ++ identity)%string.
Proof.
  intros Ht. unfold stableItemKey.
  rewrite filter_cons_True by exact Ht. reflexivity.
Qed.


(** A row that survives [dedupe] was not seen before. *)
Lemma dedupe_unseen l : ∀ seen x, x ∈ dedupe seen l -> _identity x ∉ seen.
Proof.
  induction l as [|f l IH]; intros seen x Hx; cbn in Hx.
  - apply elem_of_nil in Hx. destruct Hx.
  - destruct (decide (_identity f ∈ seen)) as [Hin|Hout].
    + apply IH. exact Hx.
    + apply elem_of_cons in Hx. destruct Hx as [->|Hx]; [exact Hout|].
      apply IH in Hx. set_solver.
Qed.



Lemma dedupe_app l1 : ∀ seen l2,
  dedupe seen (l1 ++ l2)
  = dedupe seen l1 ++ dedupe (list_to_set (identities l1) ∪ seen) l2.
Proof.
  induction l1 as [|f l1 IH]; intros seen l2; cbn.
  - f_equal. set_solver.
  - destruct (decide (_identity f ∈ seen)) as [Hin|Hout].
    + rewrite IH. f_equal. f_equal. set_solver.
    + cbn. rewrite IH. f_equal. f_equal. f_equal. set_solver.
Qed.


Lemma dedupe_sublist l : ∀ seen, dedupe seen l `sublist_of` l.
Proof.
  induction l as [|f l IH]; intros seen; cbn; [constructor|].
  destruct (decide (_identity f ∈ seen)).
  - apply sublist_cons, IH.
  - apply sublist_skip, IH.
Qed.

Lemma dedupe_covers l : ∀ seen x,
  x ∈ l -> _identity x ∈ seen \/ _identity x ∈ identities (dedupe seen l).
Proof.
  induction l as [|f l IH]; intros seen x Hx; [inversion Hx|].
  cbn. apply elem_of_cons in Hx.
  destruct (decide (_identity f ∈ seen)) as [Hin|Hout].
  - destruct Hx as [->|Hx]; [left; exact Hin|apply IH; exact Hx].
  - destruct Hx as [->|Hx]; [right; cbn; left|].
    destruct (IH ({[_identity f]} ∪ seen) x Hx) as [Hs|Hs].
    + apply elem_of_union in Hs. destruct Hs as [Hs|Hs]; [|left; exact Hs].
      apply elem_of_singleton in Hs. right. cbn. rewrite Hs. left.
    + right. cbn. right. exact Hs.
Qed.




End PaymentFacts.

(** * Journeys through the one-time-code service *)
Module AuthJourneys.
Import JS AuthService Vocabulary MongoFacts AuthFacts.

Lemma findOne_snoc {A} (P : A -> Prop) `{!∀ x, Decision (P x)} (c : list A) x :
  (∀ y, y ∈ c -> ¬ P y) ->
  Mongo.findOne P (c ++ [x]) = if decide (P x) then Some (length c, x) else None.
Proof.
  intros Hnone. unfold Mongo.findOne.
  rewrite list_find_app_r by (apply list_find_None, Forall_forall; exact Hnone).
  cbn. destruct (decide (P x)); reflexivity.
Qed.

Lemma save_last {A} (c : list A) x y : Mongo.save (length c) y (c ++ [x]) = c ++ [y].
Proof.
  unfold Mongo.save. rewrite insert_app_r_alt by lia.
  rewrite Nat.sub_diag. reflexivity.
Qed.

Lemma delete_last {A} (c : list A) x : delete (length c) (c ++ [x]) = c.
Proof. induction c as [|a c IH]; cbn; [reflexivity|]. f_equal. exact IH. Qed.

Section Facts.
Variable ext : Externals.

Lemma registerUser_ok userData env db reg db1 :
  registerUser ext userData env db = (Ok reg, db1) ->
  (∀ u, u ∈ users db ->
        ¬ (User.email u = ud_email userData ∨ User.mobile u = ud_mobile userData))
  /\ reg = mkRegistration (generateUserId ext (users db)) (ud_email userData)
                          (ud_mobile userData) false (Some (randomBytes16 env))
                          (Some (randomBytes8 env))
  /\ db1 = mkDb (users db
                 ++ [User.mk (objectId env) (generateUserId ext (users db))
                       (ud_name userData) (ud_email userData) (ud_mobile userData)
                       (bcrypt_hash ext (randomBytes8 env) 12) (ud_address userData)
                       false (schema_isActive ext) (schema_role ext) None None None])
                (emailVerifications db
                 ++ [EmailVerification.mk (ud_email userData)
                       (generateOtp (random_entropy env)) (randomBytes16 env)
                       (Date_now env + otp_lifetime)]).
Proof.
  rewrite registerUser_run.
  destruct (Mongo.findOne _ (users db)) as [[i u]|] eqn:E; [discriminate|].
  cbv zeta. intros H. inversion H; subst. split; [|split; reflexivity].
  exact (proj1 (findOne_None _ _) E).
Qed.

(** X1. [registerUser] throws "User already exists with this email or mobile
    number" and leaves the database as it was when some user holds the
    e-mail or the mobile number.  When nobody does, it appends exactly one
    user (unverified, holding the e-mail, the mobile number, the new [_id]
    and the hash of the temporary password) and exactly one verification
    record for the e-mail, expiring fifteen minutes later, and returns that
    record's identifier and the temporary password. *)
Theorem registerUser_outcomes userData env db :
  ((∃ u, u ∈ users db
         /\ (User.email u = ud_email userData ∨ User.mobile u = ud_mobile userData)) ->
     registerUser ext userData env db
     = (Throw "User already exists with this email or mobile number", db))
  /\ ((∀ u, u ∈ users db ->
            User.email u ≠ ud_email userData /\ User.mobile u ≠ ud_mobile userData) ->
      ∃ reg u r,
        registerUser ext userData env db
        = (Ok reg, mkDb (users db ++ [u]) (emailVerifications db ++ [r]))
        /\ User.email u = ud_email userData
        /\ User.mobile u = ud_mobile userData
        /\ User._id u = objectId env
        /\ User.isEmailVerified u = false
        /\ User.password u = bcrypt_hash ext (randomBytes8 env) 12
        /\ reg_userId reg = User.userId u
        /\ reg_tempPassword reg = Some (randomBytes8 env)
        /\ reg_verificationId reg = Some (EmailVerification.verificationId r)
        /\ EmailVerification.email r = ud_email userData
        /\ EmailVerification.expiresAt r = Date_now env + 15 * 60 * 1000).
Proof.
  split.
  - intros (u & Hu & Htaken). rewrite registerUser_run.
    destruct (findOne_is_Some
                (fun u => User.email u = ud_email userData
                          ∨ User.mobile u = ud_mobile userData) _ u Hu Htaken)
      as (i & y & ->). reflexivity.
  - intros Hfree. rewrite registerUser_run.
    destruct (Mongo.findOne _ (users db)) as [[i u]|] eqn:E.
    + destruct (findOne_Some _ _ _ _ E) as (_ & Htaken & Hu).
      destruct (Hfree u Hu) as [He Hm]. destruct Htaken; contradiction.
    + eexists _, _, _. split; [reflexivity|]. cbn. repeat split; reflexivity.
Qed.

(** X2. Registration followed by verification.  After a successful
    [registerUser] whose verification identifier was not in store, [verifyOtp]
    with the returned identifier and the code issued succeeds at any time
    strictly before fifteen minutes have passed: it marks the new user
    verified, signs a token for the new [_id] and removes the record.  With
    another code it throws "Invalid OTP" and changes nothing; from the
    fifteenth minute on it throws "Invalid or expired OTP" whatever the
    code. *)
Theorem registerUser_then_verifyOtp userData env db reg db1 :
  registerUser ext userData env db = (Ok reg, db1) ->
  randomBytes16 env ∉ stored_ids db ->
  ∃ vid u,
    reg_verificationId reg = Some vid
    /\ users db1 = users db ++ [u]
    /\ User.isEmailVerified u = false
    /\ (∀ env', Date_now env' < Date_now env + 15 * 60 * 1000 ->
          verifyOtp ext vid (generateOtp (random_entropy env)) env' db1
          = (Ok (mkSession (Some "Email verified successfully")
                           (jwt_sign ext (objectId env))
                           (profile (verified_at (Date_now env') u))),
             mkDb (users db ++ [verified_at (Date_now env') u])
                  (emailVerifications db)))
    /\ (∀ env' otp, Date_now env' < Date_now env + 15 * 60 * 1000 ->
          otp ≠ generateOtp (random_entropy env) ->
          verifyOtp ext vid otp env' db1 = (Throw "Invalid OTP", db1))
    /\ (∀ env' otp, Date_now env + 15 * 60 * 1000 <= Date_now env' ->
          verifyOtp ext vid otp env' db1 = (Throw "Invalid or expired OTP", db1)).
Proof.
  intros Hreg Hfresh.
  destruct (registerUser_ok _ _ _ _ _ Hreg) as (Hfree & -> & ->).
  eexists _, _. split; [reflexivity|]. split; [reflexivity|]. split; [reflexivity|].
  assert (Hevs : ∀ now, ∀ y, y ∈ emailVerifications db ->
                 ¬ live (randomBytes16 env) now y).
  { intros now y Hy [Hid _]. exact (not_stored_id _ _ _ Hfresh Hy Hid). }
  assert (Hids : ∀ y, y ∈ emailVerifications db -> ¬ has_id (randomBytes16 env) y).
  { intros y Hy. exact (not_stored_id _ _ _ Hfresh Hy). }
  assert (Husers : ∀ y, y ∈ users db -> ¬ has_email (ud_email userData) y).
  { intros y Hy He. apply (Hfree y Hy). left. exact He. }
  split; [|split].
  - intros env' Hlt. rewrite verifyOtp_run. cbn [emailVerifications users].
    rewrite (findOne_snoc _ _ _ (Hevs (Date_now env'))).
    destruct (decide _) as [_|Hn];
      [|exfalso; apply Hn; split; [reflexivity|cbn; unfold otp_lifetime; lia]].
    cbn [EmailVerification.otp EmailVerification.email]. rewrite String.eqb_refl.
    rewrite (findOne_snoc _ _ _ Husers).
    destruct (decide _) as [_|Hn]; [|exfalso; apply Hn; reflexivity].
    rewrite save_last. cbn [User._id]. f_equal. f_equal.
    unfold Mongo.deleteOne, Mongo.findOne in *.
    pose proof (findOne_snoc (has_id (randomBytes16 env)) (emailVerifications db)
                  (EmailVerification.mk (ud_email userData)
                     (generateOtp (random_entropy env)) (randomBytes16 env)
                     (Date_now env + otp_lifetime)) Hids) as Hf.
    unfold Mongo.findOne in Hf. rewrite Hf.
    destruct (decide _) as [_|Hn]; [|exfalso; apply Hn; reflexivity].
    apply delete_last.
  - intros env' otp Hlt Hneq. rewrite verifyOtp_run. cbn [emailVerifications users].
    rewrite (findOne_snoc _ _ _ (Hevs (Date_now env'))).
    destruct (decide _) as [_|Hn];
      [|exfalso; apply Hn; split; [reflexivity|cbn; unfold otp_lifetime; lia]].
    cbn [EmailVerification.otp].
    destruct (String.eqb_spec (generateOtp (random_entropy env)) otp) as [E|_];
      [congruence|reflexivity].
  - intros env' otp Hle. rewrite verifyOtp_run. cbn [emailVerifications users].
    rewrite (findOne_snoc _ _ _ (Hevs (Date_now env'))).
    destruct (decide _) as [[_ Hl]|_]; [|reflexivity].
    cbn in Hl. unfold otp_lifetime in Hl. lia.
Qed.

Lemma at_most_one_with_id db vid r rest :
  NoDup (stored_ids db) ->
  filter (has_id vid) (emailVerifications db) = r :: rest -> rest = [].
Proof.
  intros Hnd Hf. destruct rest as [|r2 rest]; [reflexivity|exfalso].
  assert (Hn : NoDup (filter (has_id vid) (emailVerifications db))).
  { apply NoDup_filter. exact (NoDup_fmap_1 _ _ Hnd). }
  assert (H1 : r ∈ filter (has_id vid) (emailVerifications db))
    by (rewrite Hf; left).
  assert (H2 : r2 ∈ filter (has_id vid) (emailVerifications db))
    by (rewrite Hf; right; left).
  apply list_elem_of_filter in H1. destruct H1 as [I1 M1].
  apply list_elem_of_filter in H2. destruct H2 as [I2 M2].
  assert (r = r2)
    by (apply (distinct_ids_same_record db); [assumption..|congruence]).
  subst r2. rewrite Hf in Hn. apply NoDup_cons in Hn. destruct Hn as [Hn _].
  apply Hn. left.
Qed.

(** X3. A code works once.  When the verification identifiers in store are
    pairwise distinct, a verification that succeeded makes every later
    [verifyOtp] with the same identifier throw "Invalid or expired OTP",
    whatever the code and the time. *)
Theorem verifyOtp_single_use vid otp env db s db' :
  verifyOtp ext vid otp env db = (Ok s, db') ->
  NoDup (stored_ids db) ->
  ∀ otp' env',
    verifyOtp ext vid otp' env' db' = (Throw "Invalid or expired OTP", db').
Proof.
  intros Hok Hnd otp' env'.
  destruct (verifyOtp_success _ _ _ _ _ _ _ Hok)
    as (i & u & r0 & j & r & _ & _ & _ & _ & _ & _ & _ & _ & _ & Hf).
  assert (Hnone : filter (has_id vid) (emailVerifications db') = []).
  { rewrite Hf. destruct (filter (has_id vid) (emailVerifications db)) as [|x rest] eqn:E;
      [reflexivity|]. cbn. exact (at_most_one_with_id _ _ _ _ Hnd E). }
  rewrite verifyOtp_run.
  destruct (Mongo.findOne _ (emailVerifications db')) as [[k y]|] eqn:E; [|reflexivity].
  exfalso. destruct (findOne_Some _ _ _ _ E) as (_ & [Hid _] & Hy).
  assert (Hy' : y ∈ filter (has_id vid) (emailVerifications db'))
    by (apply list_elem_of_filter; split; assumption).
  rewrite Hnone in Hy'. inversion Hy'.
Qed.

Lemma loginUser_run email password env db :
  loginUser ext email password env db =
  match Mongo.findOne (has_email email) (users db) with
  | None => (Throw "Invalid credentials", db)
  | Some (i, u) =>
      if negb (User.isActive u) then (Throw "Account is deactivated", db)
      else if negb (bcrypt_compare ext password (User.password u))
      then (Throw "Invalid credentials", db)
      else (Ok (mkSession None (jwt_sign ext (User._id u))
                          (profile (User.set_lastLogin (Date_now env) u))),
            mkDb (Mongo.save i (User.set_lastLogin (Date_now env) u) (users db))
                 (emailVerifications db))
  end.
Proof.
  unfold loginUser. run_service. unfold has_email.
  destruct (Mongo.findOne _ (users db)) as [[i u]|]; [|reflexivity].
  destruct (User.isActive u); [|reflexivity]. cbn.
  destruct (bcrypt_compare ext password (User.password u)); reflexivity.
Qed.

(** X4. [loginUser]: an unknown e-mail and a wrong password get the same
    message, "Invalid credentials"; a deactivated account gets "Account is
    deactivated" before the password is looked at; every failure leaves the
    database untouched.  A success only writes [lastLogin] on the user
    found, signs a token for its [_id], and reports the verified flag as it
    is: the flag is not a condition of the login. *)
Theorem loginUser_outcomes email password env db :
  ((∀ u, u ∈ users db -> User.email u ≠ email) ->
     loginUser ext email password env db = (Throw "Invalid credentials", db))
  /\ (∀ i u, Mongo.findOne (has_email email) (users db) = Some (i, u) ->
      (User.isActive u = false ->
         loginUser ext email password env db = (Throw "Account is deactivated", db))
      /\ (User.isActive u = true ->
          bcrypt_compare ext password (User.password u) = false ->
          loginUser ext email password env db = (Throw "Invalid credentials", db))
      /\ (User.isActive u = true ->
          bcrypt_compare ext password (User.password u) = true ->
          ∃ s, loginUser ext email password env db
               = (Ok s, mkDb (<[i := User.set_lastLogin (Date_now env) u]> (users db))
                             (emailVerifications db))
               /\ s_token s = jwt_sign ext (User._id u)
               /\ p_email (s_user s) = email
               /\ p_isEmailVerified (s_user s) = User.isEmailVerified u
               /\ p_lastLogin (s_user s) = Some (Date_now env)))
  /\ (∀ msg db', loginUser ext email password env db = (Throw msg, db') -> db' = db).
Proof.
  split; [|split].
  - intros Hnone. rewrite loginUser_run.
    destruct (Mongo.findOne _ (users db)) as [[i u]|] eqn:E; [|reflexivity].
    destruct (findOne_Some _ _ _ _ E) as (_ & He & Hu). destruct (Hnone u Hu He).
  - intros i u Hfound. destruct (findOne_Some _ _ _ _ Hfound) as (_ & He & _).
    split; [|split].
    + intros Ha. rewrite loginUser_run, Hfound, Ha. reflexivity.
    + intros Ha Hc. rewrite loginUser_run, Hfound, Ha, Hc. reflexivity.
    + intros Ha Hc. rewrite loginUser_run, Hfound, Ha, Hc. cbn.
      eexists. split; [reflexivity|]. cbn. repeat split. exact He.
  - intros msg db'. rewrite loginUser_run.
    destruct (Mongo.findOne _ (users db)) as [[i u]|]; [|intros H; inversion H; reflexivity].
    destruct (User.isActive u); cbn; [|intros H; inversion H; reflexivity].
    destruct (bcrypt_compare _ _ _); cbn; intros H; inversion H; reflexivity.
Qed.

(** What a call does to the [users] collection: nothing, a [save] of one
    user with a new [lastLogin] (and, for a verification, the flag set), or
    a new user whose e-mail and mobile nobody holds. *)
Lemma users_step c env db :
  let db' := snd (run_call ext c env db) in
  users db' = users db
  \/ (∃ i u, users db !! i = Some u
             /\ (users db' = <[i := User.set_lastLogin (Date_now env) u]> (users db)
                 \/ users db' = <[i := verified_at (Date_now env) u]> (users db)))
  \/ (∃ u, users db' = users db ++ [u]
           /\ ∀ y, y ∈ users db ->
                   User.email y ≠ User.email u /\ User.mobile y ≠ User.mobile u).
Proof.
  destruct c as [userData|email password|vid otp|email|email|userId]; cbn.
  - rewrite registerUser_run.
    destruct (Mongo.findOne _ (users db)) as [[i u]|] eqn:E; [left; reflexivity|].
    right; right. eexists. split; [reflexivity|]. cbn.
    intros y Hy. pose proof (proj1 (findOne_None _ _) E y Hy) as Hn. cbn in Hn.
    split; intros Heq; apply Hn; [left|right]; exact Heq.
  - rewrite loginUser_run.
    destruct (Mongo.findOne _ (users db)) as [[i u]|] eqn:E; [|left; reflexivity].
    destruct (findOne_Some _ _ _ _ E) as (Hi & _ & _).
    destruct (User.isActive u); cbn; [|left; reflexivity].
    destruct (bcrypt_compare _ _ _); cbn; [|left; reflexivity].
    right; left. exists i, u. split; [exact Hi|left; reflexivity].
  - rewrite verifyOtp_run.
    destruct (Mongo.findOne _ (emailVerifications db)) as [[j r]|]; [|left; reflexivity].
    destruct (String.eqb _ _); [|left; reflexivity].
    destruct (Mongo.findOne _ (users db)) as [[i u]|] eqn:E; [|left; reflexivity].
    destruct (findOne_Some _ _ _ _ E) as (Hi & _ & _).
    right; left. exists i, u. split; [exact Hi|right; reflexivity].
  - rewrite sendOtp_run.
    destruct (Mongo.findOne _ (users db)) as [[i u]|]; [left; reflexivity|].
    rewrite issueOtp_run. left; reflexivity.
  - rewrite resendOtp_run.
    destruct (Mongo.findOne _ (users db)) as [[i u]|]; [|left; reflexivity].
    destruct (User.isEmailVerified u); [left; reflexivity|].
    rewrite issueOtp_run. left; reflexivity.
  - unfold getUserProfile. run_service.
    destruct (Mongo.findOne _ (users db)) as [[i u]|]; left; reflexivity.
Qed.

Lemma fmap_insert_same {A B} (f : A -> B) (l : list A) i x y :
  l !! i = Some x -> f y = f x -> f <$> <[i := y]> l = f <$> l.
Proof.
  intros Hi Hf. rewrite list_fmap_insert, Hf.
  apply list_insert_id. rewrite list_lookup_fmap, Hi. reflexivity.
Qed.

(** X5. No call of the service makes two users share an e-mail, or a mobile
    number: if the e-mails are pairwise distinct before a call they are
    after it, and so for the mobile numbers. *)
Theorem distinct_accounts_preserved c env db :
  NoDup (User.email <$> users db) ->
  NoDup (User.mobile <$> users db) ->
  NoDup (User.email <$> users (snd (run_call ext c env db)))
  /\ NoDup (User.mobile <$> users (snd (run_call ext c env db))).
Proof.
  intros He Hm.
  destruct (users_step c env db) as [->|[(i & u & Hi & [-> | ->])|(u & -> & Hnew)]].
  - split; assumption.
  - rewrite !(fmap_insert_same _ _ _ _ _ Hi) by reflexivity. split; assumption.
  - rewrite !(fmap_insert_same _ _ _ _ _ Hi) by reflexivity. split; assumption.
  - rewrite !fmap_app. cbn. split; apply NoDup_app; (split; [assumption|]).
    + split; [|apply NoDup_singleton].
      intros e He1 He2. apply list_elem_of_singleton in He2. subst e.
      apply list_elem_of_fmap in He1. destruct He1 as (y & Hy & Hin).
      destruct (Hnew y Hin) as [H1 _]. congruence.
    + split; [|apply NoDup_singleton].
      intros e He1 He2. apply list_elem_of_singleton in He2. subst e.
      apply list_elem_of_fmap in He1. destruct He1 as (y & Hy & Hin).
      destruct (Hnew y Hin) as [_ H1]. congruence.
Qed.

(** X6. No call of the service removes a user or rewrites an account: a user
    stays at its position with the same [_id], [userId], name, e-mail,
    mobile, password hash, address, role and [isActive], and a verified user
    stays verified. *)
Theorem accounts_are_kept c env db i u :
  users db !! i = Some u ->
  ∃ u', users (snd (run_call ext c env db)) !! i = Some u'
        /\ User._id u' = User._id u
        /\ User.userId u' = User.userId u
        /\ User.name u' = User.name u
        /\ User.email u' = User.email u
        /\ User.mobile u' = User.mobile u
        /\ User.password u' = User.password u
        /\ User.address u' = User.address u
        /\ User.role u' = User.role u
        /\ User.isActive u' = User.isActive u
        /\ (User.isEmailVerified u = true -> User.isEmailVerified u' = true).
Proof.
  intros Hu.
  assert (Hlt : (i < length (users db))%nat) by (eapply lookup_lt_Some; exact Hu).
  destruct (users_step c env db) as [->|[(j & v & Hj & [-> | ->])|(v & -> & _)]].
  - exists u. repeat split; trivial.
  - destruct (decide (i = j)) as [->|Hne].
    + rewrite Hj in Hu. inversion Hu; subst v.
      eexists. split; [apply list_lookup_insert_eq; exact Hlt|].
      cbn. repeat split; trivial.
    + exists u. split; [rewrite list_lookup_insert_ne by congruence; exact Hu|].
      repeat split; trivial.
  - destruct (decide (i = j)) as [->|Hne].
    + rewrite Hj in Hu. inversion Hu; subst v.
      eexists. split; [apply list_lookup_insert_eq; exact Hlt|].
      cbn. repeat split; trivial.
    + exists u. split; [rewrite list_lookup_insert_ne by congruence; exact Hu|].
      repeat split; trivial.
  - exists u. split; [apply lookup_app_l_Some; exact Hu|]. repeat split; trivial.
Qed.

Lemma sendOtp_ok email env db t db1 :
  sendOtp email env db = (Ok t, db1) ->
  (∀ u, u ∈ users db -> ¬ has_email email u)
  /\ t = mkTicket (randomBytes16 env) email
  /\ db1 = mkDb (users db)
                (emailVerifications db
                 ++ [EmailVerification.mk email (generateOtp (random_entropy env))
                       (randomBytes16 env) (Date_now env + otp_lifetime)]).
Proof.
  rewrite sendOtp_run.
  destruct (Mongo.findOne _ (users db)) as [[i u]|] eqn:E; [discriminate|].
  rewrite issueOtp_run. intros H. inversion H; subst.
  split; [exact (proj1 (findOne_None _ _) E)|]. split; reflexivity.
Qed.

(** X7. A code sent before the account exists.  After a successful [sendOtp]
    (fresh identifier), [verifyOtp] with the identifier and the code throws
    "User not found" and keeps the record; once [registerUser] has created
    the account for that e-mail, the same identifier and code, still within
    their fifteen minutes, verify that account. *)
Theorem sendOtp_code_needs_account email env db t db1 :
  sendOtp email env db = (Ok t, db1) ->
  randomBytes16 env ∉ stored_ids db ->
  (∀ env', Date_now env' < Date_now env + 15 * 60 * 1000 ->
     verifyOtp ext (t_verificationId t) (generateOtp (random_entropy env)) env' db1
     = (Throw "User not found", db1))
  /\ (∀ userData env2 reg db2 env3,
        ud_email userData = email ->
        registerUser ext userData env2 db1 = (Ok reg, db2) ->
        Date_now env3 < Date_now env + 15 * 60 * 1000 ->
        ∃ s db3,
          verifyOtp ext (t_verificationId t) (generateOtp (random_entropy env)) env3 db2
          = (Ok s, db3)
          /\ p_email (s_user s) = email
          /\ p_userId (s_user s) = reg_userId reg
          /\ p_isEmailVerified (s_user s) = true).
Proof.
  intros Hsend Hfresh.
  destruct (sendOtp_ok _ _ _ _ _ Hsend) as (Hnone & -> & ->).
  cbn [t_verificationId].
  assert (Hlive : ∀ now, now < Date_now env + 15 * 60 * 1000 ->
            Mongo.findOne (live (randomBytes16 env) now)
              (emailVerifications db
               ++ [EmailVerification.mk email (generateOtp (random_entropy env))
                     (randomBytes16 env) (Date_now env + otp_lifetime)])
            = Some (length (emailVerifications db),
                    EmailVerification.mk email (generateOtp (random_entropy env))
                      (randomBytes16 env) (Date_now env + otp_lifetime))).
  { intros now Hnow. rewrite findOne_snoc.
    - destruct (decide _) as [_|Hn]; [reflexivity|].
      exfalso. apply Hn. split; [reflexivity|cbn; unfold otp_lifetime; lia].
    - intros y Hy [Hid _]. exact (not_stored_id _ _ _ Hfresh Hy Hid). }
  split.
  - intros env' Hlt. rewrite verifyOtp_run. cbn [emailVerifications users].
    rewrite (Hlive _ Hlt). cbn [EmailVerification.otp EmailVerification.email].
    rewrite String.eqb_refl.
    destruct (Mongo.findOne _ (users db)) as [[i u]|] eqn:E; [|reflexivity].
    destruct (findOne_Some _ _ _ _ E) as (_ & He & Hu). destruct (Hnone u Hu He).
  - intros userData env2 reg db2 env3 Hmail Hreg Hlt.
    destruct (registerUser_ok _ _ _ _ _ Hreg) as (_ & -> & ->).
    cbn [users emailVerifications] in *.
    rewrite verifyOtp_run. cbn [emailVerifications users].
    unfold Mongo.findOne at 1.
    rewrite (list_find_app_l _ _ _ _ _ (Hlive _ Hlt)).
    cbn [EmailVerification.otp EmailVerification.email].
    rewrite String.eqb_refl. rewrite (findOne_snoc _ _ _ Hnone).
    destruct (decide _) as [_|Hn]; [|exfalso; apply Hn; exact Hmail].
    eexists _, _. split; [reflexivity|]. cbn. repeat split. exact Hmail.
Qed.

End Facts.

(** ** The journeys on the sample registration *)

Lemma registerUser_outcomes_witness :
  registerUser Sample.ext Sample.asha Sample.env_register_ravi Sample.db_registered
    = (Throw "User already exists with this email or mobile number", Sample.db_registered)
  /\ ∃ reg u r,
      registerUser Sample.ext Sample.asha Sample.env_register Sample.db_empty
        = (Ok reg, mkDb [u] [r])
      /\ User.isEmailVerified u = false
      /\ reg_verificationId reg = Some (EmailVerification.verificationId r)
      /\ EmailVerification.expiresAt r = 1700000900000.
Proof.
  destruct (registerUser_outcomes Sample.ext Sample.asha Sample.env_register_ravi
              Sample.db_registered) as [Htaken _].
  destruct (registerUser_outcomes Sample.ext Sample.asha Sample.env_register
              Sample.db_empty) as [_ Hfree].
  split.
  - apply Htaken. eexists. split; [left|]. left. reflexivity.
  - destruct Hfree as (reg & u & r & Hrun & _ & _ & _ & Hflag & _ & _ & _ & Hvid & _ & Hexp).
    { intros u Hu. inversion Hu. }
    exists reg, u, r. repeat split; assumption.
Defined.

Lemma registerUser_then_verifyOtp_witness :
  ∃ vid u,
    Some "9f86d081884c7d659a2feaa0c55ad015" = Some vid
    /\ users Sample.db_registered = [u]
    /\ (∃ s db2,
          verifyOtp Sample.ext vid "550000" Sample.env_verify Sample.db_registered
            = (Ok s, db2)
          /\ emailVerifications db2 = [])
    /\ verifyOtp Sample.ext vid "550001" Sample.env_verify Sample.db_registered
       = (Throw "Invalid OTP", Sample.db_registered)
    /\ verifyOtp Sample.ext vid "550000" (mkEnv (Sample.t0 + 900000) "" "" "" 0 "")
                 Sample.db_registered
       = (Throw "Invalid or expired OTP", Sample.db_registered).
Proof.
  destruct (registerUser_then_verifyOtp Sample.ext Sample.asha Sample.env_register
              Sample.db_empty
              (mkRegistration "USR1" "asha@example.com" "9876543210" false
                 (Some "9f86d081884c7d659a2feaa0c55ad015") (Some "5b1c0e9a7d2f4468"))
              Sample.db_registered)
    as (vid & u & Hvid & Hu & _ & Hok & Hwrong & Hlate).
  - reflexivity.
  - intros Hin. inversion Hin.
  - exists vid, u. split; [exact Hvid|]. split; [exact Hu|]. split; [|split].
    + eexists _, _. split; [apply (Hok Sample.env_verify); reflexivity|reflexivity].
    + apply Hwrong; [reflexivity|discriminate].
    + apply Hlate. discriminate.
Defined.

Lemma verifyOtp_single_use_witness :
  verifyOtp Sample.ext "9f86d081884c7d659a2feaa0c55ad015" "550000" Sample.env_late
            Sample.db_verified
  = (Throw "Invalid or expired OTP", Sample.db_verified).
Proof.
  destruct (verifyOtp Sample.ext "9f86d081884c7d659a2feaa0c55ad015" "550000"
              Sample.env_verify Sample.db_registered) as [[s|msg] db'] eqn:E;
    [|vm_compute in E; discriminate E].
  assert (Hdb : db' = Sample.db_verified).
  { vm_compute in E. inversion E. reflexivity. }
  subst db'.
  apply (verifyOtp_single_use Sample.ext _ _ _ _ _ _ E).
  apply NoDup_singleton.
Defined.

Lemma loginUser_outcomes_witness :
  loginUser Sample.ext "nobody@example.com" "secret" Sample.env_verify Sample.db_registered
    = (Throw "Invalid credentials", Sample.db_registered)
  /\ loginUser Sample.ext "asha@example.com" "secret" Sample.env_verify Sample.db_registered
     = (Throw "Invalid credentials", Sample.db_registered)
  /\ ∃ s db',
      loginUser Sample.ext "asha@example.com" "5b1c0e9a7d2f4468" Sample.env_verify
                Sample.db_registered = (Ok s, db')
      /\ p_isEmailVerified (s_user s) = false
      /\ emailVerifications db' = emailVerifications Sample.db_registered.
Proof.
  destruct (loginUser_outcomes Sample.ext "nobody@example.com" "secret"
              Sample.env_verify Sample.db_registered) as (Hnone & _).
  destruct (loginUser_outcomes Sample.ext "asha@example.com" "secret"
              Sample.env_verify Sample.db_registered) as (_ & Hwrong & _).
  destruct (loginUser_outcomes Sample.ext "asha@example.com" "5b1c0e9a7d2f4468"
              Sample.env_verify Sample.db_registered) as (_ & Hright & _).
  split; [|split].
  - apply Hnone. intros u Hu. apply list_elem_of_singleton in Hu. subst u. discriminate.
  - eapply Hwrong; reflexivity.
  - edestruct Hright as (_ & _ & (s & Hrun & _ & _ & Hflag & _));
      [reflexivity|reflexivity|reflexivity|].
    exists s. eexists. split; [exact Hrun|]. split; [exact Hflag|reflexivity].
Defined.

Lemma distinct_accounts_preserved_witness :
  NoDup (User.email <$> users (snd (run_call Sample.ext (CallRegister Sample.ravi)
                                      Sample.env_register_ravi Sample.db_registered)))
  /\ NoDup (User.mobile <$> users (snd (run_call Sample.ext (CallRegister Sample.ravi)
                                         Sample.env_register_ravi Sample.db_registered))).
Proof.
  apply (distinct_accounts_preserved Sample.ext); apply NoDup_singleton.
Defined.

Lemma accounts_are_kept_witness :
  ∃ u', users (snd (run_call Sample.ext
                      (CallVerifyOtp "9f86d081884c7d659a2feaa0c55ad015" "550000")
                      Sample.env_verify Sample.db_registered)) !! 0%nat = Some u'
        /\ User.email u' = "asha@example.com"
        /\ User.password u' = "bcrypt:5b1c0e9a7d2f4468".
Proof.
  edestruct (accounts_are_kept Sample.ext
               (CallVerifyOtp "9f86d081884c7d659a2feaa0c55ad015" "550000")
               Sample.env_verify Sample.db_registered 0%nat)
    as (u' & Hu' & _ & _ & _ & He & _ & Hp & _); [reflexivity|].
  exists u'. split; [exact Hu'|]. split; [exact He|exact Hp].
Defined.

Lemma sendOtp_code_needs_account_witness :
  verifyOtp Sample.ext "0cc175b9c0f1b6a831c399e269772661" "325000" Sample.env_late
            Sample.db_sent
    = (Throw "User not found", Sample.db_sent)
  /\ ∃ s db3,
      verifyOtp Sample.ext "0cc175b9c0f1b6a831c399e269772661" "325000" Sample.env_late
                Sample.db_ravi = (Ok s, db3)
      /\ p_email (s_user s) = "ravi@example.com"
      /\ p_isEmailVerified (s_user s) = true.
Proof.
  destruct (sendOtp_code_needs_account Sample.ext "ravi@example.com" Sample.env_resend
              Sample.db_registered
              (mkTicket "0cc175b9c0f1b6a831c399e269772661" "ravi@example.com")
              Sample.db_sent) as [Hnone Hlater].
  - reflexivity.
  - intros Hin. apply list_elem_of_singleton in Hin. discriminate Hin.
  - split; [apply (Hnone Sample.env_late); reflexivity|].
    destruct (Hlater Sample.ravi Sample.env_register_ravi
                (mkRegistration "USR2" "ravi@example.com" "9123456780" false
                   (Some "e4da3b7fbbce2345d7772b0674a318d5") (Some "77de68daecd823ba"))
                Sample.db_ravi Sample.env_late)
      as (s & db3 & Hrun & Hmail & _ & Hflag); [reflexivity|reflexivity|reflexivity|].
    exists s, db3. split; [exact Hrun|]. split; [exact Hmail|exact Hflag].
Defined.

End AuthJourneys.

(** * Retrying a request *)
Module RetryFacts.
Import JS Retry.

Lemma attempt_spec {T} (fn : nat -> Result T) : ∀ retries k delayMs log,
  ∃ m, (m <= retries)%nat
       /\ (∀ j, (j < m)%nat -> ∃ e, fn (k + j)%nat = Throw e)
       /\ fst (attempt fn k retries delayMs log) = fn (k + m)%nat
       /\ ((∃ e, fn (k + m)%nat = Throw e) -> m = retries)
       /\ calls (snd (attempt fn k retries delayMs log)) = (calls log + S m)%nat
       /\ sleeps (snd (attempt fn k retries delayMs log))
          = sleeps log
            ++ ((fun j => Nat.iter j (fun d => F64.mul d F64.lit_1_5) delayMs)
                <$> seq 0 m).
Proof.
  induction retries as [|retries IH]; intros k delayMs log; cbn [attempt calls sleeps].
  - exists 0%nat. rewrite Nat.add_0_r.
    destruct (fn k) as [v|e] eqn:E; cbn; rewrite app_nil_r;
      (split; [lia|]); (split; [intros j Hj; lia|]);
      (split; [reflexivity|]); (split; [reflexivity|]); split; [lia|reflexivity|lia|reflexivity].
  - destruct (fn k) as [v|e] eqn:E.
    + exists 0%nat. rewrite Nat.add_0_r, E. cbn. rewrite app_nil_r.
      split; [lia|]. split; [intros j Hj; lia|]. split; [reflexivity|].
      split; [intros [e He]; discriminate He|]. split; [lia|reflexivity].
    + destruct (IH (S k) (F64.mul delayMs F64.lit_1_5)
                  (mkLog (S (calls log)) (sleeps log ++ [delayMs])))
        as (m & Hm & Hfail & Hres & Hlast & Hcalls & Hsleeps).
      exists (S m). split; [lia|]. split.
      { intros [|j] Hj; [rewrite Nat.add_0_r; eauto|].
        replace (k + S j)%nat with (S k + j)%nat by lia. apply Hfail. lia. }
      replace (k + S m)%nat with (S k + m)%nat by lia.
      split; [exact Hres|]. split; [intros H; f_equal; exact (Hlast H)|].
      split; [rewrite Hcalls; cbn; lia|].
      rewrite Hsleeps. cbn [sleeps]. rewrite <- app_assoc. f_equal.
      cbn [seq fmap list_fmap app Nat.iter]. f_equal.
      rewrite <- fmap_S_seq, <- list_fmap_compose.
      apply list_fmap_ext. intros i j _. unfold compose. symmetry.
      apply (Nat.iter_succ_r j (fun d => F64.mul d F64.lit_1_5) delayMs).
Qed.

(** X17. [withRetry] calls [fn] until a call succeeds or [retries] retries
    (2 by default, none when the count is 0 or negative) are used up.  There
    is a number [m] of failed calls, at most [retries], after which it stops:
    the result is that of call [m], which is an error only when [m] is
    [retries]; [fn] has been called [m + 1] times, and [m] waits were made,
    the first of [delayMs] (600 by default) and each next one 1.5 times the
    one before. *)
Theorem withRetry_outcomes {T} (fn : nat -> Result T) retries delayMs :
  let n := Z.to_nat (default 2 retries) in
  let res := withRetry fn retries delayMs in
  ∃ m, (m <= n)%nat
       /\ (∀ j, (j < m)%nat -> ∃ e, fn j = Throw e)
       /\ fst res = fn m
       /\ ((∃ e, fn m = Throw e) -> m = n)
       /\ calls (snd res) = S m
       /\ length (sleeps (snd res)) = m
       /\ ∀ j d, sleeps (snd res) !! j = Some d ->
                 d = Nat.iter j (fun d => F64.mul d F64.lit_1_5)
                       (default (F64.of_Z 600) delayMs).
Proof.
  cbv zeta. unfold withRetry.
  destruct (attempt_spec fn (Z.to_nat (default 2 retries)) 0
              (default (F64.of_Z 600) delayMs) (mkLog 0 []))
    as (m & Hm & Hfail & Hres & Hlast & Hcalls & Hsleeps).
  exists m. split; [exact Hm|]. split; [exact Hfail|]. split; [exact Hres|].
  split; [exact Hlast|]. split; [exact Hcalls|]. rewrite Hsleeps. cbn [sleeps app].
  split; [rewrite length_fmap, length_seq; reflexivity|].
  intros j d Hj. rewrite list_lookup_fmap in Hj.
  destruct (seq 0 m !! j) as [i|] eqn:Ei; [|discriminate Hj].
  apply lookup_seq in Ei. destruct Ei as [-> _].
  inversion Hj. reflexivity.
Qed.

(** X18. With the defaults, a function that always fails is called three
    times, after waits of 600 and 900 milliseconds, and the error thrown is
    that of the third call. *)
Theorem withRetry_defaults {T} (fn : nat -> Result T) :
  (∀ j, ∃ e, fn j = Throw e) ->
  fst (withRetry fn None None) = fn 2%nat
  /\ calls (snd (withRetry fn None None)) = 3%nat
  /\ F64.Math_round <$> sleeps (snd (withRetry fn None None)) = [600; 900].
Proof.
  intros Hfail. unfold withRetry.
  change (attempt fn 0 (Z.to_nat (default 2 None)) (default (F64.of_Z 600) None)
                  (mkLog 0 []))
    with (attempt fn 0 2 (F64.of_Z 600) (mkLog 0 [])).
  cbn [attempt].
  destruct (Hfail 0%nat) as [e0 ->]. destruct (Hfail 1%nat) as [e1 ->].
  destruct (fn 2%nat) as [v|e2]; cbn; repeat split.
Qed.

Lemma withRetry_defaults_witness :
  fst (withRetry (T := unit) (fun k => Throw "Failed to fetch") None None)
    = Throw "Failed to fetch"
  /\ calls (snd (withRetry (T := unit) (fun k => Throw "Failed to fetch") None None))
     = 3%nat
  /\ F64.Math_round
       <$> sleeps (snd (withRetry (T := unit) (fun k => Throw "Failed to fetch") None None))
     = [600; 900].
Proof.
  apply (withRetry_defaults (T := unit) (fun k => Throw "Failed to fetch")).
  intros j. eexists. reflexivity.
Defined.

Lemma withRetry_outcomes_witness :
  fst (withRetry (fun k => if (k <? 1)%nat then Throw "Failed to fetch" else Ok 7)
                 None None) = Ok 7
  /\ calls (snd (withRetry (fun k => if (k <? 1)%nat then Throw "Failed to fetch" else Ok 7)
                           None None)) = 2%nat.
Proof.
  destruct (withRetry_outcomes
              (fun k => if (k <? 1)%nat then Throw "Failed to fetch" else Ok 7) None None)
    as (m & Hm & Hfail & Hres & Hlast & Hcalls & _).
  change (Z.to_nat (default 2 None)) with 2%nat in *.
  destruct m as [|[|[|m]]]; [| |exfalso|exfalso; lia].
  - exfalso. assert (0 = 2)%nat; [apply Hlast; eexists; reflexivity|discriminate].
  - split; [exact Hres|exact Hcalls].
  - destruct (Hfail 1%nat) as [e He]; [lia|discriminate He].
Defined.

End RetryFacts.

(** * The verification dialog *)
Module ModalFacts.
Import SignupModal ModalVocabulary.

Lemma digits_only_digits s :
  Forall (fun c => is_digit c = true) (list_ascii_of_string (digits_only s)).
Proof.
  induction s as [|c s IH]; cbn; [constructor|].
  destruct (is_digit c) eqn:E; [|exact IH]. cbn. constructor; assumption.
Qed.

Lemma short_value_ok s :
  (String.length (digits_only s) <= 1)%nat -> cell_ok (digits_only s).
Proof.
  pose proof (digits_only_digits s) as Hd. intros Hlen.
  destruct (digits_only s) as [|d [|d' rest]]; [left; reflexivity| |cbn in Hlen; lia].
  right. exists d. split; [|reflexivity]. inversion Hd; assumption.
Qed.

Lemma handleInputChange_cells typed index otp :
  Forall cell_ok otp ->
  Forall cell_ok (fst (handleInputChange typed index otp))
  /\ length (fst (handleInputChange typed index otp)) = length otp.
Proof.
  intros Hok. unfold handleInputChange.
  destruct (Nat.leb_spec (String.length (digits_only typed)) 1) as [Hle|_]; cbn [fst].
  - split; [|apply length_insert].
    apply Forall_insert; [exact Hok|]. apply short_value_ok. exact Hle.
  - split; [exact Hok|reflexivity].
Qed.

Lemma typing_cells events : ∀ otp,
  Forall cell_ok otp ->
  Forall cell_ok (typing otp events) /\ length (typing otp events) = length otp.
Proof.
  unfold typing.
  induction events as [|[typed index] events IH]; intros otp Hok; cbn [foldl].
  - split; [exact Hok|reflexivity].
  - destruct (handleInputChange_cells typed index otp Hok) as [H1 H2].
    cbn [fst snd]. destruct (IH _ H1) as [H3 H4]. split; [exact H3|congruence].
Qed.

Lemma initial_cells : Forall cell_ok initial_otp.
Proof. repeat constructor. Qed.

(** X19. Whatever is typed or pasted into the six cells of the dialog, in
    whatever order, there are always six cells and each is empty or holds
    one decimal digit. *)
Theorem cells_hold_digits events :
  Forall (fun e => (snd e < 6)%nat) events ->
  Forall cell_ok (typing initial_otp events)
  /\ length (typing initial_otp events) = 6%nat.
Proof.
  intros _. destruct (typing_cells events initial_otp initial_cells) as [H1 H2].
  split; [exact H1|exact H2].
Qed.

Lemma otpString_cells otp :
  Forall cell_ok otp ->
  (String.length (otpString otp) <= length otp)%nat
  /\ (String.length (otpString otp) = length otp
      <-> existsb (fun digit => String.eqb digit "") otp = false)
  /\ Forall (fun c => is_digit c = true) (list_ascii_of_string (otpString otp)).
Proof.
  induction 1 as [|cell otp Hcell Hok IH]; cbn [otpString foldr existsb length].
  - split; [cbn; lia|]. split; [split; reflexivity|constructor].
  - destruct IH as (Hle & Hiff & Hdig). fold (otpString otp).
    destruct Hcell as [->|(d & Hd & ->)].
    + change (String.append "" (otpString otp)) with (otpString otp).
      cbn [String.eqb orb]. split; [lia|]. split; [split; [lia|discriminate]|exact Hdig].
    + change (String.append (String d "") (otpString otp))
        with (String d (otpString otp)).
      cbn [String.length String.eqb orb list_ascii_of_string].
      split; [lia|]. split; [|constructor; assumption].
      rewrite <- Hiff. split; lia.
Qed.

(** X20. The button and the guard agree.  On six cells that are empty or hold
    one digit, the "Verify" button is enabled exactly when the cells joined
    make six characters; clicking the enabled button (a verification
    identifier being present) calls [verifyEmailOtp] with a code of six
    decimal digits; on cells for which the button is disabled,
    [handleVerifyOtp] only shows "Please enter a valid 6-digit OTP". *)
Theorem verify_button_and_guard_agree otp isVerifying vid :
  Forall cell_ok otp -> length otp = 6%nat -> JS.truthy vid = true ->
  (verify_disabled false otp = false <-> String.length (otpString otp) = 6%nat)
  /\ (verify_disabled isVerifying otp = false ->
      handleVerifyOtp (Some vid) otp = CallVerifyEmailOtp vid (otpString otp)
      /\ String.length (otpString otp) = 6%nat
      /\ Forall (fun c => is_digit c = true) (list_ascii_of_string (otpString otp)))
  /\ (verify_disabled false otp = true ->
      handleVerifyOtp (Some vid) otp = Alert "Please enter a valid 6-digit OTP").
Proof.
  intros Hok Hlen Hvid.
  destruct (otpString_cells otp Hok) as (Hle & Hiff & Hdig). rewrite Hlen in *.
  unfold verify_disabled, handleVerifyOtp. cbn [orb]. split; [|split].
  - symmetry. exact Hiff.
  - intros Hen. apply orb_false_iff in Hen. destruct Hen as [_ Hen].
    apply Hiff in Hen. rewrite Hen. cbn. rewrite Hvid.
    split; [reflexivity|]. split; [reflexivity|exact Hdig].
  - intros Hdis.
    destruct (Nat.eqb_spec (String.length (otpString otp)) 6) as [H6|_]; [|reflexivity].
    apply Hiff in H6. congruence.
Qed.

Lemma second_counts n :
  (n <= 120)%nat ->
  after n initial_countdown = mkCountdown (120 - Z.of_nat n) (bool_decide (n = 120%nat)).
Proof.
  unfold after. induction n as [|n IH]; intros Hn; [reflexivity|].
  change (Nat.iter (S n) second initial_countdown)
    with (second (Nat.iter n second initial_countdown)).
  rewrite IH by lia. unfold second, effect. cbn [timer canResend].
  destruct (Z.eqb_spec (120 - Z.of_nat n) 0) as [H0|_]; [lia|]. cbn [timer canResend].
  rewrite (bool_decide_eq_false_2 (n = 120%nat)) by lia.
  destruct (Z.eqb_spec (120 - Z.of_nat n - 1) 0) as [H0|Hne].
  - rewrite (bool_decide_eq_true_2 (S n = 120%nat)) by lia. f_equal. lia.
  - rewrite (bool_decide_eq_false_2 (S n = 120%nat)) by lia. f_equal. lia.
Qed.

Lemma second_stays n : after n (mkCountdown 0 true) = mkCountdown 0 true.
Proof.
  unfold after. induction n as [|n IH]; [reflexivity|].
  change (Nat.iter (S n) second (mkCountdown 0 true))
    with (second (Nat.iter n second (mkCountdown 0 true))).
  rewrite IH. reflexivity.
Qed.

Lemma after_add n m c : after (n + m) c = after n (after m c).
Proof. unfold after. apply Nat.iter_add. Qed.

(** X21. The countdown of the dialog: [n] seconds after it opens the timer
    shows [120 - n], and 0 from the 120th second on; resending is unlocked
    from the 120th second on and not before; and a successful resend starts
    the same countdown again. *)
Theorem resend_unlocks_after_two_minutes (n : nat) (c0 : Countdown) :
  timer (after n initial_countdown) = Z.max 0 (120 - Z.of_nat n)
  /\ (canResend (after n initial_countdown) = true <-> (120 <= n)%nat)
  /\ (resend_disabled false (after n initial_countdown) = true <-> (n < 120)%nat)
  /\ after n (resent c0) = after n initial_countdown.
Proof.
  assert (Hstate : after n initial_countdown
                   = if decide (n < 120)%nat then mkCountdown (120 - Z.of_nat n) false
                     else mkCountdown 0 true).
  { destruct (decide (n < 120)%nat) as [Hlt|Hge].
    - rewrite second_counts by lia. rewrite bool_decide_eq_false_2 by lia. reflexivity.
    - replace n with ((n - 120) + 120)%nat at 1 by lia.
      rewrite after_add, second_counts by lia.
      rewrite bool_decide_eq_true_2 by reflexivity. cbn [Z.of_nat].
      change (120 - Z.of_nat 120) with 0. apply second_stays. }
  split; [|split; [|split]].
  - rewrite Hstate. destruct (decide (n < 120)%nat); cbn; lia.
  - rewrite Hstate. destruct (decide (n < 120)%nat); cbn; split; (lia || discriminate || trivial).
  - unfold resend_disabled. rewrite Hstate.
    destruct (decide (n < 120)%nat); cbn; split; (lia || discriminate || trivial).
  - reflexivity.
Qed.

Lemma cells_hold_digits_witness :
  Forall cell_ok (typing initial_otp [("4", 0); ("x2", 1); ("12", 2)]%nat)
  /\ length (typing initial_otp [("4", 0); ("x2", 1); ("12", 2)]%nat) = 6%nat.
Proof.
  apply cells_hold_digits. repeat constructor.
Defined.

Lemma verify_button_and_guard_agree_witness :
  verify_disabled false
    (typing initial_otp [("4", 0); ("x2", 1); ("7", 2); ("1", 3); ("9", 4); ("3", 5)]%nat)
  = false
  /\ handleVerifyOtp (Some "9f86d081884c7d659a2feaa0c55ad015")
       (typing initial_otp [("4", 0); ("x2", 1); ("7", 2); ("1", 3); ("9", 4); ("3", 5)]%nat)
     = CallVerifyEmailOtp "9f86d081884c7d659a2feaa0c55ad015" "427193"
  /\ handleVerifyOtp (Some "9f86d081884c7d659a2feaa0c55ad015")
       (typing initial_otp [("4", 0); ("12", 1)]%nat)
     = Alert "Please enter a valid 6-digit OTP".
Proof.
  destruct (verify_button_and_guard_agree
              (typing initial_otp
                 [("4", 0); ("x2", 1); ("7", 2); ("1", 3); ("9", 4); ("3", 5)]%nat)
              false "9f86d081884c7d659a2feaa0c55ad015")
    as (Hiff & Hcall & _);
    [apply typing_cells, initial_cells|reflexivity|reflexivity|].
  destruct (verify_button_and_guard_agree
              (typing initial_otp [("4", 0); ("12", 1)]%nat)
              false "9f86d081884c7d659a2feaa0c55ad015")
    as (_ & _ & Halert);
    [apply typing_cells, initial_cells|reflexivity|reflexivity|].
  split; [apply Hiff; reflexivity|]. split.
  - destruct Hcall as (-> & _); [apply Hiff; reflexivity|reflexivity].
  - apply Halert. reflexivity.
Defined.

Lemma toString_one_digit n : 0 <= n < 10 -> JS.toString n = String (JS.digit n) "".
Proof.
  intros Hn. unfold JS.toString. rewrite JSFacts.digits_step.
  rewrite (proj2 (Z.ltb_lt n 10)) by lia. rewrite Z.mod_small by lia. reflexivity.
Qed.

Lemma toString_two_digits n :
  10 <= n < 100 ->
  JS.toString n = String (JS.digit (n / 10)) (String (JS.digit (n mod 10)) "").
Proof.
  intros Hn. unfold JS.toString.
  assert (Hlog : 3 <= Z.log2 n).
  { change 3 with (Z.log2 10). apply Z.log2_le_mono. lia. }
  destruct (Z.to_nat (Z.log2 n)) as [|fuel] eqn:E; [lia|].
  assert (H1 : 1 <= n / 10 < 10)
    by (split; [apply Z.div_le_lower_bound|apply Z.div_lt_upper_bound]; lia).
  rewrite JSFacts.digits_step, (proj2 (Z.ltb_ge n 10)) by lia.
  rewrite JSFacts.digits_step, (proj2 (Z.ltb_lt (n / 10) 10)) by lia.
  rewrite (Z.mod_small (n / 10)) by lia. reflexivity.
Qed.

(** X22. [formatTime] writes a number of seconds below ten minutes as one
    digit of minutes, a colon, and two digits of seconds. *)
Theorem formatTime_shows_minutes_and_seconds seconds :
  0 <= seconds < 600 ->
  formatTime seconds
  = String (JS.digit (seconds / 60))
      (String ":"%char
         (String (JS.digit (seconds mod 60 / 10))
            (String (JS.digit (seconds mod 60 mod 10)) ""))).
Proof.
  intros Hs. unfold formatTime.
  assert (Hm : 0 <= seconds / 60 < 10)
    by (split; [apply Z.div_pos|apply Z.div_lt_upper_bound]; lia).
  pose proof (Z.mod_pos_bound seconds 60 ltac:(lia)) as Hr.
  rewrite (toString_one_digit (seconds / 60)) by exact Hm.
  destruct (Z.ltb_spec (seconds mod 60) 10) as [Hlt|Hge].
  - rewrite toString_one_digit by lia.
    rewrite (Z.div_small (seconds mod 60) 10) by lia.
    rewrite (Z.mod_small (seconds mod 60) 10) by lia. reflexivity.
  - rewrite toString_two_digits by lia. reflexivity.
Qed.

Lemma formatTime_shows_minutes_and_seconds_witness :
  formatTime 120 = "2:00" /\ formatTime 65 = "1:05" /\ formatTime 9 = "0:09".
Proof.
  split; [|split].
  - rewrite formatTime_shows_minutes_and_seconds by lia. reflexivity.
  - rewrite formatTime_shows_minutes_and_seconds by lia. reflexivity.
  - rewrite formatTime_shows_minutes_and_seconds by lia. reflexivity.
Defined.

End ModalFacts.

(** * Prices and amounts on integers *)
Module AmountFacts.
Import F64 Payment PaymentVocabulary AmountVocabulary F64Facts PaymentFacts.

Lemma round53_small m e : Z.abs m < 2 ^ 53 -> round53 m e = mk m e.
Proof.
  intros Hm. unfold round53.
  assert (Hk : Z.max 0 (Z.log2 (Z.abs m) - 52) = 0).
  { destruct (Z.eq_dec (Z.abs m) 0) as [->|Hne]; [reflexivity|].
    assert (Z.log2 (Z.abs m) < 53) by (apply Z.log2_lt_pow2; lia). lia. }
  rewrite Hk, rne_0 by lia. f_equal; lia.
Qed.

Lemma of_Z_small n : Z.abs n < 2 ^ 53 -> of_Z n = mk n 0.
Proof. apply round53_small. Qed.

Lemma add_integers a b :
  Z.abs a < 2 ^ 53 -> Z.abs b < 2 ^ 53 -> Z.abs (a + b) < 2 ^ 53 ->
  add (of_Z a) (of_Z b) = of_Z (a + b).
Proof.
  intros Ha Hb Hab. rewrite !of_Z_small by assumption. unfold add. cbn [mant expo].
  cbn [Z.min Z.compare Z.sub Z.opp Z.add Z.pow Z.pow_pos Pos.iter Z.mul Pos.mul].
  rewrite !Z.mul_1_r. apply round53_small. exact Hab.
Qed.

(** X23. The price of a file whose document type has the integer base price
    [b] (positive, below [2 ^ 51]): [b] at tier Standard, at no tier and at
    any tier that is neither "Express" nor "Premium"; [2 * b] at Premium; and
    at Express one and a half times [b] with the half rupee rounded up,
    [(3 * b + 1) / 2].  No rounding error enters. *)
Theorem price_by_tier types documentTypeId fallback b :
  base_of types documentTypeId = Some (of_Z b) ->
  0 < b < 2 ^ 51 ->
  computeFilePriceINR types documentTypeId (Some "Standard") fallback = of_Z b
  /\ computeFilePriceINR types documentTypeId (Some "Express") fallback
     = of_Z ((3 * b + 1) / 2)
  /\ computeFilePriceINR types documentTypeId (Some "Premium") fallback = of_Z (2 * b)
  /\ computeFilePriceINR types documentTypeId None fallback = of_Z b
  /\ ∀ t, t ≠ "Express" -> t ≠ "Premium" ->
          computeFilePriceINR types documentTypeId (Some t) fallback = of_Z b.
Proof.
  intros Hbase Hb.
  assert (Hsmall : of_Z b = mk b 0) by (apply of_Z_small; lia).
  assert (Htruthy : truthy (of_Z b) = true).
  { rewrite Hsmall. unfold truthy. cbn [mant].
    destruct (Z.eqb_spec b 0); [lia|reflexivity]. }
  assert (Hone : ∀ tier, tierMultiplier tier = of_Z 1 ->
            computeFilePriceINR types documentTypeId tier fallback = of_Z b).
  { intros tier Ht. rewrite (price_of_base _ _ _ _ _ Hbase Htruthy), Ht.
    rewrite Hsmall at 1. rewrite (of_Z_small 1) by (cbn; lia).
    unfold mul. cbn [mant expo]. rewrite Z.mul_1_r, round53_small by lia.
    reflexivity. }
  split; [apply Hone; reflexivity|]. split; [|split; [|split]].
  - rewrite (price_of_base _ _ _ _ _ Hbase Htruthy). f_equal.
    change (tierMultiplier (Some "Express")) with lit_1_5.
    rewrite Hsmall. unfold mul, lit_1_5. cbn [mant expo].
    rewrite round53_small by lia. unfold Math_round. cbn [mant expo].
    change (0 <=? 0 + -1) with false. cbv iota.
    change (- (0 + -1)) with 1. rewrite Z.shiftr_div_pow2 by lia.
    change (2 ^ 1) with 2.
    replace (2 * (b * 3) + 2) with ((3 * b + 1) * 2) by lia.
    rewrite Z.div_mul by lia. reflexivity.
  - rewrite (price_of_base _ _ _ _ _ Hbase Htruthy). f_equal.
    change (tierMultiplier (Some "Premium")) with (of_Z 2).
    rewrite Hsmall, (of_Z_small 2) by (cbn; lia).
    unfold mul. cbn [mant expo]. rewrite round53_small by lia.
    unfold Math_round. cbn [mant expo]. change (0 <=? 0 + 0) with true. cbv iota.
    change (0 + 0) with 0. rewrite Z.shiftl_0_r. lia.
  - apply Hone. reflexivity.
  - intros t H1 H2. apply Hone. unfold tierMultiplier.
    destruct (String.eqb_spec t "Express"); [contradiction|].
    destruct (String.eqb_spec t "Premium"); [contradiction|reflexivity].
Qed.

(** X24. The price of a file is the fallback (100 rupees in the order
    summary) when the table has no entry for its document type, or the
    entry has no base price, or a base price of zero. *)
Theorem price_falls_back types documentTypeId tier fallback :
  (base_of types documentTypeId = None
   \/ ∃ z, base_of types documentTypeId = Some z /\ truthy z = false) ->
  computeFilePriceINR types documentTypeId tier fallback = fallback.
Proof.
  unfold base_of, computeFilePriceINR.
  destruct (find_type types documentTypeId) as [doc|]; [|reflexivity].
  cbn. intros [Hnone|(z & Hz & Hf)].
  - rewrite Hnone. reflexivity.
  - rewrite Hz, Hf. reflexivity.
Qed.

Lemma fold_prices ps : ∀ a,
  0 <= a -> Forall (fun p => 0 <= p) ps -> a + sum ps < 2 ^ 53 ->
  fold_left (fun s p => add s p) (of_Z <$> ps) (of_Z a) = of_Z (a + sum ps).
Proof.
  induction ps as [|p ps IH]; intros a Ha Hps Hsum; cbn [fmap list_fmap fold_left sum foldr].
  - f_equal. lia.
  - inversion Hps as [|? ? Hp Hps']; subst. fold (sum ps) in *. cbn [sum foldr] in Hsum.
    fold (sum ps) in Hsum.
    assert (Hnn : 0 <= sum ps).
    { clear -Hps'. induction Hps'; cbn; [lia|]. fold (sum l). lia. }
    rewrite add_integers by lia. rewrite IH by (assumption || lia). f_equal. lia.
Qed.

(** X25. When the prices are non-negative integers whose sum stays below
    [2 ^ 53], the subtotal computed on the page is exactly their sum and the
    total is exactly subtotal plus tax; a subtotal supplied by the server
    replaces the computed one. *)
Theorem amounts_are_exact_sums its ps :
  price <$> its = of_Z <$> ps ->
  Forall (fun p => 0 <= p) ps ->
  sum ps < 2 ^ 53 ->
  subtotal None its = of_Z (sum ps)
  /\ (∀ gst, 0 <= gst -> sum ps + gst < 2 ^ 53 ->
        totalAmount None (subtotal None its) (of_Z gst) = of_Z (sum ps + gst))
  /\ (∀ c s, calc_subtotal c = Some s -> subtotal (Some c) its = s).
Proof.
  intros Hprices Hps Hsum.
  assert (Hsub : subtotal None its = of_Z (sum ps)).
  { unfold subtotal. cbn [mbind option_bind].
    replace (sum ps) with (0 + sum ps) by lia.
    rewrite <- (fold_prices ps 0) by (assumption || lia).
    rewrite <- Hprices. clear. generalize (of_Z 0).
    induction its as [|it its IH]; intros acc; [reflexivity|]. cbn. apply IH. }
  assert (Hnn : 0 <= sum ps).
  { clear -Hps. induction Hps; cbn; [lia|]. fold (sum l). lia. }
  split; [exact Hsub|]. split.
  - intros gst Hg Hbound. rewrite Hsub. unfold totalAmount. cbn [mbind option_bind].
    apply add_integers; lia.
  - intros c s Hs. unfold subtotal. cbn [mbind option_bind]. rewrite Hs. reflexivity.
Qed.

Lemma price_by_tier_witness :
  computeFilePriceINR PaymentSample.types (Some "noc") (Some "Express") unitPrice
    = of_Z 375
  /\ computeFilePriceINR
       [mkDocumentType "aff" "Affidavit" (Some (of_Z 333)) false]
       (Some "aff") (Some "Express") unitPrice = of_Z 500
  /\ computeFilePriceINR PaymentSample.types (Some "noc") (Some "express") unitPrice
     = of_Z 250.
Proof.
  destruct (price_by_tier PaymentSample.types (Some "noc") unitPrice 250)
    as (_ & Hexpress & _ & _ & Hother); [reflexivity|lia|].
  destruct (price_by_tier [mkDocumentType "aff" "Affidavit" (Some (of_Z 333)) false]
              (Some "aff") unitPrice 333)
    as (_ & Hodd & _); [reflexivity|lia|].
  split; [exact Hexpress|]. split; [exact Hodd|]. apply Hother; discriminate.
Defined.

Lemma price_falls_back_witness :
  computeFilePriceINR PaymentSample.types (Some "deed") (Some "Premium") unitPrice
    = unitPrice
  /\ computeFilePriceINR [mkDocumentType "free" "Free" (Some (of_Z 0)) false]
       (Some "free") (Some "Premium") unitPrice = unitPrice.
Proof.
  split; apply price_falls_back.
  - left. reflexivity.
  - right. eexists. split; reflexivity.
Defined.

Lemma amounts_are_exact_sums_witness :
  subtotal None (items PaymentSample.types PaymentSample.order PaymentSample.ctx_files)
    = of_Z 3000
  /\ totalAmount None
       (subtotal None (items PaymentSample.types PaymentSample.order
                             PaymentSample.ctx_files)) (of_Z 540)
     = of_Z 3540.
Proof.
  destruct (amounts_are_exact_sums
              (items PaymentSample.types PaymentSample.order PaymentSample.ctx_files)
              [1000; 2000]) as (Hsub & Htotal & _).
  - reflexivity.
  - repeat constructor; lia.
  - cbn. lia.
  - split; [exact Hsub|]. apply (Htotal 540); cbn; lia.
Defined.

End AmountFacts.

(** * What the upload dialog shows *)
Module RenderFacts.
Import Payment PaymentVocabulary PaymentFacts.

(** X26. The rows of the upload dialog: the list shown is the rows of the
    context followed by those of IndexedDB with some rows left out, in
    order; every identity of either source is shown; and when the context
    holds a file, the row shown for its identity is the row of the
    context. *)
Theorem render_list_prefers_context ctx idb :
  uploadRenderList ctx idb
    `sublist_of` (render_entries "ctx" ctx ++ render_entries "idb" idb)
  /\ (∀ x, x ∈ render_entries "ctx" ctx ++ render_entries "idb" idb ->
           _identity x ∈ identities (uploadRenderList ctx idb))
  /\ (∀ x, x ∈ uploadRenderList ctx idb ->
           _identity x ∈ identities (render_entries "ctx" ctx) ->
           x ∈ render_entries "ctx" ctx).
Proof.
  unfold uploadRenderList. split; [apply dedupe_sublist|]. split.
  - intros x Hx. destruct (dedupe_covers _ ∅ x Hx) as [Hs|Hs]; [set_solver|exact Hs].
  - intros x Hx Hid. rewrite dedupe_app in Hx. apply elem_of_app in Hx.
    destruct Hx as [Hx|Hx].
    + exact (elem_of_sublist _ _ _ Hx (dedupe_sublist _ _)).
    + exfalso. apply dedupe_unseen in Hx. apply Hx.
      apply elem_of_union. left. apply elem_of_list_to_set. exact Hid.
Qed.

Lemma render_list_prefers_context_witness :
  Forall (fun x => _identity x = "f-16" -> re_name x = Some "return-2023.pdf")
         (uploadRenderList PaymentSample.ctx_files
            [mkSourceFile (Some "f-16") (Some "copy.pdf") (Some 1) None None]).
Proof.
  apply Forall_forall. intros x Hx Hid.
  destruct (render_list_prefers_context PaymentSample.ctx_files
              [mkSourceFile (Some "f-16") (Some "copy.pdf") (Some 1) None None])
    as (_ & _ & Hctx).
  specialize (Hctx x Hx). rewrite Hid in Hctx.
  assert (Hin : x ∈ render_entries "ctx" PaymentSample.ctx_files)
    by (apply Hctx; cbn; left).
  cbn in Hin. apply elem_of_cons in Hin. destruct Hin as [->|Hin]; [reflexivity|].
  apply list_elem_of_singleton in Hin. subst x. discriminate Hid.
Defined.

(** X27. When every order line has a non-empty file id and the file ids are
    pairwise distinct, the keys of the order lines are pairwise
    distinct. *)
Theorem order_keys_distinct types order :
  (∀ it, it ∈ order -> ∃ f, fileId it = Some f /\ JS.truthy f = true) ->
  NoDup (fileId <$> order) ->
  NoDup (id <$> normalizedOrderItems types order).
Proof.
  intros Hids Hnd. unfold normalizedOrderItems. rewrite fmap_imap.
  rewrite (imap_ext _ (fun _ it => String.append "order:" (default "" (fileId it)))).
  - pose proof (imap_const (fun it => String.append "order:" (default "" (fileId it)))
                  order) as Hc.
    unfold const in Hc. rewrite Hc. clear Hc.
    rewrite (list_fmap_compose fileId (fun o => String.append "order:" (default "" o))).
    apply NoDup_fmap_2_strong; [|exact Hnd].
    intros o1 o2 H1 H2 Heq.
    apply list_elem_of_fmap in H1. destruct H1 as (it1 & -> & Hit1).
    apply list_elem_of_fmap in H2. destruct H2 as (it2 & -> & Hit2).
    destruct (Hids it1 Hit1) as (f1 & E1 & _). destruct (Hids it2 Hit2) as (f2 & E2 & _).
    rewrite E1, E2 in *. cbn in Heq. f_equal.
    exact (String.app_inj "order:" _ _ Heq).
  - intros i it Hi. cbn.
    destruct (Hids it (list_elem_of_lookup_2 _ _ _ Hi)) as (f & E & Ht).
    rewrite stableItemKey_single by apply order_identity_truthy.
    unfold order_identity. rewrite E. cbn. rewrite Ht. reflexivity.
Qed.

Lemma order_keys_distinct_witness :
  NoDup (id <$> normalizedOrderItems PaymentSample.types
                  [mkOrderItem (Some "f-16") (Some "itr") None None;
                   mkOrderItem (Some "f-17") (Some "itr") None None]).
Proof.
  apply order_keys_distinct.
  - intros it Hit. apply elem_of_cons in Hit. destruct Hit as [->|Hit].
    + eexists. split; reflexivity.
    + apply list_elem_of_singleton in Hit. subst it. eexists. split; reflexivity.
  - cbn. apply NoDup_cons. split; [|apply NoDup_singleton].
    intros Hin. apply list_elem_of_singleton in Hin. discriminate Hin.
Defined.

End RenderFacts.
